(** * Booking lifecycle, geo search, payment simulation and review gate

    A shallow embedding of the service-finder backend
    ([servicemgmt/models.py], [servicemgmt/serializers.py],
    [servicemgmt/views.py], [usermgmt/models.py], [usermgmt/permissions.py])
    and the properties of its booking state machine, search partition,
    payment simulator and review gate.

    Conventions of the embedding:
    - [CharField]s with choices are Python strings and stay strings here;
    - [Decimal] and [float] values are exact rationals ([Q]), a float being
      the rational it denotes; where the source computes on floats the
      result is rounded to the nearest double ([Py.float]); [timezone.now()]
      is an integer instant handed to every operation;
    - a nullable column is an [option]; a datetime is always truthy, so
      [not self.confirmed_at] is "the column is [None]";
    - a table is the list of its rows in insertion order, a foreign key is
      the referenced object as Python holds it (a possibly stale copy),
      and two model instances are equal when their primary keys are;
    - an operation that raises returns an error value. *)

From Stdlib Require Import List String Ascii Bool Arith ZArith QArith Lia Lqa.
From Stdlib Require Import Qround Qabs DecimalString Sorted.
Import ListNotations.

Local Open Scope string_scope.
Local Open Scope list_scope.

(* ================================================================= *)
(** ** Python helpers *)

Module Py.

(** [x in choices] for strings. *)
Definition str_in (x : string) (choices : list string) : bool :=
  existsb (String.eqb x) choices.

(** Truthiness of an optional number: [None] and zero are falsy. *)
Definition truthy (x : option Q) : bool :=
  match x with
  | None => false
  | Some q => negb (Qeq_bool q 0)
  end.

(** [int(x)] on a float: truncation toward zero. *)
Definition int (x : Q) : Z := Z.quot (Qnum x) (Zpos (Qden x)).

(** [round(x)] on a float: nearest integer, ties to the even one. *)
Definition round (x : Q) : Z :=
  let f := Qfloor x in
  let r := (x - inject_Z f)%Q in
  match Qcompare r (1 # 2) with
  | Lt => f
  | Gt => (f + 1)%Z
  | Eq => if Z.even f then f else (f + 1)%Z
  end.

(** [str(n)] for an integer. *)
Definition str (n : Z) : string := NilZero.string_of_int (Z.to_int n).

Definition upper_char (c : ascii) : ascii :=
  let n := nat_of_ascii c in
  if (97 <=? n)%nat && (n <=? 122)%nat then ascii_of_nat (n - 32) else c.

Definition lower_char (c : ascii) : ascii :=
  let n := nat_of_ascii c in
  if (65 <=? n)%nat && (n <=? 90)%nat then ascii_of_nat (n + 32) else c.

Fixpoint map_str (f : ascii -> ascii) (s : string) : string :=
  match s with
  | EmptyString => EmptyString
  | String c r => String (f c) (map_str f r)
  end.

(** [s.upper()] and [s.lower()] on ASCII text. *)
Definition upper : string -> string := map_str upper_char.
Definition lower : string -> string := map_str lower_char.

(** [s[:n]]. *)
Definition take (n : nat) (s : string) : string := substring 0 n s.

(** [needle in s]. *)
Fixpoint contains (needle s : string) : bool :=
  prefix needle s ||
  match s with
  | EmptyString => false
  | String _ r => contains needle r
  end.

(** The [icontains] lookup of the ORM. *)
Definition icontains (s needle : string) : bool :=
  contains (lower needle) (lower s).

(** [all([...])] over optional numbers. *)
Definition all (xs : list (option Q)) : bool := forallb truthy xs.

(** [not x] on a nullable datetime: a datetime is never falsy. *)
Definition not_ {A : Type} (x : option A) : bool :=
  match x with
  | None => true
  | Some _ => false
  end.

(** [x < y] on floats. *)
Definition ltb (x y : Q) : bool := negb (Qle_bool y x).

(** Two to the power [e]. *)
Definition pow2 (e : Z) : Q :=
  if (0 <=? e)%Z then inject_Z (2 ^ e) else / inject_Z (2 ^ (- e)).

(** The exponent of a positive rational: the [e] with [2^e <= x < 2^(e+1)]. *)
Definition ilog2 (x : Q) : Z :=
  let e := (Z.log2 (Qnum x) - Z.log2 (Zpos (Qden x)))%Z in
  if Qle_bool (pow2 e) x then e else (e - 1)%Z.

(** The double nearest to a rational, ties to the even significand: 53
    significant bits, and below [2^-1022] the fixed spacing [2^-1074] of the
    subnormal doubles.  This is what [float(x)] answers on a [Decimal] and
    how every arithmetic operation on floats rounds its exact result. *)
Definition float (x : Q) : Q :=
  if Qeq_bool x 0 then 0
  else
    let a := Qabs x in
    let u := pow2 (Z.max (ilog2 a - 52) (-1074)) in
    let y := (inject_Z (round (a / u)) * u)%Q in
    Qred (if Qle_bool 0 x then y else - y).

(** An exact result too large for a double: the operation answers [inf]. *)
Definition isinf (x : Q) : bool :=
  Qle_bool (inject_Z (2 ^ 1024 - 2 ^ 970)) (Qabs x).

(** [x / y] and [x * y] on floats, for a finite result. *)
Definition truediv (x y : Q) : Q := float (x / y).
Definition mul (x y : Q) : Q := float (x * y).

(** [x or default] on an optional number. *)
Definition or_ (x : option Q) (default : Q) : Q :=
  match x with
  | Some q => if Qeq_bool q 0 then default else q
  | None => default
  end.

(** What a request does besides reading and writing rows. *)
Inductive effect :=
| Uuid4
| Sleep (seconds : Z)
| RandomDraw.

End Py.

(* ================================================================= *)
(** ** Rows of the data model *)

Module User.
Record t := mk {
  id : nat;
  role : string;
  is_active : bool;
  latitude : option Q;
  longitude : option Q
}.

Definition is_customer (u : t) : bool := role u =? "customer".
Definition is_provider (u : t) : bool := role u =? "provider".

(** [u == v] on model instances. *)
Definition eqb (u v : t) : bool := Nat.eqb (id u) (id v).

(** [a == b] where either side may be [None]. *)
Definition opt_eqb (a b : option t) : bool :=
  match a, b with
  | None, None => true
  | Some u, Some v => eqb u v
  | _, _ => false
  end.
End User.

Module ServiceProviderProfile.
Record t := mk {
  user : User.t;
  average_rating : Q;
  total_reviews : nat
}.
End ServiceProviderProfile.

Module ProviderService.
Record t := mk {
  id : nat;
  provider : User.t;
  category_name : string;
  base_price : Q;
  is_active : bool
}.
End ProviderService.

Module ServiceBooking.
Definition BOOKING_STATUS : list string :=
  ["pending"; "confirmed"; "in_progress"; "completed"; "cancelled"; "rejected"].

Definition PAYMENT_STATUS : list string :=
  ["pending"; "paid"; "failed"; "refunded"].

Record t := mk {
  id : nat;
  customer : User.t;
  provider : User.t;
  service : ProviderService.t;
  booking_date : Z;
  service_latitude : option Q;
  service_longitude : option Q;
  distance_km : option Q;
  estimated_travel_time : option string;
  status : string;
  quoted_price : Q;
  payment_status : string;
  confirmed_at : option Z;
  completed_at : option Z;
  cancelled_at : option Z
}.

Definition set_status (s : string) (b : t) : t :=
  mk (id b) (customer b) (provider b) (service b) (booking_date b)
     (service_latitude b) (service_longitude b) (distance_km b)
     (estimated_travel_time b) s (quoted_price b) (payment_status b)
     (confirmed_at b) (completed_at b) (cancelled_at b).

Definition set_payment_status (s : string) (b : t) : t :=
  mk (id b) (customer b) (provider b) (service b) (booking_date b)
     (service_latitude b) (service_longitude b) (distance_km b)
     (estimated_travel_time b) (status b) (quoted_price b) s
     (confirmed_at b) (completed_at b) (cancelled_at b).

Definition set_confirmed_at (x : option Z) (b : t) : t :=
  mk (id b) (customer b) (provider b) (service b) (booking_date b)
     (service_latitude b) (service_longitude b) (distance_km b)
     (estimated_travel_time b) (status b) (quoted_price b) (payment_status b)
     x (completed_at b) (cancelled_at b).

Definition set_completed_at (x : option Z) (b : t) : t :=
  mk (id b) (customer b) (provider b) (service b) (booking_date b)
     (service_latitude b) (service_longitude b) (distance_km b)
     (estimated_travel_time b) (status b) (quoted_price b) (payment_status b)
     (confirmed_at b) x (cancelled_at b).

Definition set_cancelled_at (x : option Z) (b : t) : t :=
  mk (id b) (customer b) (provider b) (service b) (booking_date b)
     (service_latitude b) (service_longitude b) (distance_km b)
     (estimated_travel_time b) (status b) (quoted_price b) (payment_status b)
     (confirmed_at b) (completed_at b) x.

(** The [is_active] property. *)
Definition is_active (b : t) : bool :=
  Py.str_in (status b) ["pending"; "confirmed"; "in_progress"].
End ServiceBooking.

Module Review.
Record t := mk {
  id : nat;
  booking : ServiceBooking.t;
  customer : User.t;
  provider : User.t;
  service : ProviderService.t;
  rating : nat
}.
End Review.

Module Json.
(** Values of the [gateway_response] payload. *)
Inductive value :=
| Str (s : string)
| Timestamp (t : Z).

Definition object := list (string * value).
End Json.

Module Payment.
Record t := mk {
  id : nat;
  payment_id : string;            (* hex digits of the UUID *)
  booking : ServiceBooking.t;
  customer : User.t;
  amount : Q;
  payment_method : string;
  status : string;
  transaction_id : option string;
  gateway_response : option Json.object;
  failure_reason : option string;
  processed_at : option Z;
  completed_at : option Z;
  failed_at : option Z
}.

Definition set_booking (x : ServiceBooking.t) (p : t) : t :=
  mk (id p) (payment_id p) x (customer p) (amount p) (payment_method p)
     (status p) (transaction_id p) (gateway_response p) (failure_reason p)
     (processed_at p) (completed_at p) (failed_at p).

Definition set_status (x : string) (p : t) : t :=
  mk (id p) (payment_id p) (booking p) (customer p) (amount p) (payment_method p)
     x (transaction_id p) (gateway_response p) (failure_reason p)
     (processed_at p) (completed_at p) (failed_at p).

Definition set_transaction_id (x : option string) (p : t) : t :=
  mk (id p) (payment_id p) (booking p) (customer p) (amount p) (payment_method p)
     (status p) x (gateway_response p) (failure_reason p)
     (processed_at p) (completed_at p) (failed_at p).

Definition set_gateway_response (x : option Json.object) (p : t) : t :=
  mk (id p) (payment_id p) (booking p) (customer p) (amount p) (payment_method p)
     (status p) (transaction_id p) x (failure_reason p)
     (processed_at p) (completed_at p) (failed_at p).

Definition set_failure_reason (x : option string) (p : t) : t :=
  mk (id p) (payment_id p) (booking p) (customer p) (amount p) (payment_method p)
     (status p) (transaction_id p) (gateway_response p) x
     (processed_at p) (completed_at p) (failed_at p).

Definition set_processed_at (x : option Z) (p : t) : t :=
  mk (id p) (payment_id p) (booking p) (customer p) (amount p) (payment_method p)
     (status p) (transaction_id p) (gateway_response p) (failure_reason p)
     x (completed_at p) (failed_at p).

Definition set_completed_at (x : option Z) (p : t) : t :=
  mk (id p) (payment_id p) (booking p) (customer p) (amount p) (payment_method p)
     (status p) (transaction_id p) (gateway_response p) (failure_reason p)
     (processed_at p) x (failed_at p).

Definition set_failed_at (x : option Z) (p : t) : t :=
  mk (id p) (payment_id p) (booking p) (customer p) (amount p) (payment_method p)
     (status p) (transaction_id p) (gateway_response p) (failure_reason p)
     (processed_at p) (completed_at p) x.
End Payment.

Module Notification.
Record t := mk {
  id : nat;
  user : User.t;
  notification_type : string;
  title : string;
  booking : option nat;
  review : option nat
}.
End Notification.

(* ================================================================= *)
(** ** The database *)

Module DB.
Record t := mk {
  services : list ProviderService.t;
  profiles : list ServiceProviderProfile.t;
  bookings : list ServiceBooking.t;
  reviews : list Review.t;
  payments : list Payment.t;
  notifications : list Notification.t
}.

Definition empty : t := mk [] [] [] [] [] [].

Section Table.
Context {A : Type} (pk : A -> nat).

(** The primary key given to the next inserted row. *)
Definition next_pk (rows : list A) : nat := S (list_max (map pk rows)).

Definition get (k : nat) (rows : list A) : option A :=
  find (fun r => Nat.eqb (pk r) k) rows.

(** [super().save()]: overwrite the row with this key, or insert it. *)
Fixpoint upsert (x : A) (rows : list A) : list A :=
  match rows with
  | [] => [x]
  | r :: rest =>
      if Nat.eqb (pk r) (pk x) then x :: rest else r :: upsert x rest
  end.
End Table.

Definition with_bookings (l : list ServiceBooking.t) (d : t) : t :=
  mk (services d) (profiles d) l (reviews d) (payments d) (notifications d).
Definition with_profiles (l : list ServiceProviderProfile.t) (d : t) : t :=
  mk (services d) l (bookings d) (reviews d) (payments d) (notifications d).
Definition with_reviews (l : list Review.t) (d : t) : t :=
  mk (services d) (profiles d) (bookings d) l (payments d) (notifications d).
Definition with_payments (l : list Payment.t) (d : t) : t :=
  mk (services d) (profiles d) (bookings d) (reviews d) l (notifications d).
Definition with_notifications (l : list Notification.t) (d : t) : t :=
  mk (services d) (profiles d) (bookings d) (reviews d) (payments d) l.

(** [user.provider_profile], when the reverse one-to-one row exists. *)
Definition provider_profile (d : t) (u : User.t) : option ServiceProviderProfile.t :=
  find (fun p => User.eqb (ServiceProviderProfile.user p) u) (profiles d).

(** [hasattr(booking, 'review')]. *)
Definition has_review (d : t) (b : ServiceBooking.t) : bool :=
  existsb (fun r => Nat.eqb (ServiceBooking.id (Review.booking r)) (ServiceBooking.id b))
          (reviews d).

(** [Notification.objects.create(...)]. *)
Definition create_notification (u : User.t) (ty title : string)
           (b r : option nat) (d : t) : t :=
  with_notifications
    (notifications d ++
     [Notification.mk (next_pk Notification.id (notifications d)) u ty title b r])
    d.
End DB.

(** A booking object as Python holds it: the values of its columns and the
    cache of its reverse [review] relation ([None]: never looked up;
    [Some found]: looked up, with what the lookup found). *)
Module BookingInstance.
Record t := mk {
  row : ServiceBooking.t;
  review_cache : option bool
}.

(** An object just loaded from its row. *)
Definition loaded (b : ServiceBooking.t) : t := mk b None.
End BookingInstance.

(** What the outside world answers during one request: the instant
    [timezone.now()] returns, the hex digits of the successive [uuid.uuid4()]
    values, and the sample [random.random()] would return. *)
Module Env.
Record t := mk {
  now : Z;
  uuid4_hex : nat -> string;
  random : Q
}.
End Env.

(* ================================================================= *)
(** ** servicemgmt/models.py and usermgmt/models.py *)

Module models.

(** [ServiceBooking.save]. *)
Definition ServiceBooking_save (now : Z) (self : ServiceBooking.t) (db : DB.t)
  : ServiceBooking.t * DB.t :=
  let self :=
    if (ServiceBooking.status self =? "confirmed")
       && Py.not_ (ServiceBooking.confirmed_at self)
    then ServiceBooking.set_confirmed_at (Some now) self
    else if (ServiceBooking.status self =? "completed")
            && Py.not_ (ServiceBooking.completed_at self)
    then ServiceBooking.set_completed_at (Some now) self
    else if (ServiceBooking.status self =? "cancelled")
            && Py.not_ (ServiceBooking.cancelled_at self)
    then ServiceBooking.set_cancelled_at (Some now) self
    else self in
  (self, DB.with_bookings (DB.upsert ServiceBooking.id self (DB.bookings db)) db).

(** [hasattr(self, 'review')] on a booking object: the reverse one-to-one
    accessor answers from the object's cache when it was asked before, and
    otherwise queries the reviews and caches what it found, a miss
    included. *)
Definition hasattr_review (self : BookingInstance.t) (db : DB.t)
  : bool * BookingInstance.t :=
  match BookingInstance.review_cache self with
  | Some found => (found, self)
  | None =>
      let found := DB.has_review db (BookingInstance.row self) in
      (found, BookingInstance.mk (BookingInstance.row self) (Some found))
  end.

(** [ServiceBooking.can_be_reviewed]: the answer and the object afterwards
    ([and] does not evaluate [hasattr] when the status is another one). *)
Definition ServiceBooking_can_be_reviewed (self : BookingInstance.t) (db : DB.t)
  : bool * BookingInstance.t :=
  if ServiceBooking.status (BookingInstance.row self) =? "completed"
  then
    let '(found, self) := hasattr_review self db in
    (negb found, self)
  else (false, self).

(** [Avg('rating')] over a queryset: [None] on no rows. *)
Definition Avg (rows : list Review.t) : option Q :=
  match rows with
  | [] => None
  | _ => Some (inject_Z (Z.of_nat (list_sum (map Review.rating rows)))
               / inject_Z (Z.of_nat (List.length rows)))%Q
  end.

(** [ServiceProviderProfile.update_rating]: the profile object afterwards
    and the table.  The row is written with the value the object holds: the
    rounding of the [average_rating] column, a [DecimalField(3, 2)], is not
    part of the embedding. *)
Definition ServiceProviderProfile_update_rating
           (self : ServiceProviderProfile.t) (db : DB.t) : ServiceProviderProfile.t * DB.t :=
  let reviews :=
    filter (fun r => User.eqb (ProviderService.provider (Review.service r))
                              (ServiceProviderProfile.user self))
           (DB.reviews db) in
  let self :=
    match reviews with
    | _ :: _ =>
        ServiceProviderProfile.mk (ServiceProviderProfile.user self)
          (Py.or_ (Avg reviews) 0) (List.length reviews)
    | [] => ServiceProviderProfile.mk (ServiceProviderProfile.user self) 0 0
    end in
  (self,
   DB.with_profiles
     (DB.upsert (fun p => User.id (ServiceProviderProfile.user p)) self (DB.profiles db))
     db).

(** [Review.save]. *)
Definition Review_save (self : Review.t) (db : DB.t) : Review.t * DB.t :=
  let db := DB.with_reviews (DB.upsert Review.id self (DB.reviews db)) db in
  match DB.provider_profile db (Review.provider self) with
  | Some profile => (self, snd (ServiceProviderProfile_update_rating profile db))
  | None => (self, db)
  end.

Definition Payment_persist (self : Payment.t) (db : DB.t) : DB.t :=
  DB.with_payments (DB.upsert Payment.id self (DB.payments db)) db.

(** [Payment.save]. *)
Definition Payment_save (now : Z) (self : Payment.t) (db : DB.t) : Payment.t * DB.t :=
  if (Payment.status self =? "processing") && Py.not_ (Payment.processed_at self)
  then
    let self := Payment.set_processed_at (Some now) self in
    (self, Payment_persist self db)
  else if (Payment.status self =? "completed") && Py.not_ (Payment.completed_at self)
  then
    let self := Payment.set_completed_at (Some now) self in
    let '(booking, db) :=
      ServiceBooking_save now
        (ServiceBooking.set_payment_status "paid" (Payment.booking self)) db in
    let self := Payment.set_booking booking self in
    (self, Payment_persist self db)
  else if (Payment.status self =? "failed") && Py.not_ (Payment.failed_at self)
  then
    let self := Payment.set_failed_at (Some now) self in
    let '(booking, db) :=
      ServiceBooking_save now
        (ServiceBooking.set_payment_status "failed" (Payment.booking self)) db in
    let self := Payment.set_booking booking self in
    (self, Payment_persist self db)
  else (self, Payment_persist self db).

(** The outcome of [Payment.process_fake_payment]: the value returned, the
    payment object, the database, and the effects in the order they happen. *)
Record processed := mk_processed {
  success : bool;
  payment : Payment.t;
  db_after : DB.t;
  trace : list Py.effect
}.

(** [Payment.process_fake_payment]; [k] numbers the [uuid4()] call. *)
Definition Payment_process_fake_payment (env : Env.t) (k : nat)
           (self : Payment.t) (db : DB.t) : processed :=
  let self := Payment.set_status "processing" self in
  let self :=
    Payment.set_transaction_id
      (Some ("TXN_" ++ Py.upper (Py.take 12 (Env.uuid4_hex env k)))%string) self in
  let '(self, db) := Payment_save (Env.now env) self db in
  (* time.sleep(1) *)
  let now := (Env.now env + 1)%Z in
  let self :=
    if Py.ltb (Env.random env) (9 # 10) then
      let self := Payment.set_status "completed" self in
      Payment.set_gateway_response
        (Some [("status", Json.Str "success");
               ("transaction_id",
                Json.Str (match Payment.transaction_id self with
                          | Some x => x
                          | None => "None"
                          end));
               ("message", Json.Str "Payment processed successfully");
               ("gateway", Json.Str "FakePaymentGateway");
               ("timestamp", Json.Timestamp now)]) self
    else
      let self := Payment.set_status "failed" self in
      let self :=
        Payment.set_failure_reason (Some "Insufficient funds or card declined") self in
      Payment.set_gateway_response
        (Some [("status", Json.Str "failed");
               ("error_code", Json.Str "CARD_DECLINED");
               ("message", Json.Str "Insufficient funds or card declined");
               ("gateway", Json.Str "FakePaymentGateway");
               ("timestamp", Json.Timestamp now)]) self in
  let '(self, db) := Payment_save now self db in
  mk_processed (Payment.status self =? "completed") self db
               [Py.Uuid4; Py.Sleep 1; Py.RandomDraw].

End models.

(* ================================================================= *)
(** ** What an operation answers *)

Module rest.
Inductive outcome (A : Type) :=
| Ok (x : A)
| ValidationError (detail : string)        (* HTTP 400 *)
| PermissionDenied (detail : string)       (* HTTP 403 *)
| NotFound (detail : string)               (* HTTP 404 *)
| Raised (exception : string).             (* an uncaught Python exception *)

Arguments Ok {A} x.
Arguments ValidationError {A} detail.
Arguments PermissionDenied {A} detail.
Arguments NotFound {A} detail.
Arguments Raised {A} exception.

Definition is_ok {A : Type} (r : outcome A) : bool :=
  match r with
  | Ok _ => true
  | _ => false
  end.

(** Run [k] on a result; an error passes through unchanged. *)
Definition bind {A B : Type} (r : outcome A) (k : A -> outcome B) : outcome B :=
  match r with
  | Ok x => k x
  | ValidationError d => ValidationError d
  | PermissionDenied d => PermissionDenied d
  | NotFound d => NotFound d
  | Raised e => Raised e
  end.
End rest.

(** The functions of Python's [math] module and the two-digit [round] used by
    the distance calculators.  They are not computed here: both calculators
    are written over these operations exactly as the source composes them. *)
Module math.
Record t := mk {
  radians : Q -> Q;
  sin : Q -> Q;
  cos : Q -> Q;
  asin : Q -> Q;
  sqrt : Q -> Q;
  round2 : Q -> Q          (* [round(x, 2)] *)
}.
End math.

(* ================================================================= *)
(** ** servicemgmt/serializers.py *)

Module serializers.
Import rest.

(** The validated data of [ServiceBookingSerializer]: a dict in which every
    key may be missing ([data.get(key)] is then [None]).  Related fields are
    already resolved to their rows.  The fields of the request that no
    operation here reads ([service_address], the notes) are not carried: a
    request stands for the requests that agree with it on the fields below
    and are valid on the others.  A submitted [distance_km] has passed the
    [DecimalField(max_digits=5, decimal_places=2)] of the serializer. *)
Module BookingData.
Record t := mk {
  customer : option User.t;
  provider : option User.t;
  service : option ProviderService.t;
  booking_date : option Z;
  service_latitude : option Q;
  service_longitude : option Q;
  distance_km : option Q;
  estimated_travel_time : option string;
  status : option string;
  quoted_price : option Q;
  payment_status : option string
}.

Definition set_customer (x : option User.t) (d : t) : t :=
  mk x (provider d) (service d) (booking_date d) (service_latitude d)
     (service_longitude d) (distance_km d) (estimated_travel_time d)
     (status d) (quoted_price d) (payment_status d).

Definition set_distance_km (x : option Q) (d : t) : t :=
  mk (customer d) (provider d) (service d) (booking_date d) (service_latitude d)
     (service_longitude d) x (estimated_travel_time d)
     (status d) (quoted_price d) (payment_status d).

Definition set_estimated_travel_time (x : option string) (d : t) : t :=
  mk (customer d) (provider d) (service d) (booking_date d) (service_latitude d)
     (service_longitude d) (distance_km d) x
     (status d) (quoted_price d) (payment_status d).
End BookingData.

(** The choice fields of the booking serializer, derived from the model's
    [choices]: a submitted [status] or [payment_status] outside them is
    refused before [validate] runs. *)
Definition ServiceBookingSerializer_fields (data : BookingData.t) : outcome BookingData.t :=
  match BookingData.status data with
  | Some s =>
      if negb (Py.str_in s ServiceBooking.BOOKING_STATUS)
      then ValidationError "status is not a valid choice"
      else
        match BookingData.payment_status data with
        | Some s =>
            if negb (Py.str_in s ServiceBooking.PAYMENT_STATUS)
            then ValidationError "payment_status is not a valid choice"
            else Ok data
        | None => Ok data
        end
  | None =>
      match BookingData.payment_status data with
      | Some s =>
          if negb (Py.str_in s ServiceBooking.PAYMENT_STATUS)
          then ValidationError "payment_status is not a valid choice"
          else Ok data
      | None => Ok data
      end
  end.

(** [ServiceBookingSerializer.validate]. *)
Definition ServiceBookingSerializer_validate (now : Z) (data : BookingData.t)
  : outcome BookingData.t :=
  if User.opt_eqb (BookingData.customer data) (BookingData.provider data)
  then ValidationError "Cannot book your own service"
  else if match BookingData.customer data with
          | Some c => negb (User.is_customer c)
          | None => false
          end
  then ValidationError "Only customers can make bookings"
  else if match BookingData.provider data with
          | Some p => negb (User.is_provider p)
          | None => false
          end
  then ValidationError "Invalid service provider"
  else if match BookingData.booking_date data with
          | Some d => (d <=? now)%Z
          | None => false
          end
  then ValidationError "Booking date must be in the future"
  else Ok data.

(** [serializer.is_valid()]: the fields, then [validate]. *)
Definition ServiceBookingSerializer_is_valid (now : Z) (data : BookingData.t)
  : outcome BookingData.t :=
  match ServiceBookingSerializer_fields data with
  | Ok data => ServiceBookingSerializer_validate now data
  | err => err
  end.

(** The fields a request that is not partial ([POST]) must carry: the
    writable fields of the serializer whose column has neither a default nor
    [null=True].  This check belongs to the field stage and so runs before
    [validate]. *)
Definition ServiceBookingSerializer_required (data : BookingData.t)
  : outcome BookingData.t :=
  match BookingData.customer data, BookingData.provider data, BookingData.service data,
        BookingData.booking_date data, BookingData.quoted_price data with
  | Some _, Some _, Some _, Some _, Some _ => Ok data
  | _, _, _, _, _ => ValidationError "This field is required."
  end.

Section Distance.
Variable m : math.t.

(** The haversine formula as both calculators spell it out. *)
Definition haversine (lat1 lng1 lat2 lng2 : Q) : Q :=
  let lat1 := math.radians m lat1 in
  let lng1 := math.radians m lng1 in
  let lat2 := math.radians m lat2 in
  let lng2 := math.radians m lng2 in
  let dlat := (lat2 - lat1)%Q in
  let dlng := (lng2 - lng1)%Q in
  let a := (math.sin m (dlat / 2) ^ 2
            + math.cos m lat1 * math.cos m lat2 * math.sin m (dlng / 2) ^ 2)%Q in
  let c := (2 * math.asin m (math.sqrt m a))%Q in
  let r := 6371%Q in
  math.round2 m (c * r)%Q.

(** [math.sqrt(x)] raises [ValueError] below zero, [math.asin(x)] outside
    [-1, 1]. *)
Definition math_sqrt (x : Q) : outcome Q :=
  if Py.ltb x 0 then Raised "ValueError: math domain error"
  else Ok (math.sqrt m x).

Definition math_asin (x : Q) : outcome Q :=
  if Py.ltb x (-1) || Py.ltb 1 x then Raised "ValueError: math domain error"
  else Ok (math.asin m x).

(** [ServiceBookingSerializer.calculate_distance]. *)
Definition ServiceBookingSerializer_calculate_distance
           (customer_lat customer_lng provider_lat provider_lng : Q)
  : outcome (option Q) :=
  if negb (Py.all [Some customer_lat; Some customer_lng;
                   Some provider_lat; Some provider_lng])
  then Ok None
  else
    let lat1 := math.radians m customer_lat in
    let lng1 := math.radians m customer_lng in
    let lat2 := math.radians m provider_lat in
    let lng2 := math.radians m provider_lng in
    let dlat := (lat2 - lat1)%Q in
    let dlng := (lng2 - lng1)%Q in
    let a := (math.sin m (dlat / 2) ^ 2
              + math.cos m lat1 * math.cos m lat2 * math.sin m (dlng / 2) ^ 2)%Q in
    bind (math_sqrt a) (fun root =>
    bind (math_asin root) (fun angle =>
    let c := (2 * angle)%Q in
    let r := 6371%Q in
    Ok (Some (math.round2 m (c * r)%Q)))).

(** What the [distance_km] column, a [DecimalField(max_digits=5,
    decimal_places=2)], does with a float handed to [save]: the float is
    rounded to five significant digits and then put on two decimal places,
    which raises [decimal.InvalidOperation] when that takes more than five
    digits, that is from 999.995 on. *)
Definition distance_km_overflows (distance : Q) : bool :=
  Qle_bool (999995 # 1000) (Qabs distance).

(** [ModelSerializer.create] for bookings:
    [ServiceBooking.objects.create] on the validated data.  A missing NOT NULL
    column is an [IntegrityError]; [status] and [payment_status] default to
    ['pending']. *)
Definition ServiceBooking_objects_create (now : Z) (vd : BookingData.t) (db : DB.t)
  : outcome (ServiceBooking.t * DB.t) :=
  match BookingData.customer vd, BookingData.provider vd, BookingData.service vd,
        BookingData.booking_date vd, BookingData.quoted_price vd with
  | Some customer, Some provider, Some service, Some booking_date, Some quoted_price =>
      let status :=
        match BookingData.status vd with Some s => s | None => "pending" end in
      let payment_status :=
        match BookingData.payment_status vd with Some s => s | None => "pending" end in
      Ok (models.ServiceBooking_save now
            (ServiceBooking.mk (DB.next_pk ServiceBooking.id (DB.bookings db))
               customer provider service booking_date
               (BookingData.service_latitude vd) (BookingData.service_longitude vd)
               (BookingData.distance_km vd) (BookingData.estimated_travel_time vd)
               status quoted_price payment_status None None None)
            db)
  | _, _, _, _, _ => Raised "IntegrityError"
  end.

(** [ServiceBookingSerializer.create]. *)
Definition ServiceBookingSerializer_create (now : Z) (validated_data : BookingData.t)
           (db : DB.t) : outcome (ServiceBooking.t * DB.t) :=
  match BookingData.provider validated_data with
  | None => Raised "AttributeError"
  | Some provider =>
      if Py.all [BookingData.service_latitude validated_data;
                 BookingData.service_longitude validated_data;
                 User.latitude provider;
                 User.longitude provider]
      then
        match BookingData.service_latitude validated_data,
              BookingData.service_longitude validated_data,
              User.latitude provider, User.longitude provider with
        | Some slat, Some slng, Some plat, Some plng =>
            bind (ServiceBookingSerializer_calculate_distance slat slng plat plng)
                 (fun distance =>
            let validated_data := BookingData.set_distance_km distance validated_data in
            bind (match distance with
                  | Some d =>
                      if Py.truthy distance then
                        let travel_time_hours := Py.truediv d 30 in
                        if Py.isinf (travel_time_hours * 60)%Q
                        then Raised "OverflowError"     (* int(inf) *)
                        else
                          let travel_time_minutes :=
                            Py.int (Py.mul travel_time_hours 60) in
                          Ok (BookingData.set_estimated_travel_time
                                (Some (Py.str travel_time_minutes ++ " minutes")%string)
                                validated_data)
                      else Ok validated_data
                  | None => Ok validated_data
                  end)
                 (fun validated_data =>
            (* super().create(validated_data), the distance being a float *)
            match distance with
            | Some d =>
                if distance_km_overflows d then Raised "decimal.InvalidOperation"
                else ServiceBooking_objects_create now validated_data db
            | None => ServiceBooking_objects_create now validated_data db
            end))
        | _, _, _, _ => Raised "TypeError"       (* float(None) *)
        end
      else ServiceBooking_objects_create now validated_data db
  end.
End Distance.

(** [ModelSerializer.update] for bookings: every submitted field is assigned,
    then the instance is saved.  (A key carrying an explicit null is not
    told apart from a missing key.) *)
Definition ServiceBookingSerializer_update (now : Z) (instance : ServiceBooking.t)
           (vd : BookingData.t) (db : DB.t) : ServiceBooking.t * DB.t :=
  let pick {A : Type} (new : option A) (old : A) : A :=
    match new with Some x => x | None => old end in
  let pick_opt {A : Type} (new old : option A) : option A :=
    match new with Some x => Some x | None => old end in
  models.ServiceBooking_save now
    (ServiceBooking.mk (ServiceBooking.id instance)
       (pick (BookingData.customer vd) (ServiceBooking.customer instance))
       (pick (BookingData.provider vd) (ServiceBooking.provider instance))
       (pick (BookingData.service vd) (ServiceBooking.service instance))
       (pick (BookingData.booking_date vd) (ServiceBooking.booking_date instance))
       (pick_opt (BookingData.service_latitude vd) (ServiceBooking.service_latitude instance))
       (pick_opt (BookingData.service_longitude vd) (ServiceBooking.service_longitude instance))
       (pick_opt (BookingData.distance_km vd) (ServiceBooking.distance_km instance))
       (pick_opt (BookingData.estimated_travel_time vd)
                 (ServiceBooking.estimated_travel_time instance))
       (pick (BookingData.status vd) (ServiceBooking.status instance))
       (pick (BookingData.quoted_price vd) (ServiceBooking.quoted_price instance))
       (pick (BookingData.payment_status vd) (ServiceBooking.payment_status instance))
       (ServiceBooking.confirmed_at instance)
       (ServiceBooking.completed_at instance)
       (ServiceBooking.cancelled_at instance))
    db.

(** The validated data of [ReviewSerializer].  The title, the comment and
    the four category ratings of the request are not carried: a request
    stands for the requests that agree with it on the fields below and carry
    valid values for the others. *)
Module ReviewData.
Record t := mk {
  booking : option ServiceBooking.t;
  customer : option User.t;
  rating : option nat
}.

Definition set_customer (x : option User.t) (d : t) : t :=
  mk (booking d) x (rating d).
End ReviewData.

(** The fields of the review serializer, which run before [validate]:
    [booking], [customer] and [rating] are required; [booking], a one-to-one
    key, carries the uniqueness validator of its column; [rating] carries
    the validators of the model.  The first refusal in field order is the
    one answered here.  (The validator of [unique_together] runs next and
    cannot refuse what the uniqueness of [booking] let through.) *)
Definition ReviewSerializer_fields (db : DB.t) (data : ReviewData.t)
  : outcome ReviewData.t :=
  match ReviewData.booking data with
  | None => ValidationError "This field is required."
  | Some booking =>
      if DB.has_review db booking
      then ValidationError "review with this booking already exists."
      else
        match ReviewData.customer data with
        | None => ValidationError "This field is required."
        | Some _ =>
            match ReviewData.rating data with
            | None => ValidationError "This field is required."
            | Some rating =>
                if (rating <? 1)%nat
                then ValidationError "Ensure this value is greater than or equal to 1."
                else if (5 <? rating)%nat
                then ValidationError "Ensure this value is less than or equal to 5."
                else Ok data
            end
        end
  end.

(** [ReviewSerializer.validate]. *)
Definition ReviewSerializer_validate (db : DB.t) (data : ReviewData.t)
  : outcome ReviewData.t :=
  match ReviewData.booking data with
  | Some booking =>
      if negb (ServiceBooking.status booking =? "completed")
      then ValidationError "Can only review completed bookings"
      else if negb (User.opt_eqb (ReviewData.customer data)
                                 (Some (ServiceBooking.customer booking)))
      then ValidationError "Can only review your own bookings"
      else if DB.has_review db booking
      then ValidationError "Booking already has a review"
      else Ok data
  | None => Ok data
  end.

(** [ReviewSerializer.create]. *)
Definition ReviewSerializer_create (validated_data : ReviewData.t) (db : DB.t)
  : outcome (Review.t * DB.t) :=
  match ReviewData.booking validated_data with
  | None => Raised "KeyError"
  | Some booking =>
      match ReviewData.customer validated_data, ReviewData.rating validated_data with
      | Some customer, Some rating =>
          let '(review, db) :=
            models.Review_save
              (Review.mk (DB.next_pk Review.id (DB.reviews db)) booking customer
                 (ServiceBooking.provider booking) (ServiceBooking.service booking)
                 rating)
              db in
          Ok (review,
              DB.create_notification (Review.provider review) "review_received"
                "New Review Received" None (Some (Review.id review)) db)
      | _, _ => Raised "IntegrityError"
      end
  end.

(** The validated data of [PaymentSerializer]. *)
Module PaymentData.
Record t := mk {
  booking : option ServiceBooking.t;
  customer : option User.t;
  amount : option Q;
  payment_method : option string
}.

Definition set_customer (x : option User.t) (d : t) : t :=
  mk (booking d) x (amount d) (payment_method d).
End PaymentData.

(** [PaymentSerializer.validate]. *)
Definition PaymentSerializer_validate (data : PaymentData.t) : outcome PaymentData.t :=
  match PaymentData.booking data with
  | Some booking =>
      if negb (User.opt_eqb (PaymentData.customer data)
                            (Some (ServiceBooking.customer booking)))
      then ValidationError "Can only pay for your own bookings"
      else if negb (Py.str_in (ServiceBooking.status booking) ["confirmed"; "completed"])
      then ValidationError "Can only pay for confirmed bookings"
      else if match PaymentData.amount data with
              | Some a => negb (Qeq_bool a (ServiceBooking.quoted_price booking))
              | None => true
              end
      then ValidationError "Payment amount must match booking price"
      else Ok data
  | None => Ok data
  end.

(** The [payment_method] choice field of the payment serializer. *)
Definition PaymentSerializer_fields (data : PaymentData.t) : outcome PaymentData.t :=
  match PaymentData.payment_method data with
  | Some pm =>
      if negb (Py.str_in pm ["cash"; "online"; "card"; "wallet"])
      then ValidationError "payment_method is not a valid choice"
      else Ok data
  | None => ValidationError "This field is required."
  end.

(** [Payment.objects.create(...)]: a new row in ['pending'] with a fresh
    [payment_id]; [k] numbers the [uuid4()] call. *)
Definition Payment_objects_create (env : Env.t) (k : nat) (booking : ServiceBooking.t)
           (customer : User.t) (amount : Q) (payment_method : string) (db : DB.t)
  : Payment.t * DB.t :=
  models.Payment_save (Env.now env)
    (Payment.mk (DB.next_pk Payment.id (DB.payments db)) (Env.uuid4_hex env k)
       booking customer amount payment_method "pending" None None None None None None)
    db.

(** [ModelSerializer.create] for payments. *)
Definition PaymentSerializer_create (env : Env.t) (validated_data : PaymentData.t)
           (db : DB.t) : outcome (Payment.t * DB.t) :=
  match PaymentData.booking validated_data, PaymentData.customer validated_data,
        PaymentData.amount validated_data, PaymentData.payment_method validated_data with
  | Some booking, Some customer, Some amount, Some payment_method =>
      Ok (Payment_objects_create env 0 booking customer amount payment_method db)
  | _, _, _, _ => Raised "IntegrityError"
  end.

(** What [ServiceSearchSerializer] receives and what it validates to. *)
Module SearchData.
Record raw := mk_raw {
  raw_latitude : option Q;
  raw_longitude : option Q;
  raw_radius : option Z;
  raw_category : option string;
  raw_min_rating : option Q;
  raw_max_price : option Q;
  raw_sort_by : option string
}.

Record t := mk {
  latitude : Q;
  longitude : Q;
  radius : Z;
  category : option string;
  min_rating : option Q;
  max_price : option Q;
  sort_by : string
}.
End SearchData.

(** [ServiceSearchSerializer]: required coordinates, [radius] an integer in
    1..50 defaulting to 10, [min_rating] in 0..5, [max_price] at least 0,
    [sort_by] one of four choices defaulting to ['distance']. *)
Definition ServiceSearchSerializer_is_valid (d : SearchData.raw)
  : outcome SearchData.t :=
  match SearchData.raw_latitude d, SearchData.raw_longitude d with
  | Some latitude, Some longitude =>
      let radius := match SearchData.raw_radius d with Some r => r | None => 10%Z end in
      let sort_by :=
        match SearchData.raw_sort_by d with Some s => s | None => "distance" end in
      if negb ((1 <=? radius)%Z && (radius <=? 50)%Z)
      then ValidationError "radius out of range"
      else if match SearchData.raw_min_rating d with
              | Some r => negb (Qle_bool 0 r && Qle_bool r 5)
              | None => false
              end
      then ValidationError "min_rating out of range"
      else if match SearchData.raw_max_price d with
              | Some p => negb (Qle_bool 0 p)
              | None => false
              end
      then ValidationError "max_price out of range"
      else if negb (Py.str_in sort_by ["distance"; "rating"; "price"; "reviews"])
      then ValidationError "sort_by is not a valid choice"
      else Ok (SearchData.mk latitude longitude radius (SearchData.raw_category d)
                 (SearchData.raw_min_rating d) (SearchData.raw_max_price d) sort_by)
  | _, _ => ValidationError "This field is required."
  end.

End serializers.

(* ================================================================= *)
(** ** usermgmt/permissions.py *)

Module permissions.
(** [IsCustomer.has_permission] for an authenticated user. *)
Definition IsCustomer (user : User.t) : bool := User.role user =? "customer".

(** [IsProvider.has_permission] for an authenticated user. *)
Definition IsProvider (user : User.t) : bool := User.role user =? "provider".

(** [IsOwnerOrReadOnly.has_object_permission] for a writing method. *)
Definition IsOwnerOrReadOnly_write (user : User.t) (obj : ServiceBooking.t) : bool :=
  User.eqb (ServiceBooking.provider obj) user.
End permissions.

(* ================================================================= *)
(** ** servicemgmt/views.py *)

Module views.
Import rest serializers.

(** A service row carrying the two attributes the search attaches to it. *)
Module Hit.
Record t := mk {
  service : ProviderService.t;
  distance_km : Q;
  is_nearby : bool
}.
End Hit.

Record search_response := mk_search_response {
  nearby_services : list Hit.t;
  distant_services : list Hit.t;
  echo_latitude : Q;
  echo_longitude : Q;
  echo_radius : Z;
  total_nearby : nat;
  total_distant : nat
}.

(** The queryset of [ServiceSearchView.post] with its optional filters. *)
Definition ServiceSearchView_queryset (db : DB.t) (data : SearchData.t)
  : list ProviderService.t :=
  let services :=
    filter (fun s =>
              ProviderService.is_active s
              && User.is_active (ProviderService.provider s)
              && negb (Py.not_ (User.latitude (ProviderService.provider s)))
              && negb (Py.not_ (User.longitude (ProviderService.provider s))))
           (DB.services db) in
  let services :=
    match SearchData.category data with
    | Some category =>
        if negb (category =? "") then
          filter (fun s => Py.icontains (ProviderService.category_name s) category) services
        else services
    | None => services
    end in
  let services :=
    match SearchData.min_rating data with
    | Some min_rating =>
        if Py.truthy (Some min_rating) then
          filter (fun s =>
                    match DB.provider_profile db (ProviderService.provider s) with
                    | Some p => Qle_bool min_rating (ServiceProviderProfile.average_rating p)
                    | None => false
                    end) services
        else services
    | None => services
    end in
  match SearchData.max_price data with
  | Some max_price =>
      if Py.truthy (Some max_price) then
        filter (fun s => Qle_bool (ProviderService.base_price s) max_price) services
      else services
  | None => services
  end.

(** Python's stable [list.sort(key=...)]: the keys are computed first (a key
    that raises aborts the sort), then the items are ordered by key, equal
    keys keeping their order. *)
Section Sort.
Context {A : Type}.

Fixpoint insert_by (k : Q) (x : A) (l : list (Q * A)) : list (Q * A) :=
  match l with
  | [] => [(k, x)]
  | (k', y) :: rest =>
      if Py.ltb k' k then (k', y) :: insert_by k x rest
      else (k, x) :: (k', y) :: rest
  end.

Fixpoint sort_keyed (l : list (Q * A)) : list (Q * A) :=
  match l with
  | [] => []
  | (k, x) :: rest => insert_by k x (sort_keyed rest)
  end.

Fixpoint keyed (key : A -> outcome Q) (l : list A) : outcome (list (Q * A)) :=
  match l with
  | [] => Ok []
  | x :: rest =>
      bind (key x) (fun k => bind (keyed key rest) (fun ks => Ok ((k, x) :: ks)))
  end.

Definition list_sort (key : A -> outcome Q) (l : list A) : outcome (list A) :=
  bind (keyed key l) (fun ks => Ok (map snd (sort_keyed ks))).
End Sort.

(** The [sort_key] closure of [ServiceSearchView.post]. *)
Definition ServiceSearchView_sort_key (db : DB.t) (sort_by : string) (service : Hit.t)
  : outcome Q :=
  let profile := DB.provider_profile db (ProviderService.provider (Hit.service service)) in
  if sort_by =? "distance" then Ok (Hit.distance_km service)
  else if sort_by =? "rating" then
    match profile with
    | Some p => Ok (- ServiceProviderProfile.average_rating p)%Q
    | None => Raised "RelatedObjectDoesNotExist"
    end
  else if sort_by =? "price" then Ok (ProviderService.base_price (Hit.service service))
  else if sort_by =? "reviews" then
    match profile with
    | Some p => Ok (- inject_Z (Z.of_nat (ServiceProviderProfile.total_reviews p)))%Q
    | None => Raised "RelatedObjectDoesNotExist"
    end
  else Ok (Hit.distance_km service).

Section Search.
Variable m : math.t.

(** [ServiceSearchView.calculate_distance]. *)
Definition ServiceSearchView_calculate_distance (lat1 lng1 lat2 lng2 : Q) : Q :=
  haversine m lat1 lng1 lat2 lng2.

(** The loop of [ServiceSearchView.post] that fills the two buckets. *)
Fixpoint ServiceSearchView_buckets (latitude longitude : Q) (radius : Z)
         (services : list ProviderService.t) : outcome (list Hit.t * list Hit.t) :=
  match services with
  | [] => Ok ([], [])
  | service :: rest =>
      match User.latitude (ProviderService.provider service),
            User.longitude (ProviderService.provider service) with
      | Some plat, Some plng =>
          let distance :=
            ServiceSearchView_calculate_distance latitude longitude plat plng in
          let hit := Hit.mk service distance (Qle_bool distance (inject_Z radius)) in
          bind (ServiceSearchView_buckets latitude longitude radius rest)
               (fun '(nearby_services, distant_services) =>
                  if Qle_bool distance (inject_Z radius)
                  then Ok (hit :: nearby_services, distant_services)
                  else if Qle_bool distance 50
                  then Ok (nearby_services, hit :: distant_services)
                  else Ok (nearby_services, distant_services))
      | _, _ => Raised "TypeError"               (* float(None) *)
      end
  end.

(** [ServiceSearchView.post]. *)
Definition ServiceSearchView_post (db : DB.t) (user : User.t) (request : SearchData.raw)
  : outcome search_response :=
  if negb (permissions.IsCustomer user)
  then PermissionDenied "You do not have permission to perform this action."
  else
    bind (ServiceSearchSerializer_is_valid request) (fun data =>
    let latitude := SearchData.latitude data in
    let longitude := SearchData.longitude data in
    let radius := SearchData.radius data in
    let services := ServiceSearchView_queryset db data in
    bind (ServiceSearchView_buckets latitude longitude radius services)
         (fun '(nearby_services, distant_services) =>
    let sort_key := ServiceSearchView_sort_key db (SearchData.sort_by data) in
    bind (list_sort sort_key nearby_services) (fun nearby_services =>
    bind (list_sort sort_key distant_services) (fun distant_services =>
    Ok (mk_search_response nearby_services distant_services
          latitude longitude radius
          (List.length nearby_services) (List.length distant_services)))))).

(** [ServiceBookingListCreateView.perform_create]. *)
Definition ServiceBookingListCreateView_perform_create (now : Z) (user : User.t)
           (validated_data : BookingData.t) (db : DB.t)
  : outcome (ServiceBooking.t * DB.t) :=
  if negb (User.is_customer user)
  then PermissionDenied "Only customers can create bookings"
  else
    bind (ServiceBookingSerializer_create m now
            (BookingData.set_customer (Some user) validated_data) db)
         (fun '(booking, db) =>
            Ok (booking,
                DB.create_notification (ServiceBooking.provider booking)
                  "booking_request" "New Booking Request"
                  (Some (ServiceBooking.id booking)) None db)).

(** [POST /bookings/]: validation of a request that is not partial, then
    [perform_create]. *)
Definition ServiceBookingListCreateView_post (now : Z) (user : User.t)
           (data : BookingData.t) (db : DB.t) : outcome (ServiceBooking.t * DB.t) :=
  bind (ServiceBookingSerializer_required data) (fun data =>
  bind (ServiceBookingSerializer_is_valid now data) (fun validated_data =>
  ServiceBookingListCreateView_perform_create now user validated_data db)).
End Search.

(** [ServiceBookingDetailView.get_queryset]. *)
Definition ServiceBookingDetailView_get_queryset (user : User.t) (db : DB.t)
  : list ServiceBooking.t :=
  if User.is_customer user
  then filter (fun b => User.eqb (ServiceBooking.customer b) user) (DB.bookings db)
  else if User.is_provider user
  then filter (fun b => User.eqb (ServiceBooking.provider b) user) (DB.bookings db)
  else [].

(** [self.get_object()] of the detail view under a writing method: the row
    of the queryset with this key, then the object permission. *)
Definition ServiceBookingDetailView_get_object (user : User.t) (pk : nat) (db : DB.t)
  : outcome ServiceBooking.t :=
  match DB.get ServiceBooking.id pk (ServiceBookingDetailView_get_queryset user db) with
  | None => NotFound "No ServiceBooking matches the given query."
  | Some obj =>
      if permissions.IsOwnerOrReadOnly_write user obj then Ok obj
      else PermissionDenied "You do not have permission to perform this action."
  end.

(** [ServiceBookingDetailView.perform_update]. *)
Definition ServiceBookingDetailView_perform_update (now : Z) (user : User.t) (pk : nat)
           (validated_data : BookingData.t) (db : DB.t)
  : outcome (ServiceBooking.t * DB.t) :=
  bind (ServiceBookingDetailView_get_object user pk db) (fun booking =>
  let old_status := ServiceBooking.status booking in
  let new_status :=
    match BookingData.status validated_data with
    | Some s => s
    | None => old_status
    end in
  let '(booking, db) := ServiceBookingSerializer_update now booking validated_data db in
  let notify ty title :=
    DB.create_notification (ServiceBooking.customer booking) ty title
      (Some (ServiceBooking.id booking)) None db in
  if negb (old_status =? new_status) then
    if new_status =? "confirmed"
    then Ok (booking, notify "booking_confirmed" "Booking Confirmed")
    else if new_status =? "completed"
    then Ok (booking, notify "booking_completed" "Booking Completed")
    else if new_status =? "cancelled"
    then Ok (booking, notify "booking_cancelled" "Booking Cancelled")
    else Ok (booking, db)
  else Ok (booking, db)).

(** [PUT/PATCH /bookings/<pk>/]: the object, the validation of the submitted
    fields, then [perform_update]. *)
Definition ServiceBookingDetailView_update (now : Z) (user : User.t) (pk : nat)
           (data : BookingData.t) (db : DB.t) : outcome (ServiceBooking.t * DB.t) :=
  bind (ServiceBookingDetailView_get_object user pk db) (fun _ =>
  bind (ServiceBookingSerializer_is_valid now data) (fun validated_data =>
  ServiceBookingDetailView_perform_update now user pk validated_data db)).

(** [cancel_booking]. *)
Definition cancel_booking (now : Z) (user : User.t) (booking_id : nat) (db : DB.t)
  : outcome (ServiceBooking.t * DB.t) :=
  if negb (permissions.IsCustomer user)
  then PermissionDenied "You do not have permission to perform this action."
  else
    match find (fun b =>
                  Nat.eqb (ServiceBooking.id b) booking_id
                  && User.eqb (ServiceBooking.customer b) user
                  && Py.str_in (ServiceBooking.status b) ["pending"; "confirmed"])
               (DB.bookings db) with
    | Some booking =>
        let booking := ServiceBooking.set_status "cancelled" booking in
        let '(booking, db) := models.ServiceBooking_save now booking db in
        Ok (booking,
            DB.create_notification (ServiceBooking.provider booking)
              "booking_cancelled" "Booking Cancelled"
              (Some (ServiceBooking.id booking)) None db)
    | None => NotFound "Booking not found or cannot be cancelled"
    end.

(** [ReviewListCreateView.perform_create]. *)
Definition ReviewListCreateView_perform_create (user : User.t)
           (validated_data : ReviewData.t) (db : DB.t) : outcome (Review.t * DB.t) :=
  if negb (User.is_customer user)
  then PermissionDenied "Only customers can create reviews"
  else ReviewSerializer_create (ReviewData.set_customer (Some user) validated_data) db.

(** [POST /reviews/]: the fields of the serializer, [ReviewSerializer.validate],
    then [perform_create]. *)
Definition ReviewListCreateView_post (user : User.t) (data : ReviewData.t) (db : DB.t)
  : outcome (Review.t * DB.t) :=
  bind (ReviewSerializer_fields db data) (fun data =>
  bind (ReviewSerializer_validate db data) (fun validated_data =>
  ReviewListCreateView_perform_create user validated_data db)).

(** [PaymentListCreateView.perform_create]. *)
Definition PaymentListCreateView_perform_create (env : Env.t) (user : User.t)
           (validated_data : PaymentData.t) (db : DB.t) : outcome models.processed :=
  bind (PaymentSerializer_create env
          (PaymentData.set_customer (Some user) validated_data) db)
       (fun '(payment, db) =>
          let r := models.Payment_process_fake_payment env 1 payment db in
          let payment := models.payment r in
          let db :=
            if models.success r then
              DB.create_notification
                (ServiceBooking.provider (Payment.booking payment))
                "payment_received" "Payment Received"
                (Some (ServiceBooking.id (Payment.booking payment))) None
                (models.db_after r)
            else models.db_after r in
          Ok (models.mk_processed (models.success r) payment db
                (Py.Uuid4 :: models.trace r))).

(** [POST /payments/]. *)
Definition PaymentListCreateView_post (env : Env.t) (user : User.t)
           (data : PaymentData.t) (db : DB.t) : outcome models.processed :=
  if negb (permissions.IsCustomer user)
  then PermissionDenied "You do not have permission to perform this action."
  else
    bind (PaymentSerializer_fields data) (fun data =>
    bind (PaymentSerializer_validate data) (fun validated_data =>
    PaymentListCreateView_perform_create env user validated_data db)).

(** [ProcessPaymentView.post]; [payment_method] is the raw request value. *)
Definition ProcessPaymentView_post (env : Env.t) (user : User.t) (booking_id : nat)
           (payment_method : option string) (db : DB.t) : outcome models.processed :=
  if negb (permissions.IsCustomer user)
  then PermissionDenied "You do not have permission to perform this action."
  else
    match find (fun b =>
                  Nat.eqb (ServiceBooking.id b) booking_id
                  && User.eqb (ServiceBooking.customer b) user
                  && Py.str_in (ServiceBooking.status b) ["confirmed"; "completed"])
               (DB.bookings db) with
    | None => NotFound "Booking not found or not eligible for payment"
    | Some booking =>
        if existsb (fun p =>
                      Nat.eqb (ServiceBooking.id (Payment.booking p))
                              (ServiceBooking.id booking)
                      && (Payment.status p =? "completed"))
                   (DB.payments db)
        then ValidationError "Payment already completed for this booking"
        else
          let payment_method :=
            match payment_method with Some pm => pm | None => "online" end in
          let '(payment, db) :=
            Payment_objects_create env 0 booking user
              (ServiceBooking.quoted_price booking) payment_method db in
          if payment_method =? "cash" then
            let payment := Payment.set_status "completed" payment in
            let payment :=
              Payment.set_transaction_id
                (Some ("CASH_" ++ Py.upper (Py.take 12 (Payment.payment_id payment)))%string)
                payment in
            let payment :=
              Payment.set_gateway_response
                (Some [("status", Json.Str "success");
                       ("message", Json.Str "Cash payment recorded");
                       ("payment_method", Json.Str "cash")]) payment in
            let '(payment, db) := models.Payment_save (Env.now env) payment db in
            Ok (models.mk_processed (Payment.status payment =? "completed") payment db
                  [Py.Uuid4])
          else
            let r := models.Payment_process_fake_payment env 1 payment db in
            Ok (models.mk_processed (models.success r) (models.payment r)
                  (models.db_after r) (Py.Uuid4 :: models.trace r))
    end.

End views.

(* ================================================================= *)
(** ** Vocabulary of the properties *)

Module spec.

(** Successive [save()] calls on one booking object, at the given instants. *)
Fixpoint saves (times : list Z) (b : ServiceBooking.t) (db : DB.t)
  : ServiceBooking.t * DB.t :=
  match times with
  | [] => (b, db)
  | t :: rest =>
      let '(b, db) := models.ServiceBooking_save t b db in
      saves rest b db
  end.

(** The timestamp column that records reaching a status. *)
Definition stamp_of (status : string) (b : ServiceBooking.t) : option Z :=
  if status =? "confirmed" then ServiceBooking.confirmed_at b
  else if status =? "completed" then ServiceBooking.completed_at b
  else if status =? "cancelled" then ServiceBooking.cancelled_at b
  else None.

Definition stamped_statuses : list string := ["confirmed"; "completed"; "cancelled"].

Definition terminal_statuses : list string := ["completed"; "cancelled"; "rejected"].

(** The persisted row of a booking. *)
Definition booking_row (db : DB.t) (b : ServiceBooking.t) : option ServiceBooking.t :=
  DB.get ServiceBooking.id (ServiceBooking.id b) (DB.bookings db).

(** A service shows up in a bucket of the search response. *)
Definition in_bucket (s : ProviderService.t) (bucket : list views.Hit.t) : Prop :=
  exists h, In h bucket /\ views.Hit.service h = s.

(** The provider of a service is at a point. *)
Definition located (s : ProviderService.t) (plat plng : Q) : Prop :=
  User.latitude (ProviderService.provider s) = Some plat
  /\ User.longitude (ProviderService.provider s) = Some plng.

(** The row the search loop builds for a service whose provider is at a
    point. *)
Definition hit (m : math.t) (latitude longitude : Q) (radius : Z)
           (s : ProviderService.t) (plat plng : Q) : views.Hit.t :=
  let d := views.ServiceSearchView_calculate_distance m latitude longitude plat plng in
  views.Hit.mk s d (Qle_bool d (inject_Z radius)).

(** The reviews written for a provider: those whose [provider] is the user. *)
Definition reviews_for (db : DB.t) (u : User.t) : list Review.t :=
  filter (fun r => User.eqb (Review.provider r) u) (DB.reviews db).

(** The reviews of the services a provider owns. *)
Definition reviews_of_services_of (db : DB.t) (u : User.t) : list Review.t :=
  filter (fun r => User.eqb (ProviderService.provider (Review.service r)) u)
         (DB.reviews db).

(** Arithmetic mean of the overall ratings, [0] over no review. *)
Definition mean_rating (rows : list Review.t) : Q :=
  match models.Avg rows with
  | Some q => q
  | None => 0
  end.

(** [data.get(key, old)]. *)
Definition picked {A : Type} (new : option A) (old : A) : A :=
  match new with
  | Some x => x
  | None => old
  end.

(** The notifications an operation added. *)
Definition emitted (before after : DB.t) (new : list Notification.t) : Prop :=
  DB.notifications after = DB.notifications before ++ new.


(** The travel time with the minutes truncated toward zero:
    [int(distance_km / 30 * 60)], computed on floats. *)
Definition truncated_travel_time (distance_km : Q) : string :=
  (Py.str (Py.int (Py.mul (Py.truediv distance_km 30) 60)) ++ " minutes")%string.


(** The haversine formula stays within the domain of [math.sqrt] and
    [math.asin] on two points. *)
Definition in_domain (m : math.t) (lat1 lng1 lat2 lng2 : Q) : bool :=
  let lat1 := math.radians m lat1 in
  let lng1 := math.radians m lng1 in
  let lat2 := math.radians m lat2 in
  let lng2 := math.radians m lng2 in
  let dlat := (lat2 - lat1)%Q in
  let dlng := (lng2 - lng1)%Q in
  let a := (math.sin m (dlat / 2) ^ 2
            + math.cos m lat1 * math.cos m lat2 * math.sin m (dlng / 2) ^ 2)%Q in
  Qle_bool 0 a && Qle_bool (-1) (math.sqrt m a) && Qle_bool (math.sqrt m a) 1.


End spec.

(* ================================================================= *)
(** ** Sample rows *)

Module sample.
Definition alice : User.t :=
  User.mk 1 "customer" true (Some (407128 # 10000)) (Some (- 740060 # 10000)).
Definition bob : User.t :=
  User.mk 2 "provider" true (Some (407589 # 10000)) (Some (- 739851 # 10000)).
Definition carol : User.t := User.mk 3 "customer" true None None.
Definition dave : User.t := User.mk 4 "provider" true None None.

Definition plumbing : ProviderService.t := ProviderService.mk 1 bob "Plumbing" 100 true.
Definition wiring : ProviderService.t := ProviderService.mk 2 dave "Electrical" 80 true.

(** Alice's booking of Bob's plumbing service, in a given status. *)
Definition booking (status : string) : ServiceBooking.t :=
  ServiceBooking.mk 1 alice bob plumbing 1000 None None None None
    status 150 "pending" None None None.

(** A payment of that booking, in a given method and status. *)
Definition payment (method status : string) : Payment.t :=
  Payment.mk 1 "0123456789abcdef0123456789abcdef" (booking "confirmed") alice 150
    method status None None None None None None.

Definition db_with (b : ServiceBooking.t) : DB.t :=
  DB.mk [plumbing; wiring]
        [ServiceProviderProfile.mk bob 0 0; ServiceProviderProfile.mk dave 0 0]
        [b] [] [] [].

(** A submitted update that re-states the two parties and sets a status. *)
Definition status_update (status : string) : serializers.BookingData.t :=
  serializers.BookingData.mk (Some alice) (Some bob) None None
    None None None None (Some status) None None.

(** A booking request of Alice for Bob's plumbing service. *)
Definition booking_request (slat slng : option Q) : serializers.BookingData.t :=
  serializers.BookingData.mk None (Some bob) (Some plumbing) (Some 5000%Z)
    slat slng None None None (Some 150) None.

(** Operations of [math] under which the rounded haversine distance of any
    two points is 0.4 km, as it is for two points 400 m apart. *)
Definition short_walk : math.t :=
  math.mk (fun x => x) (fun x => x) (fun x => x) (fun x => x) (fun x => x)
          (fun _ => 2 # 5).

(** Bob confirms Alice's pending booking. *)
Definition confirmed_by_bob : ServiceBooking.t * DB.t :=
  Eval vm_compute in
    match views.ServiceBookingDetailView_update 2000 bob 1 (status_update "confirmed")
            (db_with (booking "pending")) with
    | rest.Ok r => r
    | _ => (booking "pending", DB.empty)
    end.

(** A five-star review of a booking, with the customer the request names. *)
Definition review_request (b : ServiceBooking.t) (customer : option User.t)
  : serializers.ReviewData.t :=
  serializers.ReviewData.mk (Some b) customer (Some 5%nat).

(** A completed booking of Alice with Bob as provider whose service is
    Dave's wiring service: nothing ties [service.provider] to [provider]. *)
Definition mismatched_booking : ServiceBooking.t :=
  ServiceBooking.mk 1 alice bob wiring 1000 None None None None
    "completed" 150 "pending" None None None.

(** Alice searches within 10 km of her place. *)
Definition search_request : serializers.SearchData.raw :=
  serializers.SearchData.mk_raw (Some (407128 # 10000)) (Some (- 740060 # 10000))
    (Some 10%Z) None None None None.

Definition search_result : views.search_response :=
  Eval vm_compute in
    match views.ServiceSearchView_post short_walk (db_with (booking "pending"))
            alice search_request with
    | rest.Ok r => r
    | _ => views.mk_search_response [] [] 0 0 0 0 0
    end.

Definition env (random : Q) : Env.t :=
  Env.mk 500 (fun k => if Nat.eqb k 0 then "0123456789abcdef0123456789abcdef"
                       else "fedcba9876543210fedcba9876543210") random.
End sample.

(* ================================================================= *)
(** ** Further rows and operations: images, read state, statistics *)

Module ServiceImage.
Record t := mk {
  id : nat;
  service : ProviderService.t;
  caption : option string;
  is_primary : bool
}.

Definition set_is_primary (x : bool) (i : t) : t :=
  mk (id i) (service i) (caption i) x.
End ServiceImage.

(** A notification row with its read state: the columns [is_read],
    [is_sent] and [read_at] of the [Notification] model. *)
Module NotificationState.
Record t := mk {
  row : Notification.t;
  is_read : bool;
  is_sent : bool;
  read_at : option Z
}.

Definition id (n : t) : nat := Notification.id (row n).
Definition user (n : t) : User.t := Notification.user (row n).
End NotificationState.

Module more.
Import rest.

(** [ServiceImage.save]: a primary image first clears the flag of every
    primary image of its service ([QuerySet.update]), then is saved under
    the key it carries. *)
Definition ServiceImage_save (self : ServiceImage.t) (images : list ServiceImage.t)
  : ServiceImage.t * list ServiceImage.t :=
  let images :=
    if ServiceImage.is_primary self then
      map (fun i =>
             if Nat.eqb (ProviderService.id (ServiceImage.service i))
                        (ProviderService.id (ServiceImage.service self))
                && ServiceImage.is_primary i
             then ServiceImage.set_is_primary false i
             else i)
          images
    else images in
  (self, DB.upsert ServiceImage.id self images).

(** [Notification.mark_as_read]. *)
Definition Notification_mark_as_read (now : Z) (self : NotificationState.t)
           (inbox : list NotificationState.t)
  : NotificationState.t * list NotificationState.t :=
  if negb (NotificationState.is_read self) then
    let self :=
      NotificationState.mk (NotificationState.row self) true
        (NotificationState.is_sent self) (Some now) in
    (self, DB.upsert NotificationState.id self inbox)
  else (self, inbox).

(** [NotificationListView.get_queryset]. *)
Definition NotificationListView_get_queryset (user : User.t)
           (inbox : list NotificationState.t) : list NotificationState.t :=
  filter (fun n => User.eqb (NotificationState.user n) user) inbox.

(** The lookup [id=notification_id, user=request.user]. *)
Definition addressed (user : User.t) (notification_id : nat) (n : NotificationState.t)
  : bool :=
  Nat.eqb (NotificationState.id n) notification_id
  && User.eqb (NotificationState.user n) user.

(** [MarkNotificationReadView.post]. *)
Definition MarkNotificationReadView_post (now : Z) (user : User.t) (notification_id : nat)
           (inbox : list NotificationState.t) : outcome (list NotificationState.t) :=
  match find (addressed user notification_id) inbox with
  | Some notification => Ok (snd (Notification_mark_as_read now notification inbox))
  | None => NotFound "Notification not found"
  end.

(** [queryset.filter(status=...).count()]. *)
Definition count_status (status : string) (bookings : list ServiceBooking.t) : nat :=
  List.length (filter (fun b => ServiceBooking.status b =? status) bookings).

(** [aggregate(total=Sum('quoted_price'))['total']]: [None] over no row. *)
Definition Sum_quoted_price (bookings : list ServiceBooking.t) : option Q :=
  match bookings with
  | [] => None
  | _ => Some (fold_right (fun b acc => ServiceBooking.quoted_price b + acc)%Q 0
                          bookings)
  end.

Record BookingStats := mk_stats {
  total_bookings : nat;
  pending_bookings : nat;
  confirmed_bookings : nat;
  completed_bookings : nat;
  cancelled_bookings : nat;
  total_revenue : Q;
  average_rating : Q
}.

(** [booking_stats]: the statistics handed to [BookingStatsSerializer]. *)
Definition booking_stats (user : User.t) (db : DB.t) : outcome BookingStats :=
  if negb (permissions.IsProvider user)
  then PermissionDenied "You do not have permission to perform this action."
  else
    let bookings :=
      filter (fun b => User.eqb (ServiceBooking.provider b) user) (DB.bookings db) in
    Ok (mk_stats
          (List.length bookings)
          (count_status "pending" bookings)
          (count_status "confirmed" bookings)
          (count_status "completed" bookings)
          (count_status "cancelled" bookings)
          (Py.or_ (Sum_quoted_price
                     (filter (fun b =>
                                (ServiceBooking.status b =? "completed")
                                && (ServiceBooking.payment_status b =? "paid"))
                             bookings)) 0)
          (Py.or_ (models.Avg
                     (filter (fun r => User.eqb (Review.provider r) user)
                             (DB.reviews db))) 0)).

(** [ServiceBookingListCreateView.get_queryset] (the order of the rows
    aside). *)
Definition ServiceBookingListCreateView_get_queryset (user : User.t) (db : DB.t)
  : list ServiceBooking.t :=
  if User.is_customer user
  then filter (fun b => User.eqb (ServiceBooking.customer b) user) (DB.bookings db)
  else if User.is_provider user
  then filter (fun b => User.eqb (ServiceBooking.provider b) user) (DB.bookings db)
  else [].

(** The key a search item is sorted by, when the key does not raise. *)
Definition has_key {A : Type} (key : A -> outcome Q) (k : Q) (x : A) : bool :=
  match key x with
  | Ok k' => Qeq_bool k' k
  | _ => false
  end.

(** Two keyed items are in key order. *)
Definition by_key {A : Type} (a b : Q * A) : Prop := (fst a <= fst b)%Q.

(** Two search items are in key order. *)
Definition key_le {A : Type} (key : A -> outcome Q) (x y : A) : Prop :=
  forall kx ky, key x = Ok kx -> key y = Ok ky -> (kx <= ky)%Q.

(** Sample rows for the operations above. *)
Definition photo (id : nat) (s : ProviderService.t) (primary : bool) : ServiceImage.t :=
  ServiceImage.mk id s None primary.

Definition unread (id : nat) (u : User.t) : NotificationState.t :=
  NotificationState.mk (Notification.mk id u "booking_request" "New Booking Request"
                          (Some 1%nat) None)
                       false false None.

(** The booking lookup of [ProcessPaymentView.post]: the acting customer's
    booking with this id, confirmed or completed. *)
Definition payable (user : User.t) (booking_id : nat) (b : ServiceBooking.t) : bool :=
  Nat.eqb (ServiceBooking.id b) booking_id
  && User.eqb (ServiceBooking.customer b) user
  && Py.str_in (ServiceBooking.status b) ["confirmed"; "completed"].

(** A completed payment of the booking is on record. *)
Definition already_paid (b : ServiceBooking.t) (db : DB.t) : bool :=
  existsb (fun p =>
             Nat.eqb (ServiceBooking.id (Payment.booking p)) (ServiceBooking.id b)
             && (Payment.status p =? "completed"))
          (DB.payments db).

(** A booking request that names its customer, as the endpoint requires. *)
Definition booking_request_of (customer : User.t) : serializers.BookingData.t :=
  serializers.BookingData.set_customer (Some customer)
    (sample.booking_request (Some (407128 # 10000)) (Some (- 740060 # 10000))).


(** Alice books Bob's plumbing service. *)
Definition created : ServiceBooking.t * DB.t :=
  Eval vm_compute in
    match views.ServiceBookingListCreateView_post sample.short_walk 2000 sample.alice
            (booking_request_of sample.alice) DB.empty with
    | Ok r => r
    | _ => (sample.booking "pending", DB.empty)
    end.

(** Alice cancels her pending booking. *)
Definition cancelled : ServiceBooking.t * DB.t :=
  Eval vm_compute in
    match views.cancel_booking 2000 sample.alice 1
            (sample.db_with (sample.booking "pending")) with
    | Ok r => r
    | _ => (sample.booking "pending", DB.empty)
    end.

(** Alice reviews her completed booking. *)
Definition reviewed : Review.t * DB.t :=
  Eval vm_compute in
    match views.ReviewListCreateView_post sample.alice
            (sample.review_request (sample.booking "completed") (Some sample.alice))
            (sample.db_with (sample.booking "completed")) with
    | Ok r => r
    | _ => (Review.mk 0 (sample.booking "completed") sample.alice sample.bob
              sample.plumbing 0, DB.empty)
    end.

(** A validated search with its price filter, or its rating filter, taken
    out. *)
Definition without_max_price (d : serializers.SearchData.t) : serializers.SearchData.t :=
  serializers.SearchData.mk (serializers.SearchData.latitude d)
    (serializers.SearchData.longitude d) (serializers.SearchData.radius d)
    (serializers.SearchData.category d) (serializers.SearchData.min_rating d)
    None (serializers.SearchData.sort_by d).

Definition without_min_rating (d : serializers.SearchData.t) : serializers.SearchData.t :=
  serializers.SearchData.mk (serializers.SearchData.latitude d)
    (serializers.SearchData.longitude d) (serializers.SearchData.radius d)
    (serializers.SearchData.category d) None
    (serializers.SearchData.max_price d) (serializers.SearchData.sort_by d).

(** The hits of a response, both buckets. *)
Definition hits (resp : views.search_response) : list views.Hit.t :=
  views.nearby_services resp ++ views.distant_services resp.

(** Two images belong to the same service. *)
Definition same_service (i j : ServiceImage.t) : Prop :=
  ProviderService.id (ServiceImage.service i) = ProviderService.id (ServiceImage.service j).

(** No service has two different primary images. *)
Definition one_primary (images : list ServiceImage.t) : Prop :=
  forall i j,
    In i images -> In j images -> same_service i j ->
    ServiceImage.is_primary i = true -> ServiceImage.is_primary j = true -> i = j.

(** The statuses [booking_stats] counts. *)
Definition counted_statuses : list string :=
  ["pending"; "confirmed"; "completed"; "cancelled"].

(** The bookings of a provider that [booking_stats] counts under no
    status. *)
Definition uncounted (user : User.t) (db : DB.t) : list ServiceBooking.t :=
  filter (fun b => negb (Py.str_in (ServiceBooking.status b) counted_statuses))
         (filter (fun b => User.eqb (ServiceBooking.provider b) user) (DB.bookings db)).

(** A review whose rating passes the validators of the [rating] column. *)
Definition rated (r : Review.t) : Prop := (1 <= Review.rating r <= 5)%nat.

(** Sample images and a sample inbox. *)
Definition gallery : list ServiceImage.t :=
  [photo 1 sample.plumbing true; photo 2 sample.wiring true].

Definition inbox : list NotificationState.t :=
  [unread 1 sample.bob; unread 2 sample.dave].

(** Two search hits, the farther one first. *)
Definition two_hits : list views.Hit.t :=
  [views.Hit.mk sample.plumbing 3 true; views.Hit.mk sample.wiring 1 true].

(** Alice pays her confirmed booking in cash, and by card with a sample that
    lets the gateway accept. *)
Definition paid_in_cash : models.processed :=
  Eval vm_compute in
    match views.ProcessPaymentView_post (sample.env (95 # 100)) sample.alice 1
            (Some "cash") (sample.db_with (sample.booking "confirmed")) with
    | Ok r => r
    | _ => models.mk_processed false (sample.payment "cash" "pending") DB.empty []
    end.

Definition card_request : serializers.PaymentData.t :=
  serializers.PaymentData.mk (Some (sample.booking "confirmed")) (Some sample.alice)
    (Some 150) (Some "card").

Definition paid_by_card : models.processed :=
  Eval vm_compute in
    match views.PaymentListCreateView_post (sample.env (1 # 2)) sample.alice
            card_request (sample.db_with (sample.booking "confirmed")) with
    | Ok r => r
    | _ => models.mk_processed false (sample.payment "card" "pending") DB.empty []
    end.

(** Bob's statistics once Alice has reviewed her completed booking. *)
Definition bob_stats : BookingStats :=
  Eval vm_compute in
    match booking_stats sample.bob (snd reviewed) with
    | Ok s => s
    | _ => mk_stats 0 0 0 0 0 0 0
    end.
End more.

(* ================================================================= *)
(** ** Rows and tables *)

Section TableFacts.
Context {A : Type} (pk : A -> nat).

Lemma get_upsert (x : A) (rows : list A) :
  DB.get pk (pk x) (DB.upsert pk x rows) = Some x.
Proof.
  unfold DB.get.
  induction rows as [|r rest IH]; simpl.
  - now rewrite Nat.eqb_refl.
  - destruct (Nat.eqb (pk r) (pk x)) eqn:E; simpl.
    + now rewrite Nat.eqb_refl.
    + now rewrite E.
Qed.

Lemma in_upsert (x : A) (rows : list A) : In x (DB.upsert pk x rows).
Proof.
  induction rows as [|r rest IH]; simpl; [now left|].
  destruct (Nat.eqb (pk r) (pk x)); simpl; auto.
Qed.

End TableFacts.

(* ================================================================= *)
(** ** Booking timestamps *)

(** [save] never touches the status or the columns it is not stamping. *)
Lemma ServiceBooking_save_frame (now : Z) (b : ServiceBooking.t) (db : DB.t) :
  let b' := fst (models.ServiceBooking_save now b db) in
  ServiceBooking.id b' = ServiceBooking.id b
  /\ ServiceBooking.status b' = ServiceBooking.status b
  /\ ServiceBooking.payment_status b' = ServiceBooking.payment_status b
  /\ ServiceBooking.customer b' = ServiceBooking.customer b
  /\ ServiceBooking.provider b' = ServiceBooking.provider b
  /\ ServiceBooking.distance_km b' = ServiceBooking.distance_km b
  /\ ServiceBooking.estimated_travel_time b' = ServiceBooking.estimated_travel_time b.
Proof.
  unfold models.ServiceBooking_save; cbn [fst].
  repeat match goal with
         | |- context [if ?c then _ else _] => destruct c
         end; cbn; repeat split; reflexivity.
Qed.

Lemma ServiceBooking_save_persists (now : Z) (b : ServiceBooking.t) (db : DB.t) :
  let r := models.ServiceBooking_save now b db in
  spec.booking_row (snd r) (fst r) = Some (fst r)
  /\ DB.notifications (snd r) = DB.notifications db
  /\ DB.reviews (snd r) = DB.reviews db
  /\ DB.profiles (snd r) = DB.profiles db
  /\ DB.payments (snd r) = DB.payments db.
Proof.
  unfold models.ServiceBooking_save, spec.booking_row; cbn [fst snd].
  split; [|repeat split; reflexivity].
  cbn [DB.with_bookings DB.bookings]. apply get_upsert.
Qed.

(** One [save]: the timestamp of the current status is set when it is
    missing and kept when it is there; no other timestamp moves. *)
Lemma ServiceBooking_save_stamp (now : Z) (b : ServiceBooking.t) (db : DB.t) (st : string) :
  In st spec.stamped_statuses ->
  let b' := fst (models.ServiceBooking_save now b db) in
  (ServiceBooking.status b = st ->
   spec.stamp_of st b' =
   Some (match spec.stamp_of st b with Some t => t | None => now end))
  /\ (ServiceBooking.status b <> st -> spec.stamp_of st b' = spec.stamp_of st b).
Proof.
  intros Hin. cbn zeta.
  unfold models.ServiceBooking_save; cbn [fst].
  destruct b as [i c p s bd sl sg dk et status qp ps cf cp cn]; cbn.
  simpl in Hin.
  destruct Hin as [<-|[<-|[<-|[]]]]; cbn;
    (split; [intros ->; cbn; destruct cf, cp, cn; reflexivity|]);
    intros Hne;
    repeat match goal with
           | |- context [String.eqb status ?x] =>
               destruct (String.eqb_spec status x); try congruence
           end; cbn;
    destruct cf, cp, cn; reflexivity.
Qed.

Lemma saves_cons (t : Z) (ts : list Z) (b : ServiceBooking.t) (db : DB.t) :
  spec.saves (t :: ts) b db =
  spec.saves ts (fst (models.ServiceBooking_save t b db))
             (snd (models.ServiceBooking_save t b db)).
Proof.
  cbn [spec.saves]. now destruct (models.ServiceBooking_save t b db).
Qed.

(** Once the timestamp of the current status is there, no later [save]
    moves it or the status. *)
Lemma saves_keep_stamp (st : string) (t : Z) (ts : list Z) :
  In st spec.stamped_statuses ->
  forall (b : ServiceBooking.t) (db : DB.t),
    ServiceBooking.status b = st ->
    spec.stamp_of st b = Some t ->
    ServiceBooking.status (fst (spec.saves ts b db)) = st
    /\ spec.stamp_of st (fst (spec.saves ts b db)) = Some t.
Proof.
  intros Hin. induction ts as [|t1 ts IH]; intros b db Hst Hstamp.
  - cbn. auto.
  - rewrite saves_cons. apply IH.
    + destruct (ServiceBooking_save_frame t1 b db) as (_ & -> & _). exact Hst.
    + destruct (ServiceBooking_save_stamp t1 b db st Hin) as [Hset _].
      rewrite (Hset Hst), Hstamp. reflexivity.
Qed.

Lemma saves_persist (t : Z) (ts : list Z) :
  forall (b : ServiceBooking.t) (db : DB.t),
    spec.booking_row (snd (spec.saves (t :: ts) b db)) (fst (spec.saves (t :: ts) b db))
    = Some (fst (spec.saves (t :: ts) b db)).
Proof.
  revert t. induction ts as [|t1 ts IH]; intros t b db.
  - cbn [spec.saves].
    pose proof (ServiceBooking_save_persists t b db) as [H _].
    now destruct (models.ServiceBooking_save t b db).
  - rewrite saves_cons. apply IH.
Qed.

(** C4. For each of the statuses 'confirmed', 'completed' and 'cancelled':
    over any run of saves of a booking that is in that status, the matching
    timestamp (confirmed_at, completed_at, cancelled_at) is set by the first
    save when it was missing, to the instant of that save, and every later
    save leaves it (and the status) as it is; a timestamp that was already
    there is never overwritten.  The row written to the database carries
    the same values. *)
Theorem C4_timestamp_set_once
        (st : string) (t0 : Z) (ts : list Z) (b : ServiceBooking.t) (db : DB.t) :
  In st spec.stamped_statuses ->
  ServiceBooking.status b = st ->
  let first := fst (models.ServiceBooking_save t0 b db) in
  let last := fst (spec.saves (t0 :: ts) b db) in
  spec.stamp_of st first =
    Some (match spec.stamp_of st b with Some t => t | None => t0 end)
  /\ ServiceBooking.status last = st
  /\ spec.stamp_of st last = spec.stamp_of st first
  /\ spec.booking_row (snd (spec.saves (t0 :: ts) b db)) last = Some last.
Proof.
  intros Hin Hst. cbn zeta.
  destruct (ServiceBooking_save_stamp t0 b db st Hin) as [Hset _].
  specialize (Hset Hst).
  split; [exact Hset|].
  rewrite saves_cons.
  destruct (saves_keep_stamp st
              (match spec.stamp_of st b with Some t => t | None => t0 end) ts Hin
              (fst (models.ServiceBooking_save t0 b db))
              (snd (models.ServiceBooking_save t0 b db))) as [H1 H2].
  - destruct (ServiceBooking_save_frame t0 b db) as (_ & -> & _). exact Hst.
  - exact Hset.
  - split; [exact H1|]. split; [now rewrite H2, Hset|].
    rewrite <- saves_cons. apply saves_persist.
Qed.

Lemma C4_timestamp_set_once_witness :
  spec.stamp_of "confirmed"
    (fst (spec.saves [10; 20; 30]%Z (sample.booking "confirmed") DB.empty))
  = Some 10%Z.
Proof.
  destruct (C4_timestamp_set_once "confirmed" 10 [20; 30]%Z
              (sample.booking "confirmed") DB.empty
              (or_introl eq_refl) eq_refl) as (H1 & _ & H3 & _).
  exact (eq_trans H3 H1).
Defined.

(* ================================================================= *)
(** ** Payments *)

(** [Payment.save] on a terminal status reached for the first time. *)
Lemma Payment_save_terminal
        (now : Z) (p : Payment.t) (db : DB.t) :
  let r := models.Payment_save now p db in
  (Payment.status p = "completed" -> Payment.completed_at p = None ->
   Payment.status (fst r) = "completed"
   /\ ServiceBooking.payment_status (Payment.booking (fst r)) = "paid"
   /\ spec.booking_row (snd r) (Payment.booking p) = Some (Payment.booking (fst r)))
  /\ (Payment.status p = "failed" -> Payment.failed_at p = None ->
      Payment.status (fst r) = "failed"
      /\ ServiceBooking.payment_status (Payment.booking (fst r)) = "failed"
      /\ spec.booking_row (snd r) (Payment.booking p) = Some (Payment.booking (fst r))).
Proof.
  cbn zeta. unfold models.Payment_save.
  split; intros Hst Hat; rewrite Hst, Hat;
    cbn [String.eqb Ascii.eqb Bool.eqb andb Py.not_];
    change (Payment.booking (Payment.set_completed_at (Some now) p))
      with (Payment.booking p);
    change (Payment.booking (Payment.set_failed_at (Some now) p))
      with (Payment.booking p);
    match goal with
    | |- context [models.ServiceBooking_save now ?b db] =>
        pose proof (ServiceBooking_save_frame now b db) as (Hid & _ & Hps & _);
        pose proof (ServiceBooking_save_persists now b db) as (Hrow & _);
        destruct (models.ServiceBooking_save now b db) as [b' db']
    end;
    cbn [fst snd] in *; (repeat split; [exact Hst|exact Hps|]);
    unfold spec.booking_row in *; rewrite Hid in Hrow; exact Hrow.
Qed.

(** [Payment.save] on a payment in 'processing' only stamps [processed_at]. *)
Lemma Payment_save_processing (now : Z) (p : Payment.t) (db : DB.t) :
  Payment.status p = "processing" ->
  let r := models.Payment_save now p db in
  Payment.status (fst r) = "processing"
  /\ Payment.completed_at (fst r) = Payment.completed_at p
  /\ Payment.failed_at (fst r) = Payment.failed_at p
  /\ Payment.booking (fst r) = Payment.booking p
  /\ Payment.transaction_id (fst r) = Payment.transaction_id p
  /\ DB.bookings (snd r) = DB.bookings db.
Proof.
  intros Hst. cbn zeta. unfold models.Payment_save. rewrite Hst.
  cbn [String.eqb Ascii.eqb Bool.eqb andb].
  destruct (Payment.processed_at p); cbn; repeat split; auto.
Qed.

(** The simulated gateway, run on a payment that has not been settled
    before, always ends by writing the outcome to the parent booking:
    'paid' when the sample is below 0.9, 'failed' otherwise. *)
Lemma process_fake_payment_settles_booking
      (env : Env.t) (k : nat) (p : Payment.t) (db : DB.t) :
  Payment.completed_at p = None ->
  Payment.failed_at p = None ->
  let r := models.Payment_process_fake_payment env k p db in
  let outcome := if Py.ltb (Env.random env) (9 # 10) then "completed" else "failed" in
  let booking_outcome := if Py.ltb (Env.random env) (9 # 10) then "paid" else "failed" in
  Payment.status (models.payment r) = outcome
  /\ ServiceBooking.payment_status (Payment.booking (models.payment r)) = booking_outcome
  /\ spec.booking_row (models.db_after r) (Payment.booking p)
     = Some (Payment.booking (models.payment r)).
Proof.
  intros Hc Hf. cbn zeta. unfold models.Payment_process_fake_payment.
  set (p1 := Payment.set_transaction_id _ (Payment.set_status "processing" p)).
  pose proof (Payment_save_processing (Env.now env) p1 db eq_refl)
    as (Hs1 & Hc1 & Hf1 & Hb1 & _).
  destruct (models.Payment_save (Env.now env) p1 db) as [p2 db2].
  cbn [fst snd] in *.
  assert (Hc2 : Payment.completed_at p2 = None) by (rewrite Hc1; exact Hc).
  assert (Hf2 : Payment.failed_at p2 = None) by (rewrite Hf1; exact Hf).
  assert (Hb2 : Payment.booking p2 = Payment.booking p) by (rewrite Hb1; reflexivity).
  destruct (Py.ltb (Env.random env) (9 # 10)).
  - match goal with
    | |- context [models.Payment_save ?t ?q db2] =>
        destruct (Payment_save_terminal t q db2) as [Hok _];
        specialize (Hok eq_refl Hc2);
        destruct (models.Payment_save t q db2) as [p3 db3]
    end.
    cbn [fst snd models.payment models.db_after] in *.
    destruct Hok as (H1 & H2 & H3). repeat split; auto.
    rewrite <- H3. unfold spec.booking_row. cbn. now rewrite Hb2.
  - match goal with
    | |- context [models.Payment_save ?t ?q db2] =>
        destruct (Payment_save_terminal t q db2) as [_ Hko];
        specialize (Hko eq_refl Hf2);
        destruct (models.Payment_save t q db2) as [p3 db3]
    end.
    cbn [fst snd models.payment models.db_after] in *.
    destruct Hko as (H1 & H2 & H3). repeat split; auto.
    rewrite <- H3. unfold spec.booking_row. cbn. now rewrite Hb2.
Qed.

(** C3. Saving a payment whose status is 'completed' and whose completed_at
    is still unset (the status is reached for the first time) sets the
    payment_status of the parent booking to 'paid', on the booking object
    the payment holds and on the booking row in the database; likewise
    'failed' with failed_at unset sets it to 'failed'.  The simulated
    gateway, run on a payment that was never settled, always ends with that
    write: 'paid' when the payment ends 'completed', 'failed' when it ends
    'failed'. *)
Theorem C3_terminal_payment_updates_booking
        (env : Env.t) (k : nat) (now : Z) (p : Payment.t) (db : DB.t) :
  (let r := models.Payment_save now p db in
   (Payment.status p = "completed" -> Payment.completed_at p = None ->
    Payment.status (fst r) = "completed"
    /\ ServiceBooking.payment_status (Payment.booking (fst r)) = "paid"
    /\ spec.booking_row (snd r) (Payment.booking p) = Some (Payment.booking (fst r)))
   /\ (Payment.status p = "failed" -> Payment.failed_at p = None ->
       Payment.status (fst r) = "failed"
       /\ ServiceBooking.payment_status (Payment.booking (fst r)) = "failed"
       /\ spec.booking_row (snd r) (Payment.booking p) = Some (Payment.booking (fst r))))
  /\ (Payment.completed_at p = None -> Payment.failed_at p = None ->
      let r := models.Payment_process_fake_payment env k p db in
      let row := spec.booking_row (models.db_after r) (Payment.booking p) in
      (Payment.status (models.payment r) = "completed"
       /\ option_map ServiceBooking.payment_status row = Some "paid")
      \/ (Payment.status (models.payment r) = "failed"
          /\ option_map ServiceBooking.payment_status row = Some "failed")).
Proof.
  split.
  - exact (Payment_save_terminal now p db).
  - intros Hc Hf.
    pose proof (process_fake_payment_settles_booking env k p db Hc Hf) as H.
    cbn zeta in *. destruct H as (Hst & Hps & Hrow). rewrite Hrow. cbn [option_map].
    rewrite Hst, Hps.
    destruct (Py.ltb (Env.random env) (9 # 10)); [left|right]; split; reflexivity.
Qed.

Lemma C3_terminal_payment_updates_booking_witness :
  ServiceBooking.payment_status
    (Payment.booking
       (fst (models.Payment_save 7 (sample.payment "online" "completed") DB.empty)))
  = "paid".
Proof.
  destruct (C3_terminal_payment_updates_booking (sample.env (1 # 2)) 1 7
              (sample.payment "online" "completed") DB.empty) as [[H _] _].
  destruct (H eq_refl eq_refl) as (_ & H2 & _).
  exact H2.
Defined.

(** The fixed payload of a recorded cash payment. *)
Lemma cash_through_process_payment
      (env : Env.t) (user : User.t) (booking_id : nat) (db : DB.t)
      (r : models.processed) :
  views.ProcessPaymentView_post env user booking_id (Some "cash") db = rest.Ok r ->
  Payment.status (models.payment r) = "completed"
  /\ Payment.transaction_id (models.payment r)
     = Some ("CASH_" ++ Py.upper (Py.take 12 (Env.uuid4_hex env 0)))%string
  /\ Payment.gateway_response (models.payment r)
     = Some [("status", Json.Str "success");
             ("message", Json.Str "Cash payment recorded");
             ("payment_method", Json.Str "cash")]
  /\ models.trace r = [Py.Uuid4].
Proof.
  unfold views.ProcessPaymentView_post.
  destruct (negb (permissions.IsCustomer user)); [discriminate|].
  destruct (find _ (DB.bookings db)) as [booking|]; [|discriminate].
  destruct (existsb _ (DB.payments db)); [discriminate|].
  cbn. intros H. injection H as <-. cbn. repeat split; reflexivity.
Qed.

(** The cash branch of [ProcessPaymentView.post] never reads the sample. *)
Lemma cash_through_process_payment_ignores_random
      (env : Env.t) (q : Q) (user : User.t) (booking_id : nat) (db : DB.t) :
  views.ProcessPaymentView_post (Env.mk (Env.now env) (Env.uuid4_hex env) q)
    user booking_id (Some "cash") db
  = views.ProcessPaymentView_post env user booking_id (Some "cash") db.
Proof.
  unfold views.ProcessPaymentView_post.
  destruct (negb (permissions.IsCustomer user)); [reflexivity|].
  destruct (find _ (DB.bookings db)) as [booking|]; [|reflexivity].
  destruct (existsb _ (DB.payments db)); reflexivity.
Qed.

(** C5. A cash payment submitted to the payment list endpoint
    ([PaymentListCreateView.perform_create]) is run through the simulated
    gateway like any other: with a sample of 0.95 it ends 'failed', carries
    a TXN_ transaction id, sleeps one second and draws the sample; with a
    sample of 0.5 the same request ends 'completed'.  Only
    [ProcessPaymentView.post] settles cash at once. *)
Theorem C5_cash_through_payment_list_is_simulated :
  let db := sample.db_with (sample.booking "confirmed") in
  let data :=
    serializers.PaymentData.mk (Some (sample.booking "confirmed"))
      (Some sample.alice) (Some 150) (Some "cash") in
  exists r r',
    views.PaymentListCreateView_post (sample.env (95 # 100)) sample.alice data db
      = rest.Ok r
    /\ views.PaymentListCreateView_post (sample.env (1 # 2)) sample.alice data db
      = rest.Ok r'
    /\ Payment.payment_method (models.payment r) = "cash"
    /\ Payment.status (models.payment r) = "failed"
    /\ Payment.transaction_id (models.payment r) = Some "TXN_FEDCBA987654"
    /\ models.trace r = [Py.Uuid4; Py.Uuid4; Py.Sleep 1; Py.RandomDraw]
    /\ Payment.status (models.payment r') = "completed"
    /\ (forall q : Q,
          exists c,
            views.ProcessPaymentView_post (sample.env q) sample.alice 1 (Some "cash") db
              = rest.Ok c
            /\ Payment.status (models.payment c) = "completed"
            /\ Payment.transaction_id (models.payment c) = Some "CASH_0123456789AB"
            /\ models.trace c = [Py.Uuid4]).
Proof.
  cbn zeta. eexists. eexists.
  split; [vm_compute; reflexivity|].
  split; [vm_compute; reflexivity|].
  repeat (split; [reflexivity|]).
  intros q. eexists. split; [cbn; reflexivity|].
  repeat split; reflexivity.
Qed.

(* ================================================================= *)
(** ** Booking creation, update and cancellation *)

Lemma create_notification_emits (u : User.t) (ty title : string) (b r : option nat)
      (before db : DB.t) :
  DB.notifications db = DB.notifications before ->
  exists n,
    spec.emitted before (DB.create_notification u ty title b r db) [n]
    /\ Notification.user n = u
    /\ Notification.notification_type n = ty
    /\ Notification.booking n = b
    /\ Notification.review n = r.
Proof.
  intros H. eexists. unfold spec.emitted, DB.create_notification.
  cbn [DB.with_notifications DB.notifications]. rewrite H.
  split; [reflexivity|]. repeat split; reflexivity.
Qed.

(** A validation that passes hands back the submitted data. *)
Lemma ServiceBookingSerializer_is_valid_data (now : Z) (data vd : serializers.BookingData.t) :
  serializers.ServiceBookingSerializer_is_valid now data = rest.Ok vd -> vd = data.
Proof.
  unfold serializers.ServiceBookingSerializer_is_valid.
  assert (Hf : forall x, serializers.ServiceBookingSerializer_fields data = rest.Ok x ->
                         x = data).
  { unfold serializers.ServiceBookingSerializer_fields. intros x.
    destruct (serializers.BookingData.status data) as [s|];
      destruct (serializers.BookingData.payment_status data) as [ps|];
      repeat match goal with
             | |- context [if ?c then _ else _] => destruct c
             end; congruence. }
  destruct (serializers.ServiceBookingSerializer_fields data) as [x| | | |];
    try discriminate.
  rewrite (Hf x eq_refl).
  unfold serializers.ServiceBookingSerializer_validate.
  repeat match goal with
         | |- context [if ?c then _ else _] => destruct c
         end; congruence.
Qed.

(** What [ModelSerializer.update] leaves on the booking. *)
Lemma ServiceBookingSerializer_update_frame
      (now : Z) (instance : ServiceBooking.t) (vd : serializers.BookingData.t) (db : DB.t) :
  let r := serializers.ServiceBookingSerializer_update now instance vd db in
  ServiceBooking.id (fst r) = ServiceBooking.id instance
  /\ ServiceBooking.status (fst r)
     = spec.picked (serializers.BookingData.status vd) (ServiceBooking.status instance)
  /\ ServiceBooking.customer (fst r)
     = spec.picked (serializers.BookingData.customer vd) (ServiceBooking.customer instance)
  /\ DB.notifications (snd r) = DB.notifications db
  /\ spec.booking_row (snd r) (fst r) = Some (fst r).
Proof.
  cbn zeta. unfold serializers.ServiceBookingSerializer_update.
  match goal with
  | |- context [models.ServiceBooking_save now ?b db] =>
      pose proof (ServiceBooking_save_frame now b db) as (H1 & H2 & _ & H3 & _);
      pose proof (ServiceBooking_save_persists now b db) as (H4 & H5 & _);
      cbn zeta in *;
      destruct (models.ServiceBooking_save now b db) as [b' db']
  end.
  cbn [fst snd] in *. repeat split; assumption.
Qed.

(** The detail update path: the status it writes and the notifications it
    adds. *)
Lemma detail_update_effect
      (now : Z) (user : User.t) (pk : nat) (data : serializers.BookingData.t)
      (db : DB.t) (b : ServiceBooking.t) (db' : DB.t) :
  views.ServiceBookingDetailView_update now user pk data db = rest.Ok (b, db') ->
  exists old,
    views.ServiceBookingDetailView_get_object user pk db = rest.Ok old
    /\ ServiceBooking.id b = ServiceBooking.id old
    /\ ServiceBooking.status b
       = spec.picked (serializers.BookingData.status data) (ServiceBooking.status old)
    /\ spec.booking_row db' b = Some b
    /\ (ServiceBooking.status old <> ServiceBooking.status b ->
        In (ServiceBooking.status b) spec.stamped_statuses ->
        exists n,
          spec.emitted db db' [n]
          /\ Notification.user n = ServiceBooking.customer b
          /\ Notification.notification_type n
             = ("booking_" ++ ServiceBooking.status b)%string
          /\ Notification.booking n = Some (ServiceBooking.id b))
    /\ (ServiceBooking.status old = ServiceBooking.status b
        \/ ~ In (ServiceBooking.status b) spec.stamped_statuses ->
        spec.emitted db db' []).
Proof.
  unfold views.ServiceBookingDetailView_update.
  destruct (views.ServiceBookingDetailView_get_object user pk db) as [old| | | |] eqn:Hobj;
    try discriminate.
  cbn [rest.bind].
  destruct (serializers.ServiceBookingSerializer_is_valid now data) as [vd| | | |] eqn:Hv;
    try discriminate.
  cbn [rest.bind]. apply ServiceBookingSerializer_is_valid_data in Hv. subst vd.
  unfold views.ServiceBookingDetailView_perform_update. rewrite Hobj. cbn [rest.bind].
  pose proof (ServiceBookingSerializer_update_frame now old data db)
    as (Hid & Hst & _ & Hn & Hrow).
  destruct (serializers.ServiceBookingSerializer_update now old data db) as [b1 db1].
  cbn [fst snd] in *. unfold spec.picked in Hst.
  change (match serializers.BookingData.status data with
          | Some s => s
          | None => ServiceBooking.status old
          end)
    with (spec.picked (serializers.BookingData.status data) (ServiceBooking.status old)).
  unfold spec.picked. rewrite <- Hst.
  intros H. exists old. split; [reflexivity|].
  assert (Hemit0 : spec.emitted db db1 []).
  { unfold spec.emitted. now rewrite app_nil_r. }
  assert (Hnot : forall ty title,
             exists n,
               spec.emitted db
                 (DB.create_notification (ServiceBooking.customer b1) ty title
                    (Some (ServiceBooking.id b1)) None db1) [n]
               /\ Notification.user n = ServiceBooking.customer b1
               /\ Notification.notification_type n = ty
               /\ Notification.booking n = Some (ServiceBooking.id b1)).
  { intros ty title.
    destruct (create_notification_emits (ServiceBooking.customer b1) ty title
                (Some (ServiceBooking.id b1)) None db db1 Hn) as (n & ? & ? & ? & ? & _).
    exists n. auto. }
  unfold spec.stamped_statuses.
  destruct (String.eqb_spec (ServiceBooking.status old) (ServiceBooking.status b1))
    as [Heq|Hne]; cbn [negb] in H.
  - injection H as <- <-. repeat split; auto. intros Hc. contradiction.
  - destruct (String.eqb_spec (ServiceBooking.status b1) "confirmed") as [E1|N1];
      [|destruct (String.eqb_spec (ServiceBooking.status b1) "completed") as [E2|N2];
        [|destruct (String.eqb_spec (ServiceBooking.status b1) "cancelled") as [E3|N3]]];
      injection H as <- <-.
    + repeat split; auto.
      * intros _ _.
        match goal with
        | |- context [DB.create_notification _ ?ty ?title _ _ _] =>
            destruct (Hnot ty title) as (n & ? & ? & ? & ?)
        end.
        exists n. rewrite E1. auto.
      * intros [Hc|Hc]; [contradiction|]. exfalso. apply Hc. rewrite E1. simpl; auto.
    + repeat split; auto.
      * intros _ _.
        match goal with
        | |- context [DB.create_notification _ ?ty ?title _ _ _] =>
            destruct (Hnot ty title) as (n & ? & ? & ? & ?)
        end.
        exists n. rewrite E2. auto.
      * intros [Hc|Hc]; [contradiction|]. exfalso. apply Hc. rewrite E2. simpl; auto.
    + repeat split; auto.
      * intros _ _.
        match goal with
        | |- context [DB.create_notification _ ?ty ?title _ _ _] =>
            destruct (Hnot ty title) as (n & ? & ? & ? & ?)
        end.
        exists n. rewrite E3. auto.
      * intros [Hc|Hc]; [contradiction|]. exfalso. apply Hc. rewrite E3. simpl; auto.
    + repeat split; auto.
      intros _ Hin. exfalso. simpl in Hin.
      destruct Hin as [Hc|[Hc|[Hc|[]]]]; congruence.
Qed.

Lemma str_in_In (x : string) (l : list string) : Py.str_in x l = true <-> In x l.
Proof.
  unfold Py.str_in. rewrite existsb_exists. split.
  - intros (y & Hy & E). apply String.eqb_eq in E. now subst.
  - intros H. exists x. split; [exact H|apply String.eqb_refl].
Qed.

(** [cancel_booking]: the booking it picks, what it writes, whom it tells. *)
Lemma cancel_booking_effect
      (now : Z) (user : User.t) (booking_id : nat) (db : DB.t)
      (b : ServiceBooking.t) (db' : DB.t) :
  views.cancel_booking now user booking_id db = rest.Ok (b, db') ->
  exists old n,
    In old (DB.bookings db)
    /\ ServiceBooking.id old = booking_id
    /\ User.eqb (ServiceBooking.customer old) user = true
    /\ In (ServiceBooking.status old) ["pending"; "confirmed"]
    /\ ServiceBooking.id b = booking_id
    /\ ServiceBooking.status b = "cancelled"
    /\ ServiceBooking.provider b = ServiceBooking.provider old
    /\ ServiceBooking.customer b = ServiceBooking.customer old
    /\ spec.emitted db db' [n]
    /\ Notification.user n = ServiceBooking.provider b
    /\ Notification.notification_type n = "booking_cancelled"
    /\ Notification.booking n = Some (ServiceBooking.id b).
Proof.
  unfold views.cancel_booking.
  destruct (negb (permissions.IsCustomer user)); [discriminate|].
  destruct (find _ (DB.bookings db)) as [old|] eqn:Hfind; [|discriminate].
  apply find_some in Hfind. destruct Hfind as [Hin Hf].
  apply andb_prop in Hf. destruct Hf as [Hf Hstatus].
  apply andb_prop in Hf. destruct Hf as [Hid Hcust].
  apply Nat.eqb_eq in Hid. apply str_in_In in Hstatus.
  set (c := ServiceBooking.set_status "cancelled" old).
  pose proof (ServiceBooking_save_frame now c db) as (F1 & F2 & _ & F3 & F4 & _).
  pose proof (ServiceBooking_save_persists now c db) as (_ & Hn & _).
  destruct (models.ServiceBooking_save now c db) as [b1 db1]. cbn [fst snd] in *.
  intros H. injection H as <- <-.
  destruct (create_notification_emits (ServiceBooking.provider b1) "booking_cancelled"
              "Booking Cancelled" (Some (ServiceBooking.id b1)) None db db1 Hn)
    as (n & E1 & E2 & E3 & E4 & _).
  exists old, n. repeat split; auto.
  now rewrite F1.
Qed.

(** [ServiceBooking.objects.create] on validated data. *)
Lemma ServiceBooking_objects_create_effect
      (now : Z) (vd : serializers.BookingData.t) (db : DB.t)
      (b : ServiceBooking.t) (db' : DB.t) :
  serializers.ServiceBooking_objects_create now vd db = rest.Ok (b, db') ->
  serializers.BookingData.customer vd = Some (ServiceBooking.customer b)
  /\ serializers.BookingData.provider vd = Some (ServiceBooking.provider b)
  /\ ServiceBooking.distance_km b = serializers.BookingData.distance_km vd
  /\ ServiceBooking.estimated_travel_time b
     = serializers.BookingData.estimated_travel_time vd
  /\ ServiceBooking.status b
     = spec.picked (serializers.BookingData.status vd) "pending"
  /\ DB.notifications db' = DB.notifications db.
Proof.
  unfold serializers.ServiceBooking_objects_create.
  destruct (serializers.BookingData.customer vd) as [c|]; [|discriminate].
  destruct (serializers.BookingData.provider vd) as [p|]; [|discriminate].
  destruct (serializers.BookingData.service vd) as [s|]; [|discriminate].
  destruct (serializers.BookingData.booking_date vd) as [d|]; [|discriminate].
  destruct (serializers.BookingData.quoted_price vd) as [q|]; [|discriminate].
  match goal with
  | |- context [models.ServiceBooking_save now ?x db] =>
      pose proof (ServiceBooking_save_frame now x db) as (_ & F2 & _ & F3 & F4 & F5 & F6);
      pose proof (ServiceBooking_save_persists now x db) as (_ & Hn & _);
      destruct (models.ServiceBooking_save now x db) as [b1 db1]
  end.
  cbn [fst snd] in *. intros H. injection H as <- <-.
  cbn in F2, F3, F4, F5, F6. unfold spec.picked.
  repeat split; congruence.
Qed.

Lemma ServiceBooking_objects_create_total
      (now : Z) (vd : serializers.BookingData.t) (db : DB.t)
      (c p : User.t) (s : ProviderService.t) (d : Z) (q : Q) :
  serializers.BookingData.customer vd = Some c ->
  serializers.BookingData.provider vd = Some p ->
  serializers.BookingData.service vd = Some s ->
  serializers.BookingData.booking_date vd = Some d ->
  serializers.BookingData.quoted_price vd = Some q ->
  exists b db', serializers.ServiceBooking_objects_create now vd db = rest.Ok (b, db').
Proof.
  intros H1 H2 H3 H4 H5. unfold serializers.ServiceBooking_objects_create.
  rewrite H1, H2, H3, H4, H5.
  match goal with
  | |- context [models.ServiceBooking_save now ?x db] =>
      destruct (models.ServiceBooking_save now x db) as [b1 db1]
  end.
  eauto.
Qed.

(** The ways [ServiceBookingSerializer.create] reaches the ORM: a falsy
    coordinate; a computed distance that is truthy; one that is zero; no
    distance. *)
Ltac created_cases m vd :=
  unfold serializers.ServiceBookingSerializer_create;
  destruct (serializers.BookingData.provider vd) as [p|] eqn:Hp; [|discriminate];
  destruct (Py.all _);
  [ destruct (serializers.BookingData.service_latitude vd) as [slat|]; [|discriminate];
    destruct (serializers.BookingData.service_longitude vd) as [slng|]; [|discriminate];
    destruct (User.latitude p) as [plat|]; [|discriminate];
    destruct (User.longitude p) as [plng|]; [|discriminate];
    destruct (serializers.ServiceBookingSerializer_calculate_distance
                m slat slng plat plng) as [[d|]| | | |];
    cbn [rest.bind]; try discriminate;
    [ destruct (Py.truthy (Some d));
      [ destruct (Py.isinf _); cbn [rest.bind]; [discriminate|] | cbn [rest.bind] ];
      (destruct (serializers.distance_km_overflows d); [discriminate|])
    | ]
  | ].

(** [ServiceBookingSerializer.create] hands the ORM the validated data,
    possibly with the two computed fields filled in. *)
Lemma ServiceBookingSerializer_create_data
      (m : math.t) (now : Z) (vd : serializers.BookingData.t) (db : DB.t)
      (r : ServiceBooking.t * DB.t) :
  serializers.ServiceBookingSerializer_create m now vd db = rest.Ok r ->
  exists vd',
    serializers.ServiceBooking_objects_create now vd' db = rest.Ok r
    /\ serializers.BookingData.customer vd' = serializers.BookingData.customer vd
    /\ serializers.BookingData.provider vd' = serializers.BookingData.provider vd.
Proof.
  created_cases m vd; intros H; eexists; (split; [exact H|]); cbn; auto.
Qed.

(** A request that carries the required fields passes unchanged. *)
Lemma ServiceBookingSerializer_required_data (data x : serializers.BookingData.t) :
  serializers.ServiceBookingSerializer_required data = rest.Ok x ->
  x = data
  /\ serializers.BookingData.customer data <> None
  /\ serializers.BookingData.provider data <> None.
Proof.
  unfold serializers.ServiceBookingSerializer_required.
  destruct (serializers.BookingData.customer data); [|discriminate].
  destruct (serializers.BookingData.provider data); [|discriminate].
  destruct (serializers.BookingData.service data); [|discriminate].
  destruct (serializers.BookingData.booking_date data); [|discriminate].
  destruct (serializers.BookingData.quoted_price data); [|discriminate].
  intros H. injection H as <-. repeat split; discriminate.
Qed.

(** [POST /bookings/]: the booking is the acting customer's, and the
    provider is told. *)
Lemma booking_create_effect
      (m : math.t) (now : Z) (user : User.t) (data : serializers.BookingData.t)
      (db : DB.t) (b : ServiceBooking.t) (db' : DB.t) :
  views.ServiceBookingListCreateView_post m now user data db = rest.Ok (b, db') ->
  exists n,
    spec.emitted db db' [n]
    /\ Notification.user n = ServiceBooking.provider b
    /\ Notification.notification_type n = "booking_request"
    /\ Notification.booking n = Some (ServiceBooking.id b).
Proof.
  unfold views.ServiceBookingListCreateView_post.
  destruct (serializers.ServiceBookingSerializer_required data) as [x| | | |] eqn:Hr;
    try discriminate.
  apply ServiceBookingSerializer_required_data in Hr. destruct Hr as (-> & _).
  cbn [rest.bind].
  destruct (serializers.ServiceBookingSerializer_is_valid now data) as [vd| | | |] eqn:Hv;
    try discriminate.
  cbn [rest.bind]. unfold views.ServiceBookingListCreateView_perform_create.
  destruct (negb (User.is_customer user)); [discriminate|].
  destruct (serializers.ServiceBookingSerializer_create m now _ db)
    as [[b1 db1]| | | |] eqn:Hc; try discriminate.
  cbn [rest.bind]. intros H. injection H as <- <-.
  apply ServiceBookingSerializer_create_data in Hc. destruct Hc as (vd' & Hc & _).
  apply ServiceBooking_objects_create_effect in Hc.
  destruct Hc as (_ & _ & _ & _ & _ & Hn).
  destruct (create_notification_emits (ServiceBooking.provider b1) "booking_request"
              "New Booking Request" (Some (ServiceBooking.id b1)) None db db1 Hn)
    as (n & ? & ? & ? & ? & _).
  exists n. auto.
Qed.

(** C1, counterexample. Bob, the provider of a booking that is 'completed',
    submits an update carrying status 'pending': the update is accepted and
    the booking, object and row, is 'pending' again. *)
Lemma C1_completed_booking_reopened :
  let db := sample.db_with (sample.booking "completed") in
  exists b db',
    views.ServiceBookingDetailView_update 2000 sample.bob 1 (sample.status_update "pending") db
      = rest.Ok (b, db')
    /\ spec.booking_row db (sample.booking "completed") = Some (sample.booking "completed")
    /\ ServiceBooking.status b = "pending"
    /\ spec.booking_row db' b = Some b.
Proof.
  cbn zeta. eexists. eexists.
  split; [vm_compute; reflexivity|].
  repeat split; reflexivity.
Qed.

(** C1, as the code has it. [cancel_booking] never acts on a booking whose
    status is 'completed', 'cancelled' or 'rejected': when every row with
    the requested id is in one of these, no booking is returned or written.
    The detail update path has no transition check: whenever it accepts an
    update, the booking's status (object and row) is the submitted status,
    or the previous one when none was submitted, whatever the previous
    status was. *)
Theorem C1_terminal_only_for_cancel
        (now : Z) (user : User.t) (booking_id : nat) (data : serializers.BookingData.t)
        (db : DB.t) :
  ((forall row, In row (DB.bookings db) -> ServiceBooking.id row = booking_id ->
                In (ServiceBooking.status row) spec.terminal_statuses) ->
   forall r, views.cancel_booking now user booking_id db <> rest.Ok r)
  /\ (forall b db',
        views.ServiceBookingDetailView_update now user booking_id data db = rest.Ok (b, db') ->
        exists old,
          views.ServiceBookingDetailView_get_object user booking_id db = rest.Ok old
          /\ ServiceBooking.status b
             = spec.picked (serializers.BookingData.status data) (ServiceBooking.status old)
          /\ spec.booking_row db' b = Some b).
Proof.
  split.
  - intros Hterm [b db'] H.
    apply cancel_booking_effect in H.
    destruct H as (old & n & Hin & Hid & _ & Hst & _).
    specialize (Hterm old Hin Hid). unfold spec.terminal_statuses in Hterm.
    simpl in Hst, Hterm.
    destruct Hst as [E|[E|[]]]; rewrite <- E in Hterm;
      destruct Hterm as [C|[C|[C|[]]]]; discriminate.
  - intros b db' H. apply detail_update_effect in H.
    destruct H as (old & H1 & _ & H2 & H3 & _). exists old. auto.
Qed.

Lemma C1_terminal_only_for_cancel_witness :
  (forall r,
      views.cancel_booking 2000 sample.alice 1 (sample.db_with (sample.booking "rejected"))
      <> rest.Ok r)
  /\ exists old,
      views.ServiceBookingDetailView_get_object sample.bob 1
        (sample.db_with (sample.booking "pending")) = rest.Ok old
      /\ ServiceBooking.status old = "pending".
Proof.
  destruct (C1_terminal_only_for_cancel 2000 sample.alice 1 (sample.status_update "confirmed")
              (sample.db_with (sample.booking "rejected"))) as [Hcancel _].
  split.
  - apply Hcancel. intros row [<-|[]] _. cbn. auto.
  - destruct (C1_terminal_only_for_cancel 2000 sample.bob 1 (sample.status_update "confirmed")
                (sample.db_with (sample.booking "pending"))) as [_ Hupd].
    destruct (Hupd
                (fst (models.ServiceBooking_save 2000
                        (ServiceBooking.set_status "confirmed" (sample.booking "pending"))
                        (sample.db_with (sample.booking "pending"))))
                (DB.create_notification sample.alice "booking_confirmed" "Booking Confirmed"
                   (Some 1%nat) None
                   (snd (models.ServiceBooking_save 2000
                           (ServiceBooking.set_status "confirmed" (sample.booking "pending"))
                           (sample.db_with (sample.booking "pending")))))
                eq_refl) as (old & H1 & _).
    exists old. split; [exact H1|].
    cbn in H1. injection H1 as <-. reflexivity.
Defined.

(** C7, counterexample. Bob rejects Alice's pending booking through the
    detail update path: the status changes from 'pending' to 'rejected' and
    no notification is added.  Alice cancels her pending booking through
    [cancel_booking]: the one notification added goes to Bob, the provider,
    not to the customer. *)
Lemma C7_rejection_is_silent_and_cancel_tells_provider :
  let db := sample.db_with (sample.booking "pending") in
  (exists b db',
      views.ServiceBookingDetailView_update 2000 sample.bob 1
        (sample.status_update "rejected") db = rest.Ok (b, db')
      /\ ServiceBooking.status b = "rejected"
      /\ ServiceBooking.status b <> ServiceBooking.status (sample.booking "pending")
      /\ DB.notifications db' = DB.notifications db)
  /\ (exists b db' n,
         views.cancel_booking 2000 sample.alice 1 db = rest.Ok (b, db')
         /\ DB.notifications db' = DB.notifications db ++ [n]
         /\ Notification.notification_type n = "booking_cancelled"
         /\ Notification.user n = sample.bob
         /\ Notification.user n <> ServiceBooking.customer b).
Proof.
  cbn zeta. split.
  - eexists. eexists. split; [vm_compute; reflexivity|].
    repeat split; try reflexivity. discriminate.
  - eexists. eexists. eexists. split; [vm_compute; reflexivity|].
    repeat split; try reflexivity. discriminate.
Qed.

(** C7, as the code has it. An accepted update through the detail path adds
    exactly one notification, of type booking_confirmed, booking_completed
    or booking_cancelled and addressed to the booking's customer, when the
    status changed and the new status is 'confirmed', 'completed' or
    'cancelled'; it adds none when the status did not change or the new
    status is another one.  [cancel_booking] adds exactly one
    booking_cancelled notification, addressed to the provider.  Every
    booking created through the list endpoint adds exactly one
    booking_request notification addressed to the provider. *)
Theorem C7_notifications_emitted
        (m : math.t) (now : Z) (user : User.t) (pk : nat)
        (data : serializers.BookingData.t) (db : DB.t)
        (b : ServiceBooking.t) (db' : DB.t) :
  (views.ServiceBookingDetailView_update now user pk data db = rest.Ok (b, db') ->
   exists old,
     views.ServiceBookingDetailView_get_object user pk db = rest.Ok old
     /\ (ServiceBooking.status old <> ServiceBooking.status b ->
         In (ServiceBooking.status b) ["confirmed"; "completed"; "cancelled"] ->
         exists n,
           spec.emitted db db' [n]
           /\ Notification.user n = ServiceBooking.customer b
           /\ Notification.notification_type n
              = ("booking_" ++ ServiceBooking.status b)%string
           /\ Notification.booking n = Some (ServiceBooking.id b))
     /\ (ServiceBooking.status old = ServiceBooking.status b
         \/ ~ In (ServiceBooking.status b) ["confirmed"; "completed"; "cancelled"] ->
         spec.emitted db db' []))
  /\ (views.cancel_booking now user pk db = rest.Ok (b, db') ->
      exists n,
        spec.emitted db db' [n]
        /\ Notification.user n = ServiceBooking.provider b
        /\ Notification.notification_type n = "booking_cancelled"
        /\ Notification.booking n = Some (ServiceBooking.id b))
  /\ (views.ServiceBookingListCreateView_post m now user data db = rest.Ok (b, db') ->
      exists n,
        spec.emitted db db' [n]
        /\ Notification.user n = ServiceBooking.provider b
        /\ Notification.notification_type n = "booking_request"
        /\ Notification.booking n = Some (ServiceBooking.id b)).
Proof.
  split; [|split].
  - intros H. apply detail_update_effect in H.
    destruct H as (old & H1 & _ & _ & _ & H2 & H3). exists old. auto.
  - intros H. apply cancel_booking_effect in H.
    destruct H as (old & n & _ & _ & _ & _ & _ & _ & _ & _ & H1 & H2 & H3 & H4).
    exists n. auto.
  - apply booking_create_effect.
Qed.

Lemma C7_notifications_emitted_witness :
  exists n,
    spec.emitted (sample.db_with (sample.booking "pending"))
                 (snd sample.confirmed_by_bob) [n]
    /\ Notification.user n = sample.alice
    /\ Notification.notification_type n = "booking_confirmed".
Proof.
  destruct (C7_notifications_emitted sample.short_walk 2000 sample.bob 1
              (sample.status_update "confirmed")
              (sample.db_with (sample.booking "pending"))
              (fst sample.confirmed_by_bob) (snd sample.confirmed_by_bob))
    as (H & _).
  destruct (H eq_refl) as (old & Hobj & Hyes & _).
  cbn in Hobj. injection Hobj as <-.
  destruct Hyes as (n & H1 & H2 & H3 & _).
  - discriminate.
  - simpl. auto.
  - exists n. auto.
Defined.

(* ================================================================= *)
(** ** Distance and travel time at booking creation *)

Lemma truthy_zero (z : Q) : z == 0 -> Py.truthy (Some z) = false.
Proof.
  intros H. unfold Py.truthy. apply Qeq_bool_iff in H. now rewrite H.
Qed.

Lemma truthy_nonzero (z : Q) : ~ z == 0 -> Py.truthy (Some z) = true.
Proof.
  intros H. unfold Py.truthy. destruct (Qeq_bool z 0) eqn:E; [|reflexivity].
  apply Qeq_bool_iff in E. contradiction.
Qed.

Lemma all_four (a b c d : option Q) :
  Py.all [a; b; c; d] = Py.truthy a && Py.truthy b && Py.truthy c && Py.truthy d.
Proof.
  unfold Py.all. cbn. destruct (Py.truthy a), (Py.truthy b), (Py.truthy c), (Py.truthy d);
    reflexivity.
Qed.

(** With a falsy coordinate the validated data reaches the ORM untouched. *)
Lemma ServiceBookingSerializer_create_untouched
      (m : math.t) (now : Z) (vd : serializers.BookingData.t) (db : DB.t)
      (provider : User.t) :
  serializers.BookingData.provider vd = Some provider ->
  Py.all [serializers.BookingData.service_latitude vd;
          serializers.BookingData.service_longitude vd;
          User.latitude provider; User.longitude provider] = false ->
  serializers.ServiceBookingSerializer_create m now vd db
  = serializers.ServiceBooking_objects_create now vd db.
Proof.
  intros Hp Hall. unfold serializers.ServiceBookingSerializer_create.
  rewrite Hp, Hall. reflexivity.
Qed.

(** *** Rounding to a double *)

Lemma round_bounds (s : Q) :
  0 <= s -> 0 <= inject_Z (Py.round s) /\ inject_Z (Py.round s) <= 2 * s.
Proof.
  intros Hs. unfold Py.round.
  pose proof (Qfloor_le s) as Hlo.
  assert (Hf : (0 <= Qfloor s)%Z).
  { change 0%Z with (Qfloor 0). now apply Qfloor_resp_le. }
  assert (Hf' : 0 <= inject_Z (Qfloor s)).
  { change 0 with (inject_Z 0). now rewrite <- Zle_Qle. }
  assert (H1 : inject_Z (Qfloor s + 1) == inject_Z (Qfloor s) + 1).
  { now rewrite inject_Z_plus. }
  cbn zeta.
  destruct (Qcompare (s - inject_Z (Qfloor s)) (1 # 2)) eqn:E.
  - apply Qeq_alt in E. destruct (Z.even (Qfloor s)); rewrite ?H1; split; lra.
  - split; lra.
  - apply Qgt_alt in E. rewrite H1. split; lra.
Qed.

Lemma pow2_pos (e : Z) : 0 < Py.pow2 e.
Proof.
  unfold Py.pow2. destruct (0 <=? e)%Z eqn:E.
  - change 0 with (inject_Z 0). rewrite <- Zlt_Qlt. apply Z.pow_pos_nonneg; lia.
  - apply Qinv_lt_0_compat. change 0 with (inject_Z 0). rewrite <- Zlt_Qlt.
    apply Z.pow_pos_nonneg; lia.
Qed.

(** Rounding to a double at most doubles the magnitude. *)
Lemma float_bound (x : Q) : Qabs (Py.float x) <= 2 * Qabs x.
Proof.
  unfold Py.float. destruct (Qeq_bool x 0).
  - change (Qabs 0) with 0. pose proof (Qabs_nonneg x). lra.
  - set (u := Py.pow2 _).
    pose proof (pow2_pos (Z.max (Py.ilog2 (Qabs x) - 52) (-1074))) as Hu.
    fold u in Hu.
    assert (Hs : 0 <= Qabs x / u).
    { apply Qle_shift_div_l; [exact Hu|]. rewrite Qmult_0_l. apply Qabs_nonneg. }
    destruct (round_bounds _ Hs) as (H0 & H2).
    set (y := inject_Z (Py.round (Qabs x / u)) * u) in *.
    assert (Hy0 : 0 <= y).
    { unfold y. apply Qmult_le_0_compat; [exact H0|now apply Qlt_le_weak]. }
    assert (Hy2 : y <= 2 * Qabs x).
    { unfold y. setoid_replace (2 * Qabs x) with (2 * (Qabs x / u) * u).
      - apply Qmult_le_compat_r; [exact H2|now apply Qlt_le_weak].
      - field. intros C. rewrite C in Hu. now apply Qlt_irrefl in Hu. }
    rewrite Qred_correct. destruct (Qle_bool 0 x).
    + rewrite Qabs_pos; assumption.
    + rewrite Qabs_opp, Qabs_pos; assumption.
Qed.

(** A distance the column can store has a finite travel time. *)
Lemma travel_time_finite (d : Q) :
  serializers.distance_km_overflows d = false ->
  Py.isinf (Py.truediv d 30 * 60) = false.
Proof.
  unfold serializers.distance_km_overflows, Py.isinf, Py.truediv. intros H.
  assert (Hd : Qabs d <= 1000).
  { destruct (Qlt_le_dec (Qabs d) (999995 # 1000)) as [L|G].
    - apply Qlt_le_weak. apply Qlt_trans with (999995 # 1000); [exact L|reflexivity].
    - apply Qle_bool_iff in G. congruence. }
  apply not_true_is_false. intros C. apply Qle_bool_iff in C.
  assert (Hb : Qabs (Py.float (d / 30) * 60) <= 4000).
  { rewrite Qabs_Qmult. change (Qabs 60) with 60.
    apply Qle_trans with (2 * Qabs (d / 30) * 60).
    - apply Qmult_le_compat_r; [apply float_bound|discriminate].
    - unfold Qdiv. rewrite Qabs_Qmult. change (Qabs (/ 30)) with (/ 30).
      setoid_replace (2 * (Qabs d * / 30) * 60) with (4 * Qabs d) by field.
      setoid_replace 4000 with (4 * 1000) by reflexivity.
      apply Qmult_le_l; [reflexivity|exact Hd]. }
  pose proof (Qle_trans _ _ _ C Hb) as Habs.
  revert Habs. vm_compute. intros Habs. apply Habs. reflexivity.
Qed.

(** A distance the column refuses is not zero. *)
Lemma overflowing_is_truthy (d : Q) :
  serializers.distance_km_overflows d = true -> Py.truthy (Some d) = true.
Proof.
  unfold serializers.distance_km_overflows. intros H. apply Qle_bool_iff in H.
  apply truthy_nonzero. intros E. rewrite E in H. revert H. vm_compute.
  intros H. now apply H.
Qed.

Lemma zero_is_stored (d : Q) : d == 0 -> serializers.distance_km_overflows d = false.
Proof.
  intros E. unfold serializers.distance_km_overflows. apply not_true_is_false.
  intros H. apply Qle_bool_iff in H. rewrite E in H. revert H. vm_compute.
  intros H. now apply H.
Qed.

(** *** The calculator and [create] *)

(** On four truthy coordinates the calculator answers the haversine distance
    when the formula stays in the domain of [math.sqrt] and [math.asin], and
    raises otherwise. *)
Lemma ServiceBookingSerializer_calculate_distance_value
      (m : math.t) (slat slng plat plng : Q) :
  ~ slat == 0 -> ~ slng == 0 -> ~ plat == 0 -> ~ plng == 0 ->
  serializers.ServiceBookingSerializer_calculate_distance m slat slng plat plng
  = if spec.in_domain m slat slng plat plng
    then rest.Ok (Some (serializers.haversine m slat slng plat plng))
    else rest.Raised "ValueError: math domain error".
Proof.
  intros N1 N2 N3 N4.
  unfold serializers.ServiceBookingSerializer_calculate_distance.
  rewrite all_four, !truthy_nonzero by assumption. cbn [andb negb].
  unfold spec.in_domain, serializers.haversine, serializers.math_sqrt,
    serializers.math_asin, Py.ltb.
  cbn zeta.
  set (a := (math.sin m _ ^ 2 + _)%Q).
  destruct (Qle_bool 0 a); cbn [negb andb rest.bind]; [|reflexivity].
  destruct (Qle_bool (-1) (math.sqrt m a)); cbn [negb andb orb rest.bind];
    [|reflexivity].
  destruct (Qle_bool (math.sqrt m a) 1); reflexivity.
Qed.

(** With four truthy coordinates, a formula in its domain and a distance the
    column can store, the distance is stored, and the travel time when the
    distance is truthy. *)
Lemma ServiceBookingSerializer_create_computed
      (m : math.t) (now : Z) (vd : serializers.BookingData.t) (db : DB.t)
      (provider : User.t) (slat slng plat plng : Q) :
  serializers.BookingData.provider vd = Some provider ->
  serializers.BookingData.service_latitude vd = Some slat ->
  serializers.BookingData.service_longitude vd = Some slng ->
  User.latitude provider = Some plat ->
  User.longitude provider = Some plng ->
  ~ slat == 0 -> ~ slng == 0 -> ~ plat == 0 -> ~ plng == 0 ->
  spec.in_domain m slat slng plat plng = true ->
  let d := serializers.haversine m slat slng plat plng in
  let vd1 := serializers.BookingData.set_distance_km (Some d) vd in
  serializers.ServiceBookingSerializer_create m now vd db
  = if serializers.distance_km_overflows d
    then rest.Raised (if Py.isinf (Py.truediv d 30 * 60)
                      then "OverflowError" else "decimal.InvalidOperation")
    else
      serializers.ServiceBooking_objects_create now
        (if Py.truthy (Some d)
         then serializers.BookingData.set_estimated_travel_time
                (Some (spec.truncated_travel_time d)) vd1
         else vd1)
        db.
Proof.
  intros Hp H1 H2 H3 H4 N1 N2 N3 N4 Hdom. cbn zeta.
  unfold serializers.ServiceBookingSerializer_create.
  rewrite Hp, H1, H2, H3, H4.
  assert (Hall : Py.all [Some slat; Some slng; Some plat; Some plng] = true).
  { rewrite all_four, !truthy_nonzero by assumption. reflexivity. }
  rewrite Hall.
  rewrite (ServiceBookingSerializer_calculate_distance_value m slat slng plat plng)
    by assumption.
  rewrite Hdom. cbn [rest.bind].
  set (d := serializers.haversine m slat slng plat plng).
  destruct (serializers.distance_km_overflows d) eqn:Hover.
  - rewrite (overflowing_is_truthy d Hover).
    destruct (Py.isinf (Py.truediv d 30 * 60)); reflexivity.
  - destruct (Py.truthy (Some d)); cbn [rest.bind].
    + rewrite (travel_time_finite d Hover). reflexivity.
    + reflexivity.
Qed.





(** C10. At booking creation, when one of the four coordinates (service
    latitude, service longitude, provider latitude, provider longitude) is
    present and equal to 0, the presence check takes it for missing: the
    booking is created with distance_km and estimated_travel_time as the
    validated data has them, untouched, hence null when the request did not
    carry them.  When the four coordinates are non-zero and the distance the
    calculator computes is exactly 0, distance_km is that 0 and
    estimated_travel_time is again left untouched. *)
Theorem C10_zero_coordinate_is_taken_for_missing
        (m : math.t) (now : Z) (vd : serializers.BookingData.t) (db : DB.t)
        (provider customer : User.t) (service : ProviderService.t)
        (booking_date : Z) (quoted_price : Q) :
  serializers.BookingData.provider vd = Some provider ->
  serializers.BookingData.customer vd = Some customer ->
  serializers.BookingData.service vd = Some service ->
  serializers.BookingData.booking_date vd = Some booking_date ->
  serializers.BookingData.quoted_price vd = Some quoted_price ->
  ((exists z : Q,
       z == 0
       /\ (serializers.BookingData.service_latitude vd = Some z
           \/ serializers.BookingData.service_longitude vd = Some z
           \/ User.latitude provider = Some z
           \/ User.longitude provider = Some z)) ->
   exists b db',
     serializers.ServiceBookingSerializer_create m now vd db = rest.Ok (b, db')
     /\ ServiceBooking.distance_km b = serializers.BookingData.distance_km vd
     /\ ServiceBooking.estimated_travel_time b
        = serializers.BookingData.estimated_travel_time vd
     /\ (serializers.BookingData.distance_km vd = None ->
         serializers.BookingData.estimated_travel_time vd = None ->
         ServiceBooking.distance_km b = None
         /\ ServiceBooking.estimated_travel_time b = None))
  /\ (forall slat slng plat plng : Q,
         serializers.BookingData.service_latitude vd = Some slat ->
         serializers.BookingData.service_longitude vd = Some slng ->
         User.latitude provider = Some plat ->
         User.longitude provider = Some plng ->
         ~ slat == 0 -> ~ slng == 0 -> ~ plat == 0 -> ~ plng == 0 ->
         serializers.ServiceBookingSerializer_calculate_distance m slat slng plat plng
         = rest.Ok (Some (serializers.haversine m slat slng plat plng)) ->
         serializers.haversine m slat slng plat plng == 0 ->
         exists b db',
           serializers.ServiceBookingSerializer_create m now vd db = rest.Ok (b, db')
           /\ ServiceBooking.distance_km b
              = Some (serializers.haversine m slat slng plat plng)
           /\ ServiceBooking.estimated_travel_time b
              = serializers.BookingData.estimated_travel_time vd).
Proof.
  intros Hp Hc Hs Hd Hq. split.
  - intros (z & Hz & Hwhere).
    assert (Hall : Py.all [serializers.BookingData.service_latitude vd;
                           serializers.BookingData.service_longitude vd;
                           User.latitude provider; User.longitude provider] = false).
    { rewrite all_four.
      destruct Hwhere as [E|[E|[E|E]]]; rewrite E, (truthy_zero z Hz);
        repeat rewrite ?andb_false_r, ?andb_false_l; reflexivity. }
    destruct (ServiceBooking_objects_create_total now vd db customer provider
                service booking_date quoted_price Hc Hp Hs Hd Hq) as (b & db' & Hok).
    exists b, db'.
    rewrite (ServiceBookingSerializer_create_untouched m now vd db provider Hp Hall).
    split; [exact Hok|].
    apply ServiceBooking_objects_create_effect in Hok.
    destruct Hok as (_ & _ & Hk & He & _).
    repeat split; try assumption; congruence.
  - intros slat slng plat plng H1 H2 H3 H4 N1 N2 N3 N4 Hcalc Hzero.
    assert (Hdom : spec.in_domain m slat slng plat plng = true).
    { rewrite (ServiceBookingSerializer_calculate_distance_value
                 m slat slng plat plng N1 N2 N3 N4) in Hcalc.
      destruct (spec.in_domain m slat slng plat plng); [reflexivity|discriminate]. }
    pose proof (ServiceBookingSerializer_create_computed m now vd db provider
                  slat slng plat plng Hp H1 H2 H3 H4 N1 N2 N3 N4 Hdom) as Hcreate.
    cbn zeta in Hcreate.
    rewrite (zero_is_stored _ Hzero), (truthy_zero _ Hzero) in Hcreate.
    match type of Hcreate with
    | _ = serializers.ServiceBooking_objects_create now ?x db =>
        destruct (ServiceBooking_objects_create_total now x db customer provider
                    service booking_date quoted_price Hc Hp Hs Hd Hq)
          as (b & db' & Hok)
    end.
    exists b, db'. rewrite Hcreate. split; [exact Hok|].
    apply ServiceBooking_objects_create_effect in Hok.
    destruct Hok as (_ & _ & Hk & He & _). cbn in Hk, He. auto.
Qed.

Lemma C10_zero_coordinate_is_taken_for_missing_witness :
  exists b db',
    serializers.ServiceBookingSerializer_create sample.short_walk 2000
      (serializers.BookingData.set_customer (Some sample.alice)
         (sample.booking_request (Some 0) (Some (- 740060 # 10000))))
      DB.empty = rest.Ok (b, db')
    /\ ServiceBooking.distance_km b = None
    /\ ServiceBooking.estimated_travel_time b = None.
Proof.
  destruct (C10_zero_coordinate_is_taken_for_missing sample.short_walk 2000
              (serializers.BookingData.set_customer (Some sample.alice)
                 (sample.booking_request (Some 0) (Some (- 740060 # 10000))))
              DB.empty sample.bob sample.alice sample.plumbing 5000 150
              eq_refl eq_refl eq_refl eq_refl eq_refl) as [H _].
  destruct (H (ex_intro _ 0 (conj (Qeq_refl 0) (or_introl eq_refl))))
    as (b & db' & Hok & _ & _ & Hnull).
  exists b, db'. split; [exact Hok|]. exact (Hnull eq_refl eq_refl).
Defined.

(* ================================================================= *)
(** ** The review gate *)

(** [ReviewSerializer.validate] on a submitted booking: it passes exactly
    when the booking is completed, the submitted customer is the booking's
    and no review exists; each failure has its own message, the first
    violated precondition deciding. *)
Lemma ReviewSerializer_validate_gate
      (db : DB.t) (data : serializers.ReviewData.t) (b : ServiceBooking.t) :
  serializers.ReviewData.booking data = Some b ->
  let completed := ServiceBooking.status b =? "completed" in
  let own :=
    User.opt_eqb (serializers.ReviewData.customer data)
                 (Some (ServiceBooking.customer b)) in
  let reviewed := DB.has_review db b in
  serializers.ReviewSerializer_validate db data
  = if negb completed then rest.ValidationError "Can only review completed bookings"
    else if negb own then rest.ValidationError "Can only review your own bookings"
    else if reviewed then rest.ValidationError "Booking already has a review"
    else rest.Ok data.
Proof.
  intros Hb. unfold serializers.ReviewSerializer_validate. rewrite Hb. reflexivity.
Qed.

Lemma review_messages_distinct :
  "Can only review completed bookings" <> "Can only review your own bookings"
  /\ "Can only review completed bookings" <> "Booking already has a review"
  /\ "Can only review your own bookings" <> "Booking already has a review".
Proof.
  repeat split; discriminate.
Qed.

Lemma Review_save_effect (r : Review.t) (db : DB.t) :
  fst (models.Review_save r db) = r
  /\ DB.reviews (snd (models.Review_save r db)) = DB.upsert Review.id r (DB.reviews db)
  /\ DB.notifications (snd (models.Review_save r db)) = DB.notifications db.
Proof.
  unfold models.Review_save.
  destruct (DB.provider_profile _ (Review.provider r)); cbn; auto.
Qed.

(** What the fields of the review serializer let through. *)
Lemma ReviewSerializer_fields_data (db : DB.t) (data x : serializers.ReviewData.t) :
  serializers.ReviewSerializer_fields db data = rest.Ok x ->
  x = data
  /\ exists b c rating,
      serializers.ReviewData.booking data = Some b
      /\ serializers.ReviewData.customer data = Some c
      /\ serializers.ReviewData.rating data = Some rating
      /\ DB.has_review db b = false
      /\ (1 <= rating <= 5)%nat.
Proof.
  unfold serializers.ReviewSerializer_fields.
  destruct (serializers.ReviewData.booking data) as [b|]; [|discriminate].
  destruct (DB.has_review db b) eqn:Hnone; [discriminate|].
  destruct (serializers.ReviewData.customer data) as [c|]; [|discriminate].
  destruct (serializers.ReviewData.rating data) as [rating|]; [|discriminate].
  destruct (Nat.ltb_spec rating 1) as [|Hlo]; [discriminate|].
  destruct (Nat.ltb_spec 5 rating) as [|Hhi]; [discriminate|].
  intros E. injection E as <-. split; [reflexivity|].
  exists b, c, rating. repeat split; auto.
Qed.

(** The fields let a complete request for an unreviewed booking through. *)
Lemma ReviewSerializer_fields_pass
      (db : DB.t) (data : serializers.ReviewData.t)
      (b : ServiceBooking.t) (c : User.t) (rating : nat) :
  serializers.ReviewData.booking data = Some b ->
  serializers.ReviewData.customer data = Some c ->
  serializers.ReviewData.rating data = Some rating ->
  DB.has_review db b = false ->
  (1 <= rating <= 5)%nat ->
  serializers.ReviewSerializer_fields db data = rest.Ok data.
Proof.
  intros Hb Hc Hr Hnone Hrange. unfold serializers.ReviewSerializer_fields.
  rewrite Hb, Hnone, Hc, Hr.
  destruct (Nat.ltb_spec rating 1); [lia|].
  destruct (Nat.ltb_spec 5 rating); [lia|]. reflexivity.
Qed.

(** An answered [POST /reviews/] passed the fields, then [validate] and
    [perform_create]. *)
Lemma review_post_stages
      (user : User.t) (data : serializers.ReviewData.t) (db : DB.t)
      (r : Review.t * DB.t) :
  views.ReviewListCreateView_post user data db = rest.Ok r ->
  serializers.ReviewSerializer_fields db data = rest.Ok data
  /\ rest.bind (serializers.ReviewSerializer_validate db data)
        (fun validated_data =>
           views.ReviewListCreateView_perform_create user validated_data db)
     = rest.Ok r.
Proof.
  unfold views.ReviewListCreateView_post.
  destruct (serializers.ReviewSerializer_fields db data) as [x| | | |] eqn:Hf;
    try discriminate.
  pose proof (ReviewSerializer_fields_data db data x Hf) as (-> & _).
  cbn [rest.bind]. auto.
Qed.

(** [POST /reviews/] for a submitted booking: when a review is created. *)
Lemma review_post_creates
      (user : User.t) (data : serializers.ReviewData.t) (db : DB.t)
      (b : ServiceBooking.t) (rating : nat) :
  serializers.ReviewData.booking data = Some b ->
  serializers.ReviewData.rating data = Some rating ->
  (1 <= rating <= 5)%nat ->
  ServiceBooking.status b = "completed" ->
  User.opt_eqb (serializers.ReviewData.customer data)
               (Some (ServiceBooking.customer b)) = true ->
  DB.has_review db b = false ->
  User.is_customer user = true ->
  exists r db',
    views.ReviewListCreateView_post user data db = rest.Ok (r, db')
    /\ Review.customer r = user
    /\ Review.booking r = b
    /\ Review.provider r = ServiceBooking.provider b
    /\ Review.service r = ServiceBooking.service b
    /\ Review.rating r = rating
    /\ In r (DB.reviews db').
Proof.
  intros Hb Hr Hrange Hst Hown Hnone Hrole.
  unfold views.ReviewListCreateView_post.
  destruct (serializers.ReviewData.customer data) as [c|] eqn:Hc;
    [|discriminate Hown].
  rewrite (ReviewSerializer_fields_pass db data b c rating Hb Hc Hr Hnone Hrange).
  cbn [rest.bind].
  rewrite (ReviewSerializer_validate_gate db data b Hb). cbn zeta. rewrite Hc.
  rewrite Hst, Hown, Hnone. cbn [String.eqb Ascii.eqb Bool.eqb negb rest.bind].
  unfold views.ReviewListCreateView_perform_create. rewrite Hrole. cbn [negb].
  unfold serializers.ReviewSerializer_create. cbn. rewrite Hb, Hr.
  match goal with
  | |- context [models.Review_save ?x db] =>
      pose proof (Review_save_effect x db) as (E1 & E2 & _);
      destruct (models.Review_save x db) as [r1 db1]
  end.
  cbn [fst snd] in *. subst r1.
  eexists. eexists. split; [reflexivity|]. cbn.
  repeat split; try reflexivity.
  rewrite E2. apply in_upsert.
Qed.

(** An accepted review passed all three checks of [validate] and the role
    check of the view, and it is stored for its booking. *)
Lemma review_post_accepted
      (user : User.t) (data : serializers.ReviewData.t) (db : DB.t)
      (r : Review.t) (db' : DB.t) :
  views.ReviewListCreateView_post user data db = rest.Ok (r, db') ->
  exists b,
    serializers.ReviewData.booking data = Some b
    /\ ServiceBooking.status b = "completed"
    /\ User.opt_eqb (serializers.ReviewData.customer data)
                    (Some (ServiceBooking.customer b)) = true
    /\ DB.has_review db b = false
    /\ User.is_customer user = true
    /\ Review.customer r = user
    /\ DB.has_review db' b = true.
Proof.
  intros Hpost. apply review_post_stages in Hpost. destruct Hpost as (_ & Hpost).
  revert Hpost.
  destruct (serializers.ReviewData.booking data) as [b|] eqn:Hb.
  - rewrite (ReviewSerializer_validate_gate db data b Hb). cbn zeta.
    destruct (String.eqb_spec (ServiceBooking.status b) "completed") as [Hst|];
      [|discriminate].
    destruct (User.opt_eqb _ _) eqn:Hown; [|discriminate].
    destruct (DB.has_review db b) eqn:Hnone; [discriminate|].
    cbn [negb rest.bind]. unfold views.ReviewListCreateView_perform_create.
    destruct (User.is_customer user) eqn:Hrole; [|discriminate]. cbn [negb].
    unfold serializers.ReviewSerializer_create. cbn. rewrite Hb.
    destruct (serializers.ReviewData.rating data) as [rating|]; [|discriminate].
    match goal with
    | |- context [models.Review_save ?x db] =>
        pose proof (Review_save_effect x db) as (E1 & E2 & _);
        destruct (models.Review_save x db) as [r1 db1]
    end.
    cbn [fst snd] in *. subst r1. intros H. injection H as <- <-.
    exists b. repeat split; auto.
    unfold DB.has_review. cbn. rewrite E2. apply existsb_exists.
    eexists. split; [apply in_upsert|]. cbn. apply Nat.eqb_refl.
  - unfold serializers.ReviewSerializer_validate. rewrite Hb. cbn [rest.bind].
    unfold views.ReviewListCreateView_perform_create.
    destruct (negb (User.is_customer user)); [discriminate|].
    unfold serializers.ReviewSerializer_create. cbn. rewrite Hb. discriminate.
Qed.

(** After a review was created for a booking, no request creates another
    one for it. *)
Lemma second_review_fails
      (user user2 : User.t) (data data2 : serializers.ReviewData.t) (db : DB.t)
      (r : Review.t) (db' : DB.t) (b b2 : ServiceBooking.t) :
  views.ReviewListCreateView_post user data db = rest.Ok (r, db') ->
  serializers.ReviewData.booking data = Some b ->
  serializers.ReviewData.booking data2 = Some b2 ->
  ServiceBooking.id b2 = ServiceBooking.id b ->
  forall x, views.ReviewListCreateView_post user2 data2 db' <> rest.Ok x.
Proof.
  intros Hpost Hb Hb2 Hid [r2 db2] Hsecond.
  apply review_post_accepted in Hpost. destruct Hpost as (b' & Hb' & _ & _ & _ & _ & _ & Hhas).
  rewrite Hb in Hb'. injection Hb' as <-.
  apply review_post_accepted in Hsecond.
  destruct Hsecond as (b3 & Hb3 & _ & _ & Hnone & _).
  rewrite Hb2 in Hb3. injection Hb3 as <-.
  unfold DB.has_review in *. rewrite Hid in Hnone. congruence.
Qed.

(** C2. The gate compares the customer named in the request with the
    booking's customer, while the review is then saved for the acting user.
    Carol, a customer who did not make Alice's completed booking, names
    Alice as the customer: the review is created, with Carol as its
    customer.  Alice herself, submitting no customer field for her own
    completed and unreviewed booking, is refused by the fields of the
    serializer with 'This field is required.'; and once Carol's review is
    stored, Alice's complete request for her own booking is refused with
    'review with this booking already exists.'. *)
Theorem C2_review_gate_checks_the_submitted_customer :
  let b := sample.booking "completed" in
  let db := sample.db_with b in
  (exists r db',
      views.ReviewListCreateView_post sample.carol
        (sample.review_request b (Some sample.alice)) db = rest.Ok (r, db')
      /\ Review.booking r = b
      /\ Review.customer r = sample.carol
      /\ User.eqb sample.carol (ServiceBooking.customer b) = false
      /\ views.ReviewListCreateView_post sample.alice
           (sample.review_request b (Some sample.alice)) db'
         = rest.ValidationError "review with this booking already exists.")
  /\ views.ReviewListCreateView_post sample.alice (sample.review_request b None) db
     = rest.ValidationError "This field is required.".
Proof.
  cbn zeta. split.
  - eexists. eexists. split; [vm_compute; reflexivity|]. repeat split; reflexivity.
  - vm_compute. reflexivity.
Qed.

(* ================================================================= *)
(** ** The provider's aggregate rating *)

Lemma User_eqb_same_id (x u v : User.t) :
  User.id u = User.id v -> User.eqb x u = User.eqb x v.
Proof.
  intros H. unfold User.eqb. now rewrite H.
Qed.

Lemma find_pointwise {A : Type} (f g : A -> bool) (l : list A) :
  (forall x, f x = g x) -> find f l = find g l.
Proof.
  intros H. induction l as [|x rest IH]; [reflexivity|].
  cbn. now rewrite H, IH.
Qed.

(** [update_rating]: the stored aggregate is the mean and the count of the
    reviews whose service belongs to the profile's user. *)
Lemma ServiceProviderProfile_update_rating_effect
      (self : ServiceProviderProfile.t) (db : DB.t) :
  let r := models.ServiceProviderProfile_update_rating self db in
  let rows := spec.reviews_of_services_of db (ServiceProviderProfile.user self) in
  ServiceProviderProfile.user (fst r) = ServiceProviderProfile.user self
  /\ ServiceProviderProfile.average_rating (fst r) == spec.mean_rating rows
  /\ ServiceProviderProfile.total_reviews (fst r) = List.length rows
  /\ DB.provider_profile (snd r) (ServiceProviderProfile.user self) = Some (fst r)
  /\ DB.reviews (snd r) = DB.reviews db.
Proof.
  cbn zeta. unfold models.ServiceProviderProfile_update_rating, spec.reviews_of_services_of.
  set (rows := filter _ (DB.reviews db)).
  cbn [fst snd].
  assert (Hrow : forall p : ServiceProviderProfile.t,
             ServiceProviderProfile.user p = ServiceProviderProfile.user self ->
             DB.provider_profile
               (DB.with_profiles
                  (DB.upsert (fun q => User.id (ServiceProviderProfile.user q)) p
                             (DB.profiles db)) db)
               (ServiceProviderProfile.user self) = Some p).
  { intros p Hp. unfold DB.provider_profile. cbn [DB.with_profiles DB.profiles].
    rewrite <- Hp.
    exact (get_upsert (fun q => User.id (ServiceProviderProfile.user q)) p
                      (DB.profiles db)). }
  destruct rows as [|r0 rest] eqn:Hrows.
  - cbn. repeat split; try reflexivity. now apply Hrow.
  - split; [reflexivity|]. split.
    + cbn [ServiceProviderProfile.average_rating]. unfold spec.mean_rating, Py.or_.
      destruct (models.Avg (r0 :: rest)) as [q|] eqn:Havg; [|reflexivity].
      destruct (Qeq_bool q 0) eqn:E; [|reflexivity].
      apply Qeq_bool_iff in E. now rewrite E.
    + repeat split; try reflexivity. now apply Hrow.
Qed.

(** After a review is saved, the profile of the review's provider (when
    there is one) holds the mean and the count of the reviews of the
    services that provider owns. *)
Lemma Review_save_rating (r : Review.t) (db : DB.t) (p : ServiceProviderProfile.t) :
  DB.provider_profile
    (DB.with_reviews (DB.upsert Review.id r (DB.reviews db)) db) (Review.provider r)
  = Some p ->
  let db' := snd (models.Review_save r db) in
  let rows := spec.reviews_of_services_of db' (Review.provider r) in
  exists p',
    DB.provider_profile db' (Review.provider r) = Some p'
    /\ ServiceProviderProfile.average_rating p' == spec.mean_rating rows
    /\ ServiceProviderProfile.total_reviews p' = List.length rows.
Proof.
  intros Hp. cbn zeta. unfold models.Review_save. rewrite Hp.
  set (db1 := DB.with_reviews _ db) in *.
  pose proof (ServiceProviderProfile_update_rating_effect p db1)
    as (_ & Havg & Hcount & Hrow & Hrev).
  cbn zeta in *. cbn [snd].
  assert (Hid : User.id (ServiceProviderProfile.user p) = User.id (Review.provider r)).
  { unfold DB.provider_profile in Hp. apply find_some in Hp. destruct Hp as [_ Hp].
    unfold User.eqb in Hp. now apply Nat.eqb_eq in Hp. }
  assert (Hsame : forall d,
             spec.reviews_of_services_of d (Review.provider r)
             = spec.reviews_of_services_of d (ServiceProviderProfile.user p)).
  { intros d. unfold spec.reviews_of_services_of. apply filter_ext. intros x.
    apply User_eqb_same_id. now symmetry. }
  exists (fst (models.ServiceProviderProfile_update_rating p db1)).
  split.
  - rewrite <- Hrow. unfold DB.provider_profile. apply find_pointwise. intros x.
    apply User_eqb_same_id. now symmetry.
  - rewrite Hsame. unfold spec.reviews_of_services_of in *. rewrite Hrev.
    split; assumption.
Qed.

(** When every stored review is for a service of the provider it names, the
    reviews of a provider's services are the reviews written for that
    provider. *)
Lemma reviews_of_services_are_reviews_for (db : DB.t) (u : User.t) :
  (forall r, In r (DB.reviews db) ->
             User.eqb (ProviderService.provider (Review.service r)) u
             = User.eqb (Review.provider r) u) ->
  spec.reviews_of_services_of db u = spec.reviews_for db u.
Proof.
  intros H. unfold spec.reviews_of_services_of, spec.reviews_for.
  induction (DB.reviews db) as [|r rest IH]; [reflexivity|].
  cbn. rewrite (H r (or_introl eq_refl)), IH; [reflexivity|].
  intros x Hx. apply H. now right.
Qed.

(** C9. Alice reviews, with five stars, her completed booking whose provider
    is Bob and whose service is Dave's.  The review is stored for provider
    Bob, so the mean over Bob's reviews is 5 and their number is 1; the
    aggregate persisted on Bob's profile is 0 with 0 reviews, because
    [update_rating] scans the reviews of the services Bob owns. *)
Theorem C9_rating_scans_reviews_of_owned_services :
  let b := sample.mismatched_booking in
  let db := sample.db_with b in
  exists r db' p,
    views.ReviewListCreateView_post sample.alice
      (sample.review_request b (Some sample.alice)) db = rest.Ok (r, db')
    /\ Review.provider r = sample.bob
    /\ spec.reviews_for db' sample.bob = [r]
    /\ spec.mean_rating (spec.reviews_for db' sample.bob) == 5
    /\ DB.provider_profile db' sample.bob = Some p
    /\ ServiceProviderProfile.average_rating p == 0
    /\ ServiceProviderProfile.total_reviews p = 0%nat
    /\ spec.reviews_of_services_of db' sample.bob = [].
Proof.
  cbn zeta. eexists. eexists. eexists.
  split; [vm_compute; reflexivity|].
  repeat split; reflexivity.
Qed.

(* ================================================================= *)
(** ** The search partition *)

Section SortFacts.
Context {A : Type}.

Lemma in_insert_by (k : Q) (x : A) (l : list (Q * A)) (p : Q * A) :
  In p (views.insert_by k x l) <-> p = (k, x) \/ In p l.
Proof.
  induction l as [|[k' y] rest IH]; cbn.
  - intuition congruence.
  - destruct (Py.ltb k' k); cbn; rewrite ?IH; intuition congruence.
Qed.

Lemma in_sort_keyed (l : list (Q * A)) (p : Q * A) :
  In p (views.sort_keyed l) <-> In p l.
Proof.
  induction l as [|[k x] rest IH]; cbn; [tauto|].
  rewrite in_insert_by, IH. intuition congruence.
Qed.

Lemma keyed_items (key : A -> rest.outcome Q) (l : list A) (ks : list (Q * A)) :
  views.keyed key l = rest.Ok ks -> map snd ks = l.
Proof.
  revert ks. induction l as [|x rest IH]; cbn; intros ks H.
  - injection H as <-. reflexivity.
  - destruct (key x) as [k| | | |]; try discriminate. cbn in H.
    destruct (views.keyed key rest) as [ks'| | | |]; try discriminate. cbn in H.
    injection H as <-. cbn. f_equal. now apply IH.
Qed.

(** Sorting keeps exactly the items it was given. *)
Lemma in_list_sort (key : A -> rest.outcome Q) (l l' : list A) (x : A) :
  views.list_sort key l = rest.Ok l' -> (In x l' <-> In x l).
Proof.
  unfold views.list_sort.
  destruct (views.keyed key l) as [ks| | | |] eqn:Hk; try discriminate.
  cbn. intros H. injection H as <-.
  apply keyed_items in Hk. rewrite <- Hk, !in_map_iff.
  split; intros (p & Hp & Hin); exists p; (split; [exact Hp|]);
    now apply in_sort_keyed.
Qed.

(** A key that never raises sorts every list. *)
Lemma list_sort_total (key : A -> rest.outcome Q) (l : list A) :
  (forall x, In x l -> exists k, key x = rest.Ok k) ->
  exists l', views.list_sort key l = rest.Ok l'.
Proof.
  intros H. unfold views.list_sort.
  assert (Hk : exists ks, views.keyed key l = rest.Ok ks).
  { induction l as [|x rest IH]; cbn; [eauto|].
    destruct (H x (or_introl eq_refl)) as (k & ->). cbn.
    destruct IH as (ks & ->); [intros y Hy; apply H; now right|].
    cbn. eauto. }
  destruct Hk as (ks & ->). cbn. eauto.
Qed.
End SortFacts.

(** Every row of the search queryset is a stored service whose provider has
    both coordinates. *)
Lemma search_queryset_has_coordinates
      (db : DB.t) (data : serializers.SearchData.t) (s : ProviderService.t) :
  In s (views.ServiceSearchView_queryset db data) ->
  In s (DB.services db)
  /\ exists plat plng,
      User.latitude (ProviderService.provider s) = Some plat
      /\ User.longitude (ProviderService.provider s) = Some plng.
Proof.
  unfold views.ServiceSearchView_queryset.
  set (base := filter _ (DB.services db)).
  assert (Hbase : In s base ->
                  In s (DB.services db)
                  /\ exists plat plng,
                      User.latitude (ProviderService.provider s) = Some plat
                      /\ User.longitude (ProviderService.provider s) = Some plng).
  { unfold base. intros H. apply filter_In in H. destruct H as [Hin Hf].
    split; [exact Hin|].
    apply andb_prop in Hf. destruct Hf as [Hf Hlng].
    apply andb_prop in Hf. destruct Hf as [_ Hlat].
    destruct (User.latitude (ProviderService.provider s)) as [plat|]; [|discriminate].
    destruct (User.longitude (ProviderService.provider s)) as [plng|]; [|discriminate].
    eauto. }
  intros H. apply Hbase. clear Hbase.
  repeat match type of H with
         | In _ (match ?x with _ => _ end) => destruct x
         | In _ (filter _ _) => apply filter_In in H; destruct H as [H _]
         end; exact H.
Qed.

Section BucketFacts.
Variable m : math.t.
Variables (latitude longitude : Q) (radius : Z).

(** What the loop puts in each bucket. *)
Lemma buckets_members (services : list ProviderService.t) :
  forall near far,
    views.ServiceSearchView_buckets m latitude longitude radius services
    = rest.Ok (near, far) ->
    forall h,
      (In h near <->
       exists s plat plng,
         In s services /\ spec.located s plat plng /\ h = spec.hit m latitude longitude radius s plat plng
         /\ Qle_bool (views.Hit.distance_km h) (inject_Z radius) = true)
      /\ (In h far <->
          exists s plat plng,
            In s services /\ spec.located s plat plng /\ h = spec.hit m latitude longitude radius s plat plng
            /\ Qle_bool (views.Hit.distance_km h) (inject_Z radius) = false
            /\ Qle_bool (views.Hit.distance_km h) 50 = true).
Proof.
  induction services as [|s rest IH]; intros near far H h.
  - cbn in H. injection H as <- <-. cbn.
    split; split; try contradiction; intros (s & plat & plng & [] & _).
  - cbn [views.ServiceSearchView_buckets] in H.
    destruct (User.latitude (ProviderService.provider s)) as [plat|] eqn:Hlat;
      [|discriminate].
    destruct (User.longitude (ProviderService.provider s)) as [plng|] eqn:Hlng;
      [|discriminate].
    destruct (views.ServiceSearchView_buckets m latitude longitude radius rest)
      as [[near0 far0]| | | |]; try discriminate.
    specialize (IH near0 far0 eq_refl h). destruct IH as [IHn IHf].
    cbn [rest.bind] in H.
    assert (Hhere : spec.located s plat plng) by (split; assumption).
    assert (Hsame : forall plat' plng', spec.located s plat' plng' ->
                                        spec.hit m latitude longitude radius s plat' plng' = spec.hit m latitude longitude radius s plat plng).
    { intros plat' plng' [E1 E2]. rewrite Hlat in E1. rewrite Hlng in E2.
      injection E1 as <-. injection E2 as <-. reflexivity. }
    fold (spec.hit m latitude longitude radius s plat plng) in H.
    change (views.ServiceSearchView_calculate_distance m latitude longitude plat plng)
      with (views.Hit.distance_km (spec.hit m latitude longitude radius s plat plng)) in H.
    destruct (Qle_bool (views.Hit.distance_km (spec.hit m latitude longitude radius s plat plng)) (inject_Z radius))
      eqn:Hnear;
      [|destruct (Qle_bool (views.Hit.distance_km (spec.hit m latitude longitude radius s plat plng)) 50) eqn:Hfar];
      injection H as <- <-; split; split.
    + intros [<-|Hin].
      * exists s, plat, plng. cbn [In]. auto.
      * apply IHn in Hin. destruct Hin as (s' & a & b & Hin & rest').
        exists s', a, b. cbn [In]. auto.
    + intros (s' & a & b & [<-|Hin] & Hloc & -> & Hle).
      * left. symmetry. now apply Hsame.
      * right. apply IHn. exists s', a, b. auto.
    + intros Hin. apply IHf in Hin. destruct Hin as (s' & a & b & Hin & rest').
      exists s', a, b. cbn [In]. auto.
    + intros (s' & a & b & [<-|Hin] & Hloc & -> & Hle & Hle50).
      * rewrite (Hsame a b Hloc) in Hle. congruence.
      * apply IHf. exists s', a, b. auto.
    + intros Hin. apply IHn in Hin. destruct Hin as (s' & a & b & Hin & rest').
      exists s', a, b. cbn [In]. auto.
    + intros (s' & a & b & [<-|Hin] & Hloc & -> & Hle).
      * rewrite (Hsame a b Hloc) in Hle. congruence.
      * apply IHn. exists s', a, b. auto.
    + intros [<-|Hin].
      * exists s, plat, plng. cbn [In]. auto.
      * apply IHf in Hin. destruct Hin as (s' & a & b & Hin & rest').
        exists s', a, b. cbn [In]. auto.
    + intros (s' & a & b & [<-|Hin] & Hloc & -> & Hle & Hle50).
      * left. symmetry. now apply Hsame.
      * right. apply IHf. exists s', a, b. auto.
    + intros Hin. apply IHn in Hin. destruct Hin as (s' & a & b & Hin & rest').
      exists s', a, b. cbn [In]. auto.
    + intros (s' & a & b & [<-|Hin] & Hloc & -> & Hle).
      * rewrite (Hsame a b Hloc) in Hle. congruence.
      * apply IHn. exists s', a, b. auto.
    + intros Hin. apply IHf in Hin. destruct Hin as (s' & a & b & Hin & rest').
      exists s', a, b. cbn [In]. auto.
    + intros (s' & a & b & [<-|Hin] & Hloc & -> & Hle & Hle50).
      * rewrite (Hsame a b Hloc) in Hle50. congruence.
      * apply IHf. exists s', a, b. auto.
Qed.

(** The loop never raises on services whose providers have coordinates. *)
Lemma buckets_total (services : list ProviderService.t) :
  (forall s, In s services -> exists plat plng, spec.located s plat plng) ->
  exists near far,
    views.ServiceSearchView_buckets m latitude longitude radius services
    = rest.Ok (near, far).
Proof.
  induction services as [|s rest IH]; intros H; cbn; [eauto|].
  destruct (H s (or_introl eq_refl)) as (plat & plng & -> & ->).
  destruct IH as (near & far & ->); [intros x Hx; apply H; now right|].
  cbn. repeat match goal with
              | |- context [if ?c then _ else _] => destruct c
              end; eauto.
Qed.
End BucketFacts.

Lemma ServiceSearchSerializer_radius (request : serializers.SearchData.raw)
      (data : serializers.SearchData.t) :
  serializers.ServiceSearchSerializer_is_valid request = rest.Ok data ->
  (1 <= serializers.SearchData.radius data <= 50)%Z.
Proof.
  unfold serializers.ServiceSearchSerializer_is_valid.
  destruct (serializers.SearchData.raw_latitude request); [|discriminate].
  destruct (serializers.SearchData.raw_longitude request); [|discriminate].
  destruct (negb _) eqn:Hr; [discriminate|].
  repeat match goal with
         | |- context [if ?c then _ else _] => destruct c; try discriminate
         end.
  intros H. injection H as <-. cbn.
  apply negb_false_iff, andb_prop in Hr. destruct Hr as [H1 H2].
  apply Z.leb_le in H1. apply Z.leb_le in H2. lia.
Qed.

(** What [ServiceSearchView.post] answers when it answers a result. *)
Lemma search_post_ok
      (m : math.t) (db : DB.t) (user : User.t) (request : serializers.SearchData.raw)
      (resp : views.search_response) :
  views.ServiceSearchView_post m db user request = rest.Ok resp ->
  exists data near far,
    serializers.ServiceSearchSerializer_is_valid request = rest.Ok data
    /\ views.ServiceSearchView_buckets m (serializers.SearchData.latitude data)
         (serializers.SearchData.longitude data) (serializers.SearchData.radius data)
         (views.ServiceSearchView_queryset db data) = rest.Ok (near, far)
    /\ (forall h, In h (views.nearby_services resp) <-> In h near)
    /\ (forall h, In h (views.distant_services resp) <-> In h far).
Proof.
  unfold views.ServiceSearchView_post.
  destruct (negb (permissions.IsCustomer user)); [discriminate|].
  destruct (serializers.ServiceSearchSerializer_is_valid request) as [data| | | |] eqn:Hv;
    try discriminate.
  cbn [rest.bind].
  destruct (views.ServiceSearchView_buckets m _ _ _ _) as [[near far]| | | |] eqn:Hb;
    try discriminate.
  cbn [rest.bind].
  destruct (views.list_sort _ near) as [near'| | | |] eqn:Hn; try discriminate.
  cbn [rest.bind].
  destruct (views.list_sort _ far) as [far'| | | |] eqn:Hf; try discriminate.
  cbn [rest.bind]. intros H. injection H as <-. cbn.
  exists data, near, far.
  split; [reflexivity|]. split; [exact Hb|].
  split; intros h.
  - exact (in_list_sort _ _ _ h Hn).
  - exact (in_list_sort _ _ _ h Hf).
Qed.

(** A search sorted by distance or by price always answers a result. *)
Lemma search_post_total
      (m : math.t) (db : DB.t) (user : User.t) (request : serializers.SearchData.raw)
      (data : serializers.SearchData.t) :
  permissions.IsCustomer user = true ->
  serializers.ServiceSearchSerializer_is_valid request = rest.Ok data ->
  In (serializers.SearchData.sort_by data) ["distance"; "price"] ->
  exists resp, views.ServiceSearchView_post m db user request = rest.Ok resp.
Proof.
  intros Hu Hv Hs. unfold views.ServiceSearchView_post. rewrite Hu, Hv.
  cbn [negb rest.bind].
  destruct (buckets_total m (serializers.SearchData.latitude data)
              (serializers.SearchData.longitude data) (serializers.SearchData.radius data)
              (views.ServiceSearchView_queryset db data)) as (near & far & ->).
  { intros s Hin. apply search_queryset_has_coordinates in Hin. tauto. }
  cbn [rest.bind].
  assert (Hkey : forall h,
             exists k,
               views.ServiceSearchView_sort_key db (serializers.SearchData.sort_by data) h
               = rest.Ok k).
  { intros h. unfold views.ServiceSearchView_sort_key.
    destruct Hs as [<-|[<-|[]]]; cbn; eauto. }
  destruct (list_sort_total
              (views.ServiceSearchView_sort_key db (serializers.SearchData.sort_by data))
              near (fun h _ => Hkey h)) as (near' & ->).
  cbn [rest.bind].
  destruct (list_sort_total
              (views.ServiceSearchView_sort_key db (serializers.SearchData.sort_by data))
              far (fun h _ => Hkey h)) as (far' & ->).
  cbn [rest.bind]. eauto.
Qed.

(** C6. In every search result, a candidate service (a row of the filtered
    queryset) whose provider is at distance d from the origin is in the
    nearby bucket exactly when d <= radius (the boundary included), in the
    distant bucket exactly when radius < d <= 50, and in neither exactly
    when d > 50; only candidates appear in a bucket, and a service whose
    provider has a null latitude or longitude appears in neither. *)
Theorem C6_search_partition
        (m : math.t) (db : DB.t) (user : User.t) (request : serializers.SearchData.raw)
        (resp : views.search_response) :
  views.ServiceSearchView_post m db user request = rest.Ok resp ->
  exists data,
    serializers.ServiceSearchSerializer_is_valid request = rest.Ok data
    /\ (forall service plat plng,
           In service (views.ServiceSearchView_queryset db data) ->
           User.latitude (ProviderService.provider service) = Some plat ->
           User.longitude (ProviderService.provider service) = Some plng ->
           let d :=
             views.ServiceSearchView_calculate_distance m
               (serializers.SearchData.latitude data)
               (serializers.SearchData.longitude data) plat plng in
           let r := inject_Z (serializers.SearchData.radius data) in
           (spec.in_bucket service (views.nearby_services resp) <-> d <= r)
           /\ (spec.in_bucket service (views.distant_services resp) <-> r < d /\ d <= 50)
           /\ (~ spec.in_bucket service (views.nearby_services resp)
               /\ ~ spec.in_bucket service (views.distant_services resp)
               <-> 50 < d))
    /\ (forall service,
           spec.in_bucket service (views.nearby_services resp)
           \/ spec.in_bucket service (views.distant_services resp) ->
           In service (views.ServiceSearchView_queryset db data))
    /\ (forall service,
           User.latitude (ProviderService.provider service) = None
           \/ User.longitude (ProviderService.provider service) = None ->
           ~ spec.in_bucket service (views.nearby_services resp)
           /\ ~ spec.in_bucket service (views.distant_services resp)).
Proof.
  intros Hpost. apply search_post_ok in Hpost.
  destruct Hpost as (data & near & far & Hv & Hb & Hn & Hf).
  pose proof (ServiceSearchSerializer_radius request data Hv) as Hr.
  pose proof (buckets_members m _ _ _ _ near far Hb) as Hmem.
  exists data. split; [exact Hv|].
  assert (Hcand : forall service,
             spec.in_bucket service (views.nearby_services resp)
             \/ spec.in_bucket service (views.distant_services resp) ->
             In service (views.ServiceSearchView_queryset db data)).
  { intros service [(h & Hin & <-)|(h & Hin & <-)].
    - apply Hn, (proj1 (Hmem h)) in Hin.
      destruct Hin as (s & a & b & Hin & _ & -> & _). exact Hin.
    - apply Hf, (proj2 (Hmem h)) in Hin.
      destruct Hin as (s & a & b & Hin & _ & -> & _). exact Hin. }
  split; [|split; [exact Hcand|]].
  - intros service plat plng Hin Hlat Hlng d r.
    set (h0 := views.Hit.mk service d (Qle_bool d r)).
    assert (Hnear : spec.in_bucket service (views.nearby_services resp) <-> d <= r).
    { split.
      - intros (h & Hh & Hs). apply Hn, (proj1 (Hmem h)) in Hh.
        destruct Hh as (s & a & b & _ & [Ha Hb'] & -> & Hle).
        cbn in Hs. subst s. rewrite Hlat in Ha. rewrite Hlng in Hb'.
        injection Ha as <-. injection Hb' as <-.
        cbn in Hle. now apply Qle_bool_iff in Hle.
      - intros Hle. exists h0. split; [|reflexivity].
        apply Hn, (proj1 (Hmem h0)). exists service, plat, plng.
        repeat split; auto. cbn. now apply Qle_bool_iff. }
    assert (Hfar : spec.in_bucket service (views.distant_services resp)
                   <-> r < d /\ d <= 50).
    { split.
      - intros (h & Hh & Hs). apply Hf, (proj2 (Hmem h)) in Hh.
        destruct Hh as (s & a & b & _ & [Ha Hb'] & -> & Hgt & Hle).
        cbn in Hs. subst s. rewrite Hlat in Ha. rewrite Hlng in Hb'.
        injection Ha as <-. injection Hb' as <-.
        cbn in Hgt, Hle. split.
        + apply Qnot_le_lt. intros C. apply Qle_bool_iff in C. unfold d, r in C. congruence.
        + now apply Qle_bool_iff in Hle.
      - intros [Hgt Hle]. exists h0. split; [|reflexivity].
        apply Hf, (proj2 (Hmem h0)). exists service, plat, plng.
        repeat split; auto; cbn.
        + apply not_true_is_false. intros E. apply Qle_bool_iff in E.
          exact (Qlt_not_le _ _ Hgt E).
        + now apply Qle_bool_iff. }
    split; [exact Hnear|]. split; [exact Hfar|].
    assert (Hr50 : r <= 50).
    { unfold r. change 50 with (inject_Z 50). rewrite <- Zle_Qle. lia. }
    split.
    + intros [N1 N2].
      destruct (Qlt_le_dec 50 d) as [Hgt|Hle]; [exact Hgt|].
      exfalso. destruct (Qlt_le_dec r d) as [Hrd|Hdr].
      * apply N2, Hfar. split; assumption.
      * apply N1, Hnear. exact Hdr.
    + intros Hgt. split.
      * intros C. apply Hnear in C.
        apply (Qlt_not_le _ _ Hgt). now apply Qle_trans with r.
      * intros C. apply Hfar in C. destruct C as [_ C].
        exact (Qlt_not_le _ _ Hgt C).
  - intros service Hnull.
    assert (Hno : ~ In service (views.ServiceSearchView_queryset db data)).
    { intros Hin. apply search_queryset_has_coordinates in Hin.
      destruct Hin as (_ & a & b & Ha & Hb').
      destruct Hnull as [E|E]; congruence. }
    split; intros C; apply Hno, Hcand; auto.
Qed.

Lemma C6_search_partition_witness :
  spec.in_bucket sample.plumbing (views.nearby_services sample.search_result)
  /\ ~ spec.in_bucket sample.wiring (views.nearby_services sample.search_result)
  /\ ~ spec.in_bucket sample.wiring (views.distant_services sample.search_result).
Proof.
  destruct (C6_search_partition sample.short_walk
              (sample.db_with (sample.booking "pending")) sample.alice
              sample.search_request sample.search_result eq_refl)
    as (data & Hv & Hpart & _ & Hnull).
  cbn in Hv. injection Hv as <-.
  split.
  - destruct (Hpart sample.plumbing (407589 # 10000) (- 739851 # 10000)
                (or_introl eq_refl) eq_refl eq_refl) as (Hnear & _).
    apply Hnear. intro E. discriminate E.
  - exact (Hnull sample.wiring (or_introl eq_refl)).
Defined.

(* ================================================================= *)
(** ** Further properties: bookings *)

Lemma ServiceBookingSerializer_fields_data (data x : serializers.BookingData.t) :
  serializers.ServiceBookingSerializer_fields data = rest.Ok x -> x = data.
Proof.
  unfold serializers.ServiceBookingSerializer_fields.
  destruct (serializers.BookingData.status data) as [s|];
    destruct (serializers.BookingData.payment_status data) as [ps|];
    repeat match goal with
           | |- context [if ?c then _ else _] => destruct c
           end; congruence.
Qed.

(** X1. An update that names neither the customer nor the provider, such as
    a PATCH carrying only a status, never passes: [validate] compares the two
    missing values, finds them equal and answers 'Cannot book your own
    service'; the detail endpoint therefore never applies such an update. *)
Theorem update_without_parties_is_refused
        (now : Z) (user : User.t) (pk : nat) (data : serializers.BookingData.t)
        (db : DB.t) :
  serializers.BookingData.customer data = None ->
  serializers.BookingData.provider data = None ->
  serializers.ServiceBookingSerializer_validate now data
  = rest.ValidationError "Cannot book your own service"
  /\ forall r, views.ServiceBookingDetailView_update now user pk data db <> rest.Ok r.
Proof.
  intros Hc Hp.
  assert (Hval : serializers.ServiceBookingSerializer_validate now data
                 = rest.ValidationError "Cannot book your own service").
  { unfold serializers.ServiceBookingSerializer_validate. rewrite Hc, Hp. reflexivity. }
  split; [exact Hval|].
  intros r. unfold views.ServiceBookingDetailView_update.
  destruct (views.ServiceBookingDetailView_get_object user pk db) as [old| | | |];
    try discriminate.
  cbn [rest.bind]. unfold serializers.ServiceBookingSerializer_is_valid.
  destruct (serializers.ServiceBookingSerializer_fields data) as [x| | | |] eqn:Hf;
    try discriminate.
  apply ServiceBookingSerializer_fields_data in Hf. subst x. rewrite Hval. discriminate.
Qed.

Lemma update_without_parties_is_refused_witness :
  serializers.ServiceBookingSerializer_validate 2000
    (serializers.BookingData.mk None None None None None None None None
       (Some "confirmed") None None)
  = rest.ValidationError "Cannot book your own service"
  /\ forall r,
      views.ServiceBookingDetailView_update 2000 sample.bob 1
        (serializers.BookingData.mk None None None None None None None None
           (Some "confirmed") None None)
        (sample.db_with (sample.booking "pending")) <> rest.Ok r.
Proof.
  exact (update_without_parties_is_refused 2000 sample.bob 1
           (serializers.BookingData.mk None None None None None None None None
              (Some "confirmed") None None)
           (sample.db_with (sample.booking "pending")) eq_refl eq_refl).
Defined.

(** [save] keeps the columns a request fills in. *)
Lemma ServiceBooking_save_keeps (now : Z) (b : ServiceBooking.t) (db : DB.t) :
  let b' := fst (models.ServiceBooking_save now b db) in
  ServiceBooking.booking_date b' = ServiceBooking.booking_date b
  /\ ServiceBooking.service b' = ServiceBooking.service b
  /\ ServiceBooking.quoted_price b' = ServiceBooking.quoted_price b
  /\ ServiceBooking.service_latitude b' = ServiceBooking.service_latitude b
  /\ ServiceBooking.service_longitude b' = ServiceBooking.service_longitude b.
Proof.
  unfold models.ServiceBooking_save; cbn [fst].
  repeat match goal with
         | |- context [if ?c then _ else _] => destruct c
         end; cbn; repeat split; reflexivity.
Qed.

Lemma rest_bind_ok {A B : Type} (r : rest.outcome A) (k : A -> rest.outcome B) (y : B) :
  rest.bind r k = rest.Ok y -> exists x, r = rest.Ok x /\ k x = rest.Ok y.
Proof.
  destruct r as [x| | | |]; cbn; try discriminate. eauto.
Qed.

(** What a passed validation of booking data guarantees. *)
Lemma ServiceBookingSerializer_is_valid_facts
      (now : Z) (data vd : serializers.BookingData.t) :
  serializers.ServiceBookingSerializer_is_valid now data = rest.Ok vd ->
  User.opt_eqb (serializers.BookingData.customer data)
               (serializers.BookingData.provider data) = false
  /\ (forall c, serializers.BookingData.customer data = Some c ->
                User.is_customer c = true)
  /\ (forall p, serializers.BookingData.provider data = Some p ->
                User.is_provider p = true)
  /\ (forall d, serializers.BookingData.booking_date data = Some d -> (now < d)%Z)
  /\ (forall s, serializers.BookingData.status data = Some s ->
                In s ServiceBooking.BOOKING_STATUS).
Proof.
  unfold serializers.ServiceBookingSerializer_is_valid.
  destruct (serializers.ServiceBookingSerializer_fields data) as [x| | | |] eqn:Hf;
    try discriminate.
  pose proof (ServiceBookingSerializer_fields_data data x Hf). subst x.
  unfold serializers.ServiceBookingSerializer_validate.
  destruct (User.opt_eqb _ _); [discriminate|].
  destruct (serializers.BookingData.customer data) as [c|];
    [destruct (User.is_customer c) eqn:Hc; [|discriminate]|];
    (destruct (serializers.BookingData.provider data) as [p|];
     [destruct (User.is_provider p) eqn:Hp; [|discriminate]|]);
    (destruct (serializers.BookingData.booking_date data) as [d|];
     [destruct (Z.leb_spec d now); [discriminate|]|]);
    cbn [negb]; intros _;
    (split; [reflexivity|]);
    (split; [intros ? E; try discriminate E; injection E as <-; assumption|]);
    (split; [intros ? E; try discriminate E; injection E as <-; assumption|]);
    (split; [intros ? E; try discriminate E; injection E as <-; assumption|]);
    intros s Hs; unfold serializers.ServiceBookingSerializer_fields in Hf;
    rewrite Hs in Hf;
    (destruct (Py.str_in s ServiceBooking.BOOKING_STATUS) eqn:E; [|discriminate]);
    now apply str_in_In.
Qed.

(** [ServiceBookingSerializer.create] changes nothing but the two computed
    fields of the validated data. *)
Lemma ServiceBookingSerializer_create_keeps
      (m : math.t) (now : Z) (vd : serializers.BookingData.t) (db : DB.t)
      (r : ServiceBooking.t * DB.t) :
  serializers.ServiceBookingSerializer_create m now vd db = rest.Ok r ->
  exists vd',
    serializers.ServiceBooking_objects_create now vd' db = rest.Ok r
    /\ serializers.BookingData.customer vd' = serializers.BookingData.customer vd
    /\ serializers.BookingData.provider vd' = serializers.BookingData.provider vd
    /\ serializers.BookingData.booking_date vd' = serializers.BookingData.booking_date vd
    /\ serializers.BookingData.status vd' = serializers.BookingData.status vd.
Proof.
  created_cases m vd; intros H; eexists; (split; [exact H|]); cbn; auto.
Qed.

Lemma ServiceBooking_objects_create_row
      (now : Z) (vd : serializers.BookingData.t) (db : DB.t)
      (b : ServiceBooking.t) (db' : DB.t) :
  serializers.ServiceBooking_objects_create now vd db = rest.Ok (b, db') ->
  serializers.BookingData.booking_date vd = Some (ServiceBooking.booking_date b)
  /\ spec.booking_row db' b = Some b.
Proof.
  unfold serializers.ServiceBooking_objects_create.
  destruct (serializers.BookingData.customer vd) as [c|]; [|discriminate].
  destruct (serializers.BookingData.provider vd) as [p|]; [|discriminate].
  destruct (serializers.BookingData.service vd) as [s|]; [|discriminate].
  destruct (serializers.BookingData.booking_date vd) as [d|]; [|discriminate].
  destruct (serializers.BookingData.quoted_price vd) as [q|]; [|discriminate].
  match goal with
  | |- context [models.ServiceBooking_save now ?x db] =>
      pose proof (ServiceBooking_save_keeps now x db) as (K1 & _);
      pose proof (ServiceBooking_save_persists now x db) as (Hrow & _);
      destruct (models.ServiceBooking_save now x db) as [b1 db1]
  end.
  cbn [fst snd] in *. intros H. injection H as <- <-.
  cbn in K1. split; [congruence|exact Hrow].
Qed.

(** X2. Every booking created through the list endpoint belongs to the
    acting user, who has the customer role; its provider has the provider
    role; its date lies strictly after the moment of the request; its status
    is the submitted one (one of the six choices), 'pending' when none was
    submitted; and the row is stored. *)
Theorem created_booking_is_well_formed
        (m : math.t) (now : Z) (user : User.t) (data : serializers.BookingData.t)
        (db : DB.t) (b : ServiceBooking.t) (db' : DB.t) :
  views.ServiceBookingListCreateView_post m now user data db = rest.Ok (b, db') ->
  ServiceBooking.customer b = user
  /\ User.is_customer user = true
  /\ User.is_provider (ServiceBooking.provider b) = true
  /\ (now < ServiceBooking.booking_date b)%Z
  /\ ServiceBooking.status b
     = spec.picked (serializers.BookingData.status data) "pending"
  /\ In (ServiceBooking.status b) ServiceBooking.BOOKING_STATUS
  /\ spec.booking_row db' b = Some b.
Proof.
  unfold views.ServiceBookingListCreateView_post. intros H.
  apply rest_bind_ok in H. destruct H as (x & Hreq & H).
  apply ServiceBookingSerializer_required_data in Hreq. destruct Hreq as (-> & _).
  apply rest_bind_ok in H. destruct H as (vd & Hv & H).
  pose proof (ServiceBookingSerializer_is_valid_data now data vd Hv). subst vd.
  apply ServiceBookingSerializer_is_valid_facts in Hv.
  destruct Hv as (_ & _ & Hprov & Hdate & Hchoice).
  unfold views.ServiceBookingListCreateView_perform_create in H.
  destruct (User.is_customer user) eqn:Hrole; [|discriminate]. cbn [negb] in H.
  apply rest_bind_ok in H. destruct H as ([b1 db1] & Hc & H).
  injection H as <- <-.
  apply ServiceBookingSerializer_create_keeps in Hc.
  destruct Hc as (vd' & Hc & Ec & Ep & Ed & Es). cbn in Ec, Ep, Ed, Es.
  pose proof (ServiceBooking_objects_create_effect now vd' db b1 db1 Hc)
    as (Fc & Fp & _ & _ & Fs & _).
  pose proof (ServiceBooking_objects_create_row now vd' db b1 db1 Hc) as (Fd & Frow).
  rewrite Ec in Fc. injection Fc as Fc. rewrite Ep in Fp. rewrite Ed in Fd.
  rewrite Es in Fs.
  repeat split; auto.
  - rewrite Fs. unfold spec.picked.
    destruct (serializers.BookingData.status data) as [s|] eqn:E.
    + now apply Hchoice.
    + cbn. auto.
Qed.

Lemma created_booking_is_well_formed_witness :
  ServiceBooking.customer (fst more.created) = sample.alice
  /\ (2000 < ServiceBooking.booking_date (fst more.created))%Z.
Proof.
  destruct (created_booking_is_well_formed sample.short_walk 2000 sample.alice
              (more.booking_request_of sample.alice)
              DB.empty (fst more.created) (snd more.created) eq_refl)
    as (H1 & _ & _ & H4 & _).
  exact (conj H1 H4).
Defined.

(** X3. A booking that [cancel_booking] answers is the acting customer's,
    carries the requested id, is 'cancelled' and no longer active, has
    cancelled_at set (to the moment of the request unless an older value was
    there), keeps its confirmed_at, and is the stored row. *)
Theorem cancel_booking_result
        (now : Z) (user : User.t) (booking_id : nat) (db : DB.t)
        (b : ServiceBooking.t) (db' : DB.t) :
  views.cancel_booking now user booking_id db = rest.Ok (b, db') ->
  exists old,
    In old (DB.bookings db)
    /\ ServiceBooking.id old = booking_id
    /\ ServiceBooking.id b = booking_id
    /\ User.eqb (ServiceBooking.customer b) user = true
    /\ User.role user = "customer"
    /\ ServiceBooking.status b = "cancelled"
    /\ ServiceBooking.is_active b = false
    /\ ServiceBooking.cancelled_at b
       = Some (match ServiceBooking.cancelled_at old with Some t => t | None => now end)
    /\ ServiceBooking.confirmed_at b = ServiceBooking.confirmed_at old
    /\ spec.booking_row db' b = Some b.
Proof.
  unfold views.cancel_booking.
  destruct (permissions.IsCustomer user) eqn:Hperm; [|discriminate]. cbn [negb].
  destruct (find _ (DB.bookings db)) as [old|] eqn:Hfind; [|discriminate].
  apply find_some in Hfind. destruct Hfind as [Hin Hf].
  apply andb_prop in Hf. destruct Hf as [Hf _].
  apply andb_prop in Hf. destruct Hf as [Hid Hcust]. apply Nat.eqb_eq in Hid.
  set (c := ServiceBooking.set_status "cancelled" old).
  pose proof (ServiceBooking_save_frame now c db) as (F1 & F2 & _ & F3 & _).
  pose proof (ServiceBooking_save_persists now c db) as (Hrow & _).
  pose proof (ServiceBooking_save_stamp now c db "cancelled"
                (or_intror (or_intror (or_introl eq_refl)))) as [Hset _].
  pose proof (ServiceBooking_save_stamp now c db "confirmed" (or_introl eq_refl))
    as [_ Hkeep].
  destruct (models.ServiceBooking_save now c db) as [b1 db1]. cbn [fst snd] in *.
  specialize (Hset eq_refl). specialize (Hkeep ltac:(discriminate)).
  intros H. injection H as <- <-. exists old.
  repeat split; auto.
  - now rewrite F1.
  - now rewrite F3.
  - now apply String.eqb_eq.
  - unfold ServiceBooking.is_active. now rewrite F2.
Qed.

Lemma cancel_booking_result_witness :
  ServiceBooking.status (fst more.cancelled) = "cancelled"
  /\ ServiceBooking.cancelled_at (fst more.cancelled) = Some 2000%Z.
Proof.
  destruct (cancel_booking_result 2000 sample.alice 1
              (sample.db_with (sample.booking "pending"))
              (fst more.cancelled) (snd more.cancelled) eq_refl)
    as (old & Hin & _ & _ & _ & _ & Hst & _ & Hat & _).
  destruct Hin as [<-|[]]. exact (conj Hst Hat).
Defined.

(** X4. The detail endpoint changes a booking only for its provider: an
    accepted update was made on a stored booking with the requested id whose
    provider is the acting user, and that user has the provider role or is
    also the booking's customer. *)
Theorem detail_update_only_by_provider
        (now : Z) (user : User.t) (pk : nat) (data : serializers.BookingData.t)
        (db : DB.t) (b : ServiceBooking.t) (db' : DB.t) :
  views.ServiceBookingDetailView_update now user pk data db = rest.Ok (b, db') ->
  exists old,
    In old (DB.bookings db)
    /\ ServiceBooking.id old = pk
    /\ ServiceBooking.id b = pk
    /\ User.eqb (ServiceBooking.provider old) user = true
    /\ (User.is_provider user = true
        \/ User.eqb (ServiceBooking.customer old) user = true).
Proof.
  intros H. apply detail_update_effect in H.
  destruct H as (old & Hobj & Hid & _). exists old.
  unfold views.ServiceBookingDetailView_get_object in Hobj.
  destruct (DB.get _ pk _) as [obj|] eqn:Hget; [|discriminate].
  destruct (permissions.IsOwnerOrReadOnly_write user obj) eqn:Hperm; [|discriminate].
  injection Hobj as <-.
  unfold DB.get in Hget. apply find_some in Hget. destruct Hget as [Hin Hpk].
  apply Nat.eqb_eq in Hpk.
  unfold views.ServiceBookingDetailView_get_queryset in Hin.
  destruct (User.is_customer user) eqn:Hc;
    [|destruct (User.is_provider user) eqn:Hp; [|contradiction]];
    apply filter_In in Hin; destruct Hin as [Hin Hf];
    repeat split; auto; congruence.
Qed.

Lemma detail_update_only_by_provider_witness :
  exists old,
    In old (DB.bookings (sample.db_with (sample.booking "pending")))
    /\ User.eqb (ServiceBooking.provider old) sample.bob = true.
Proof.
  destruct (detail_update_only_by_provider 2000 sample.bob 1
              (sample.status_update "confirmed")
              (sample.db_with (sample.booking "pending"))
              (fst sample.confirmed_by_bob) (snd sample.confirmed_by_bob) eq_refl)
    as (old & H1 & _ & _ & H2 & _).
  exists old. exact (conj H1 H2).
Defined.

(* ================================================================= *)
(** ** Further properties: reviews *)

Lemma ReviewSerializer_validate_data (db : DB.t) (data vd : serializers.ReviewData.t) :
  serializers.ReviewSerializer_validate db data = rest.Ok vd -> vd = data.
Proof.
  unfold serializers.ReviewSerializer_validate.
  destruct (serializers.ReviewData.booking data) as [b|]; [|congruence].
  repeat match goal with
         | |- context [if ?c then _ else _] => destruct c
         end; congruence.
Qed.

(** X5. A created review takes its provider and its service from the
    booking, never from the request; it is stored, and exactly one
    review_received notification, addressed to that provider and pointing to
    the review, is added. *)
Theorem created_review_copies_booking_parties
        (user : User.t) (data : serializers.ReviewData.t) (db : DB.t)
        (r : Review.t) (db' : DB.t) :
  views.ReviewListCreateView_post user data db = rest.Ok (r, db') ->
  exists b n,
    serializers.ReviewData.booking data = Some b
    /\ Review.booking r = b
    /\ Review.provider r = ServiceBooking.provider b
    /\ Review.service r = ServiceBooking.service b
    /\ In r (DB.reviews db')
    /\ spec.emitted db db' [n]
    /\ Notification.user n = ServiceBooking.provider b
    /\ Notification.notification_type n = "review_received"
    /\ Notification.review n = Some (Review.id r)
    /\ Notification.booking n = None.
Proof.
  intros H. apply review_post_stages in H. destruct H as (_ & H).
  apply rest_bind_ok in H. destruct H as (vd & Hv & H).
  apply ReviewSerializer_validate_data in Hv. subst vd.
  unfold views.ReviewListCreateView_perform_create in H.
  destruct (negb (User.is_customer user)); [discriminate|].
  unfold serializers.ReviewSerializer_create in H. cbn in H.
  destruct (serializers.ReviewData.booking data) as [b|]; [|discriminate].
  destruct (serializers.ReviewData.rating data) as [rating|]; [|discriminate].
  match type of H with
  | context [models.Review_save ?x db] =>
      pose proof (Review_save_effect x db) as (E1 & E2 & E3);
      destruct (models.Review_save x db) as [r1 db1]
  end.
  cbn [fst snd] in *. subst r1. injection H as <- <-.
  match goal with
  | |- context [DB.create_notification ?u ?ty ?ti ?bk ?rv db1] =>
      destruct (create_notification_emits u ty ti bk rv db db1 E3)
        as (n & N1 & N2 & N3 & N4 & N5)
  end.
  exists b, n. cbn in *. repeat split; auto.
  rewrite E2. apply in_upsert.
Qed.

Lemma created_review_copies_booking_parties_witness :
  Review.provider (fst more.reviewed) = sample.bob
  /\ Review.service (fst more.reviewed) = sample.plumbing.
Proof.
  destruct (created_review_copies_booking_parties sample.alice
              (sample.review_request (sample.booking "completed") (Some sample.alice))
              (sample.db_with (sample.booking "completed"))
              (fst more.reviewed) (snd more.reviewed) eq_refl)
    as (b & n & Hb & _ & Hp & Hs & _).
  injection Hb as <-. exact (conj Hp Hs).
Defined.

(** X6. The [can_be_reviewed] property agrees with the review gate on
    objects just loaded: a review is only ever created for a booking whose
    loaded object can be reviewed, and once it is created every object
    loaded for that booking cannot.  An object answers from its own cache
    after the first time: the object that answered True before the review
    was created keeps answering True afterwards, whatever is stored. *)
Theorem can_be_reviewed_until_reviewed
        (user : User.t) (data : serializers.ReviewData.t) (db : DB.t)
        (r : Review.t) (db' : DB.t) :
  views.ReviewListCreateView_post user data db = rest.Ok (r, db') ->
  exists b,
    serializers.ReviewData.booking data = Some b
    /\ fst (models.ServiceBooking_can_be_reviewed (BookingInstance.loaded b) db) = true
    /\ (forall b2, ServiceBooking.id b2 = ServiceBooking.id b ->
                   fst (models.ServiceBooking_can_be_reviewed
                          (BookingInstance.loaded b2) db') = false)
    /\ (forall later : DB.t,
          fst (models.ServiceBooking_can_be_reviewed
                 (snd (models.ServiceBooking_can_be_reviewed
                         (BookingInstance.loaded b) db)) later) = true).
Proof.
  intros H. apply review_post_accepted in H.
  destruct H as (b & Hb & Hst & _ & Hnone & _ & _ & Hhas).
  exists b. split; [exact Hb|].
  unfold models.ServiceBooking_can_be_reviewed, models.hasattr_review,
    BookingInstance.loaded.
  cbn [BookingInstance.row BookingInstance.review_cache].
  split; [|split].
  - rewrite Hst, Hnone. reflexivity.
  - intros b2 Hid. destruct (ServiceBooking.status b2 =? "completed"); [|reflexivity].
    cbn [fst]. unfold DB.has_review in *. rewrite Hid, Hhas. reflexivity.
  - intros later. rewrite Hst, Hnone. cbn. rewrite Hst. reflexivity.
Qed.

Lemma can_be_reviewed_until_reviewed_witness :
  fst (models.ServiceBooking_can_be_reviewed
         (BookingInstance.loaded (sample.booking "completed"))
         (sample.db_with (sample.booking "completed"))) = true
  /\ fst (models.ServiceBooking_can_be_reviewed
            (BookingInstance.loaded (sample.booking "completed"))
            (snd more.reviewed)) = false
  /\ fst (models.ServiceBooking_can_be_reviewed
            (snd (models.ServiceBooking_can_be_reviewed
                    (BookingInstance.loaded (sample.booking "completed"))
                    (sample.db_with (sample.booking "completed"))))
            (snd more.reviewed)) = true.
Proof.
  destruct (can_be_reviewed_until_reviewed sample.alice
              (sample.review_request (sample.booking "completed") (Some sample.alice))
              (sample.db_with (sample.booking "completed"))
              (fst more.reviewed) (snd more.reviewed) eq_refl)
    as (b & Hb & H1 & H2 & H3).
  injection Hb as <-. exact (conj H1 (conj (H2 _ eq_refl) (H3 _))).
Defined.

(* ================================================================= *)
(** ** Further properties: payments *)

(** What [Payment.save] never changes, and where it stores the payment. *)
Lemma Payment_save_frame (now : Z) (p : Payment.t) (db : DB.t) :
  let r := models.Payment_save now p db in
  Payment.id (fst r) = Payment.id p
  /\ Payment.status (fst r) = Payment.status p
  /\ Payment.amount (fst r) = Payment.amount p
  /\ Payment.customer (fst r) = Payment.customer p
  /\ Payment.payment_method (fst r) = Payment.payment_method p
  /\ Payment.transaction_id (fst r) = Payment.transaction_id p
  /\ Payment.failure_reason (fst r) = Payment.failure_reason p
  /\ ServiceBooking.id (Payment.booking (fst r)) = ServiceBooking.id (Payment.booking p)
  /\ ServiceBooking.provider (Payment.booking (fst r))
     = ServiceBooking.provider (Payment.booking p)
  /\ DB.notifications (snd r) = DB.notifications db
  /\ In (fst r) (DB.payments (snd r)).
Proof.
  cbn zeta. unfold models.Payment_save, models.Payment_persist.
  destruct ((Payment.status p =? "processing") && Py.not_ (Payment.processed_at p)).
  { cbn. repeat split; auto. apply in_upsert. }
  destruct ((Payment.status p =? "completed") && Py.not_ (Payment.completed_at p)).
  { change (Payment.booking (Payment.set_completed_at (Some now) p))
      with (Payment.booking p).
    match goal with
    | |- context [models.ServiceBooking_save now ?b db] =>
        pose proof (ServiceBooking_save_frame now b db) as (F1 & _ & _ & _ & F2 & _);
        pose proof (ServiceBooking_save_persists now b db) as (_ & Hn & _ & _ & Hp);
        destruct (models.ServiceBooking_save now b db) as [b' db']
    end.
    cbn in *. repeat split; auto. rewrite Hp. apply in_upsert. }
  destruct ((Payment.status p =? "failed") && Py.not_ (Payment.failed_at p)).
  { change (Payment.booking (Payment.set_failed_at (Some now) p))
      with (Payment.booking p).
    match goal with
    | |- context [models.ServiceBooking_save now ?b db] =>
        pose proof (ServiceBooking_save_frame now b db) as (F1 & _ & _ & _ & F2 & _);
        pose proof (ServiceBooking_save_persists now b db) as (_ & Hn & _ & _ & Hp);
        destruct (models.ServiceBooking_save now b db) as [b' db']
    end.
    cbn in *. repeat split; auto. rewrite Hp. apply in_upsert. }
  cbn. repeat split; auto. apply in_upsert.
Qed.

(** X7. [Payment.save] writes to the booking only when it stamps a terminal
    status for the first time: on every other save (status neither
    'completed' nor 'failed', or the matching timestamp already set) the
    booking table and the booking the payment holds stay as they are, so a
    later change of the booking's payment_status is not overwritten. *)
Theorem Payment_save_leaves_settled_booking
        (now : Z) (p : Payment.t) (db : DB.t) :
  (Payment.status p = "completed" -> Payment.completed_at p <> None) ->
  (Payment.status p = "failed" -> Payment.failed_at p <> None) ->
  let r := models.Payment_save now p db in
  DB.bookings (snd r) = DB.bookings db
  /\ Payment.booking (fst r) = Payment.booking p
  /\ Payment.completed_at (fst r) = Payment.completed_at p
  /\ Payment.failed_at (fst r) = Payment.failed_at p.
Proof.
  intros Hc Hf. cbn zeta. unfold models.Payment_save, models.Payment_persist.
  destruct p as [i pid bk cu am pm st tx gr fr pa ca fa]. cbn in Hc, Hf.
  cbn [Payment.status Payment.processed_at Payment.completed_at Payment.failed_at].
  destruct (String.eqb_spec st "processing") as [E1|N1];
    destruct (String.eqb_spec st "completed") as [E2|N2];
    destruct (String.eqb_spec st "failed") as [E3|N3];
    try congruence;
    try specialize (Hc E2); try specialize (Hf E3);
    destruct pa, ca, fa;
    try congruence; cbn; repeat split; reflexivity.
Qed.

Lemma Payment_save_leaves_settled_booking_witness :
  DB.bookings
    (snd (models.Payment_save 9
            (Payment.set_completed_at (Some 7%Z) (sample.payment "online" "completed"))
            (sample.db_with (sample.booking "confirmed"))))
  = [sample.booking "confirmed"].
Proof.
  exact (proj1 (Payment_save_leaves_settled_booking 9
                  (Payment.set_completed_at (Some 7%Z)
                     (sample.payment "online" "completed"))
                  (sample.db_with (sample.booking "confirmed"))
                  (fun _ (E : Some 7%Z = None) => ltac:(discriminate E))
                  (fun (E : "completed" = "failed") => ltac:(discriminate E)))).
Defined.

(** What the simulated gateway keeps of the payment, and where it leaves
    it. *)
Lemma process_fake_payment_frame (env : Env.t) (k : nat) (p : Payment.t) (db : DB.t) :
  let r := models.Payment_process_fake_payment env k p db in
  Payment.id (models.payment r) = Payment.id p
  /\ Payment.amount (models.payment r) = Payment.amount p
  /\ Payment.customer (models.payment r) = Payment.customer p
  /\ Payment.payment_method (models.payment r) = Payment.payment_method p
  /\ ServiceBooking.id (Payment.booking (models.payment r))
     = ServiceBooking.id (Payment.booking p)
  /\ ServiceBooking.provider (Payment.booking (models.payment r))
     = ServiceBooking.provider (Payment.booking p)
  /\ DB.notifications (models.db_after r) = DB.notifications db
  /\ In (models.payment r) (DB.payments (models.db_after r))
  /\ Payment.status (models.payment r)
     = (if Py.ltb (Env.random env) (9 # 10) then "completed" else "failed")
  /\ models.success r = Py.ltb (Env.random env) (9 # 10)
  /\ models.trace r = [Py.Uuid4; Py.Sleep 1; Py.RandomDraw].
Proof.
  cbn zeta. unfold models.Payment_process_fake_payment.
  set (p1 := Payment.set_transaction_id _ (Payment.set_status "processing" p)).
  pose proof (Payment_save_frame (Env.now env) p1 db)
    as (A1 & A2 & A3 & A4 & A5 & _ & _ & A8 & A9 & A10 & _).
  destruct (models.Payment_save (Env.now env) p1 db) as [p2 db2].
  cbn [fst snd] in *.
  unfold p1 in A1, A2, A3, A4, A5, A8, A9. cbn in A1, A2, A3, A4, A5, A8, A9.
  destruct (Py.ltb (Env.random env) (9 # 10));
    match goal with
    | |- context [models.Payment_save ?t ?q db2] =>
        pose proof (Payment_save_frame t q db2)
          as (B1 & B2 & B3 & B4 & B5 & _ & _ & B8 & B9 & B10 & B11);
        destruct (models.Payment_save t q db2) as [p3 db3]
    end;
    cbn [fst snd models.payment models.db_after models.success models.trace] in *;
    cbn in B1, B2, B3, B4, B5, B8, B9;
    rewrite B2; repeat split; try congruence; auto.
Qed.

(** X8. The simulated gateway on a payment that has no timestamp yet: the
    payment gets a TXN_ transaction id of twelve upper-case digits and
    processed_at; when the sample is below 0.9 it ends 'completed' with
    completed_at one second later and no failure; otherwise it ends 'failed'
    with failed_at one second later and the reason 'Insufficient funds or
    card declined'.  Exactly one of completed_at and failed_at is set, and
    the returned flag says which. *)
Theorem process_fake_payment_outcome
        (env : Env.t) (k : nat) (p : Payment.t) (db : DB.t) :
  Payment.processed_at p = None ->
  Payment.completed_at p = None ->
  Payment.failed_at p = None ->
  let r := models.Payment_process_fake_payment env k p db in
  let q := models.payment r in
  Payment.transaction_id q
  = Some ("TXN_" ++ Py.upper (Py.take 12 (Env.uuid4_hex env k)))%string
  /\ Payment.processed_at q = Some (Env.now env)
  /\ (Py.ltb (Env.random env) (9 # 10) = true ->
      models.success r = true
      /\ Payment.status q = "completed"
      /\ Payment.completed_at q = Some (Env.now env + 1)%Z
      /\ Payment.failed_at q = None
      /\ Payment.failure_reason q = Payment.failure_reason p)
  /\ (Py.ltb (Env.random env) (9 # 10) = false ->
      models.success r = false
      /\ Payment.status q = "failed"
      /\ Payment.failed_at q = Some (Env.now env + 1)%Z
      /\ Payment.completed_at q = None
      /\ Payment.failure_reason q = Some "Insufficient funds or card declined").
Proof.
  intros Hp Hc Hf. cbn zeta.
  destruct p as [i pid bk cu am pm st tx gr fr pa ca fa]. cbn in Hp, Hc, Hf. subst.
  unfold models.Payment_process_fake_payment, models.Payment_save.
  cbn -[models.ServiceBooking_save Py.upper Py.take Py.ltb String.append].
  destruct (Py.ltb (Env.random env) (9 # 10));
    cbn -[models.ServiceBooking_save Py.upper Py.take String.append];
    match goal with
    | |- context [models.ServiceBooking_save ?t ?b ?d] =>
        destruct (models.ServiceBooking_save t b d) as [b' db']
    end;
    cbn -[Py.upper Py.take String.append];
    repeat split; intros; try reflexivity; try discriminate.
Qed.

Lemma process_fake_payment_outcome_witness :
  Payment.status
    (models.payment
       (models.Payment_process_fake_payment (sample.env (95 # 100)) 1
          (sample.payment "card" "pending") DB.empty)) = "failed".
Proof.
  destruct (process_fake_payment_outcome (sample.env (95 # 100)) 1
              (sample.payment "card" "pending") DB.empty eq_refl eq_refl eq_refl)
    as (_ & _ & _ & H).
  destruct (H eq_refl) as (_ & H2 & _). exact H2.
Defined.

Lemma PaymentSerializer_validate_data (data vd : serializers.PaymentData.t) :
  serializers.PaymentSerializer_validate data = rest.Ok vd -> vd = data.
Proof.
  unfold serializers.PaymentSerializer_validate.
  destruct (serializers.PaymentData.booking data) as [b|]; [|congruence].
  repeat match goal with
         | |- context [if ?c then _ else _] => destruct c
         end; congruence.
Qed.

Lemma PaymentSerializer_fields_data (data vd : serializers.PaymentData.t) :
  serializers.PaymentSerializer_fields data = rest.Ok vd -> vd = data.
Proof.
  unfold serializers.PaymentSerializer_fields.
  destruct (serializers.PaymentData.payment_method data) as [pm|]; [|discriminate].
  destruct (negb _); congruence.
Qed.

(** An accepted request to the payment list endpoint, taken apart. *)
Lemma payment_list_post_ok
      (env : Env.t) (user : User.t) (data : serializers.PaymentData.t) (db : DB.t)
      (r : models.processed) :
  views.PaymentListCreateView_post env user data db = rest.Ok r ->
  exists b a pm,
    serializers.PaymentData.booking data = Some b
    /\ serializers.PaymentData.amount data = Some a
    /\ serializers.PaymentData.payment_method data = Some pm
    /\ User.role user = "customer"
    /\ User.opt_eqb (serializers.PaymentData.customer data)
                    (Some (ServiceBooking.customer b)) = true
    /\ In (ServiceBooking.status b) ["confirmed"; "completed"]
    /\ a == ServiceBooking.quoted_price b
    /\ In pm ["cash"; "online"; "card"; "wallet"]
    /\ let created := serializers.Payment_objects_create env 0 b user a pm db in
       let pr := models.Payment_process_fake_payment env 1 (fst created) (snd created) in
       models.success r = models.success pr
       /\ models.payment r = models.payment pr
       /\ models.trace r = Py.Uuid4 :: models.trace pr
       /\ models.db_after r
          = if models.success pr
            then DB.create_notification
                   (ServiceBooking.provider (Payment.booking (models.payment pr)))
                   "payment_received" "Payment Received"
                   (Some (ServiceBooking.id (Payment.booking (models.payment pr)))) None
                   (models.db_after pr)
            else models.db_after pr.
Proof.
  unfold views.PaymentListCreateView_post.
  destruct (permissions.IsCustomer user) eqn:Hperm; [|discriminate]. cbn [negb].
  intros H. apply rest_bind_ok in H. destruct H as (d1 & Hf & H).
  pose proof (PaymentSerializer_fields_data data d1 Hf). subst d1.
  apply rest_bind_ok in H. destruct H as (vd & Hv & H).
  pose proof (PaymentSerializer_validate_data data vd Hv). subst vd.
  unfold views.PaymentListCreateView_perform_create in H.
  apply rest_bind_ok in H. destruct H as ([p0 db0] & Hc & H).
  unfold serializers.PaymentSerializer_create in Hc.
  cbn [serializers.PaymentData.booking serializers.PaymentData.customer
       serializers.PaymentData.amount serializers.PaymentData.payment_method
       serializers.PaymentData.set_customer] in Hc.
  destruct (serializers.PaymentData.booking data) as [b|] eqn:Hb; [|discriminate].
  destruct (serializers.PaymentData.amount data) as [a|] eqn:Ha; [|discriminate].
  destruct (serializers.PaymentData.payment_method data) as [pm|] eqn:Hpm;
    [|discriminate].
  remember (serializers.Payment_objects_create env 0 b user a pm db) as created
    eqn:Hcr in Hc.
  injection Hc as Hc. subst created. injection H as <-.
  unfold serializers.PaymentSerializer_validate in Hv. rewrite Hb, Ha in Hv.
  destruct (User.opt_eqb _ _) eqn:Hown; [|discriminate]. cbn [negb] in Hv.
  destruct (Py.str_in (ServiceBooking.status b) ["confirmed"; "completed"]) eqn:Hst;
    [|discriminate]. cbn [negb] in Hv.
  destruct (Qeq_bool a (ServiceBooking.quoted_price b)) eqn:Hamt; [|discriminate].
  unfold serializers.PaymentSerializer_fields in Hf. rewrite Hpm in Hf.
  destruct (Py.str_in pm ["cash"; "online"; "card"; "wallet"]) eqn:Hm; [|discriminate].
  exists b, a, pm. rewrite Hc. cbn [fst snd models.success models.payment
                                   models.trace models.db_after].
  repeat split; auto.
  - now apply String.eqb_eq.
  - now apply str_in_In.
  - now apply Qeq_bool_iff.
  - now apply str_in_In.
Qed.

(** X9. A payment accepted by the payment list endpoint is for a booking
    that is 'confirmed' or 'completed', whose customer is the customer the
    request names, and whose quoted price is the submitted amount; the
    payment is stored with that amount, with the acting user (a customer) as
    its customer and with one of the four payment methods. *)
Theorem accepted_payment_matches_booking
        (env : Env.t) (user : User.t) (data : serializers.PaymentData.t) (db : DB.t)
        (r : models.processed) :
  views.PaymentListCreateView_post env user data db = rest.Ok r ->
  exists b,
    serializers.PaymentData.booking data = Some b
    /\ User.opt_eqb (serializers.PaymentData.customer data)
                    (Some (ServiceBooking.customer b)) = true
    /\ In (ServiceBooking.status b) ["confirmed"; "completed"]
    /\ Payment.amount (models.payment r) == ServiceBooking.quoted_price b
    /\ Payment.customer (models.payment r) = user
    /\ User.role user = "customer"
    /\ In (Payment.payment_method (models.payment r)) ["cash"; "online"; "card"; "wallet"]
    /\ ServiceBooking.id (Payment.booking (models.payment r)) = ServiceBooking.id b
    /\ In (Payment.status (models.payment r)) ["completed"; "failed"]
    /\ In (models.payment r) (DB.payments (models.db_after r)).
Proof.
  intros H. apply payment_list_post_ok in H.
  destruct H as (b & a & pm & Hb & _ & _ & Hrole & Hown & Hst & Hamt & Hm & H).
  cbn zeta in H. destruct H as (_ & Hp & _ & Hdb).
  unfold serializers.Payment_objects_create in *.
  match type of Hp with
  | context [models.Payment_save ?t ?q db] =>
      pose proof (Payment_save_frame t q db) as (_ & _ & A3 & A4 & A5 & _ & _ & A8 & _);
      destruct (models.Payment_save t q db) as [p0 db0]
  end.
  cbn [fst snd] in *. cbn in A3, A4, A5, A8.
  pose proof (process_fake_payment_frame env 1 p0 db0)
    as (_ & B2 & B3 & B4 & B5 & _ & _ & B8 & B9 & _).
  cbn zeta in *. rewrite <- Hp in B2, B3, B4, B5, B9.
  exists b. repeat split; auto.
  - rewrite B2, A3. exact Hamt.
  - congruence.
  - rewrite B4, A5. exact Hm.
  - congruence.
  - rewrite B9. destruct (Py.ltb (Env.random env) (9 # 10)); simpl; auto.
  - rewrite Hdb, Hp.
    destruct (models.success _); [cbn [DB.create_notification DB.with_notifications
                                       DB.payments]|]; exact B8.
Qed.

Lemma accepted_payment_matches_booking_witness :
  Payment.amount (models.payment more.paid_by_card) == 150
  /\ Payment.customer (models.payment more.paid_by_card) = sample.alice.
Proof.
  destruct (accepted_payment_matches_booking (sample.env (1 # 2)) sample.alice
              more.card_request (sample.db_with (sample.booking "confirmed"))
              more.paid_by_card eq_refl)
    as (b & Hb & _ & _ & Ha & Hc & _).
  injection Hb as <-. exact (conj Ha Hc).
Defined.

(** X10. The payment list endpoint tells the provider exactly when the
    payment succeeded: the answer reports success exactly when the payment
    ended 'completed', and then one payment_received notification addressed
    to the booking's provider is added; when the payment failed, none is. *)
Theorem payment_received_only_on_success
        (env : Env.t) (user : User.t) (data : serializers.PaymentData.t) (db : DB.t)
        (r : models.processed) :
  views.PaymentListCreateView_post env user data db = rest.Ok r ->
  (models.success r = true <-> Payment.status (models.payment r) = "completed")
  /\ (models.success r = true ->
      exists n,
        spec.emitted db (models.db_after r) [n]
        /\ Notification.notification_type n = "payment_received"
        /\ Notification.user n
           = ServiceBooking.provider (Payment.booking (models.payment r))
        /\ Notification.booking n
           = Some (ServiceBooking.id (Payment.booking (models.payment r))))
  /\ (models.success r = false -> spec.emitted db (models.db_after r) []).
Proof.
  intros H. apply payment_list_post_ok in H.
  destruct H as (b & a & pm & _ & _ & _ & _ & _ & _ & _ & _ & H).
  cbn zeta in H. destruct H as (Hs & Hp & _ & Hdb).
  unfold serializers.Payment_objects_create in *.
  match type of Hp with
  | context [models.Payment_save ?t ?q db] =>
      pose proof (Payment_save_frame t q db) as (_ & _ & _ & _ & _ & _ & _ & _ & _ & A10 & _);
      destruct (models.Payment_save t q db) as [p0 db0]
  end.
  cbn [fst snd] in *.
  pose proof (process_fake_payment_frame env 1 p0 db0)
    as (_ & _ & _ & _ & _ & _ & B7 & _ & B9 & B10 & _).
  cbn zeta in *. rewrite <- Hp in *. rewrite <- Hs in *.
  assert (Hn : DB.notifications (models.db_after
                                   (models.Payment_process_fake_payment env 1 p0 db0))
               = DB.notifications db) by congruence.
  split; [|split].
  - rewrite B9, B10. destruct (Py.ltb (Env.random env) (9 # 10)); split; congruence.
  - intros Hok. rewrite Hok in Hdb. rewrite Hdb.
    match goal with
    | |- context [DB.create_notification ?u ?ty ?ti ?bk ?rv ?d] =>
        destruct (create_notification_emits u ty ti bk rv db d Hn)
          as (n & N1 & N2 & N3 & N4 & _)
    end.
    exists n. auto.
  - intros Hko. rewrite Hko in Hdb. rewrite Hdb. unfold spec.emitted.
    rewrite Hn. now rewrite app_nil_r.
Qed.

Lemma payment_received_only_on_success_witness :
  exists n,
    spec.emitted (sample.db_with (sample.booking "confirmed"))
                 (models.db_after more.paid_by_card) [n]
    /\ Notification.user n = sample.bob.
Proof.
  destruct (payment_received_only_on_success (sample.env (1 # 2)) sample.alice
              more.card_request (sample.db_with (sample.booking "confirmed"))
              more.paid_by_card eq_refl) as (_ & H & _).
  destruct (H eq_refl) as (n & H1 & _ & H3 & _).
  exists n. exact (conj H1 H3).
Defined.

(** An answered payment of a booking through [ProcessPaymentView.post]: the
    booking it was made for and where the payment is. *)
Lemma process_payment_post_ok
      (env : Env.t) (user : User.t) (booking_id : nat) (method : option string)
      (db : DB.t) (r : models.processed) :
  views.ProcessPaymentView_post env user booking_id method db = rest.Ok r ->
  exists b,
    find (more.payable user booking_id) (DB.bookings db) = Some b
    /\ more.already_paid b db = false
    /\ ServiceBooking.id (Payment.booking (models.payment r)) = booking_id
    /\ Payment.amount (models.payment r) = ServiceBooking.quoted_price b
    /\ Payment.customer (models.payment r) = user
    /\ Payment.payment_method (models.payment r)
       = match method with Some pm => pm | None => "online" end
    /\ In (models.payment r) (DB.payments (models.db_after r)).
Proof.
  unfold views.ProcessPaymentView_post.
  destruct (negb (permissions.IsCustomer user)); [discriminate|].
  change (find _ (DB.bookings db))
    with (find (more.payable user booking_id) (DB.bookings db)).
  destruct (find (more.payable user booking_id) (DB.bookings db)) as [b|] eqn:Hfind;
    [|discriminate].
  change (existsb _ (DB.payments db)) with (more.already_paid b db).
  destruct (more.already_paid b db) eqn:Hpaid; [discriminate|].
  assert (Hid : ServiceBooking.id b = booking_id).
  { apply find_some in Hfind. destruct Hfind as [_ Hf]. unfold more.payable in Hf.
    apply andb_prop in Hf. destruct Hf as [Hf _]. apply andb_prop in Hf.
    destruct Hf as [Hf _]. now apply Nat.eqb_eq. }
  set (pm := match method with Some pm => pm | None => "online" end).
  unfold serializers.Payment_objects_create.
  match goal with
  | |- context [models.Payment_save (Env.now env) ?q db] =>
      pose proof (Payment_save_frame (Env.now env) q db)
        as (_ & _ & A3 & A4 & A5 & _ & _ & A8 & _);
      destruct (models.Payment_save (Env.now env) q db) as [p0 db0]
  end.
  cbn [fst snd] in *. cbn in A3, A4, A5, A8.
  destruct (pm =? "cash").
  - match goal with
    | |- context [models.Payment_save (Env.now env) ?q db0] =>
        pose proof (Payment_save_frame (Env.now env) q db0)
          as (_ & _ & B3 & B4 & B5 & _ & _ & B8 & _ & _ & B11);
        destruct (models.Payment_save (Env.now env) q db0) as [p1 db1]
    end.
    cbn [fst snd] in *. cbn in B3, B4, B5, B8.
    intros H. injection H as <-. exists b. cbn. repeat split; auto; congruence.
  - pose proof (process_fake_payment_frame env 1 p0 db0)
      as (_ & B2 & B3 & B4 & B5 & _ & _ & B8 & _).
    cbn zeta in *. intros H. injection H as <-. exists b. cbn.
    repeat split; auto; congruence.
Qed.

(** X11. Once a payment of a booking made through [ProcessPaymentView.post]
    has ended 'completed', no further request to that endpoint for the same
    booking id creates a payment, whatever the method: a sender without the
    customer role is refused permission, and a customer is answered that
    the booking is not found or that the payment is already completed. *)
Theorem completed_booking_payment_is_final
        (env env2 : Env.t) (user user2 : User.t) (booking_id : nat)
        (method method2 : option string) (db : DB.t) (r : models.processed) :
  views.ProcessPaymentView_post env user booking_id method db = rest.Ok r ->
  Payment.status (models.payment r) = "completed" ->
  (permissions.IsCustomer user2 = false ->
   views.ProcessPaymentView_post env2 user2 booking_id method2 (models.db_after r)
   = rest.PermissionDenied "You do not have permission to perform this action.")
  /\ (permissions.IsCustomer user2 = true ->
      views.ProcessPaymentView_post env2 user2 booking_id method2 (models.db_after r)
      = rest.NotFound "Booking not found or not eligible for payment"
      \/ views.ProcessPaymentView_post env2 user2 booking_id method2 (models.db_after r)
         = rest.ValidationError "Payment already completed for this booking")
  /\ (forall x,
        views.ProcessPaymentView_post env2 user2 booking_id method2 (models.db_after r)
        <> rest.Ok x).
Proof.
  intros H Hdone.
  apply process_payment_post_ok in H. destruct H as (b & _ & _ & Hid & _ & _ & _ & Hin).
  assert (Hpaid : forall b2,
             find (more.payable user2 booking_id) (DB.bookings (models.db_after r))
             = Some b2 ->
             more.already_paid b2 (models.db_after r) = true).
  { intros b2 Hfind. apply find_some in Hfind. destruct Hfind as [_ Hf].
    unfold more.payable in Hf.
    apply andb_prop in Hf. destruct Hf as [Hf _]. apply andb_prop in Hf.
    destruct Hf as [Hf _]. apply Nat.eqb_eq in Hf.
    unfold more.already_paid. apply existsb_exists. exists (models.payment r).
    split; [exact Hin|]. rewrite Hid, Hf, Nat.eqb_refl, Hdone. reflexivity. }
  unfold views.ProcessPaymentView_post.
  change (find _ (DB.bookings (models.db_after r)))
    with (find (more.payable user2 booking_id) (DB.bookings (models.db_after r))).
  destruct (permissions.IsCustomer user2); cbn [negb].
  - destruct (find (more.payable user2 booking_id) (DB.bookings (models.db_after r)))
      as [b2|] eqn:Hfind.
    + change (existsb _ (DB.payments (models.db_after r)))
        with (more.already_paid b2 (models.db_after r)).
      rewrite (Hpaid b2 eq_refl).
      split; [discriminate|]. split; [auto|]. discriminate.
    + split; [discriminate|]. split; [auto|]. discriminate.
  - split; [reflexivity|]. split; discriminate.
Qed.

Lemma completed_booking_payment_is_final_witness :
  Payment.status (models.payment more.paid_in_cash) = "completed"
  /\ views.ProcessPaymentView_post (sample.env (1 # 2)) sample.alice 1 (Some "card")
       (models.db_after more.paid_in_cash)
     = rest.ValidationError "Payment already completed for this booking"
  /\ views.ProcessPaymentView_post (sample.env (1 # 2)) sample.bob 1 (Some "card")
       (models.db_after more.paid_in_cash)
     = rest.PermissionDenied "You do not have permission to perform this action.".
Proof.
  split; [reflexivity|]. split.
  - destruct (completed_booking_payment_is_final
                (sample.env (95 # 100)) (sample.env (1 # 2))
                sample.alice sample.alice 1 (Some "cash") (Some "card")
                (sample.db_with (sample.booking "confirmed")) more.paid_in_cash
                eq_refl eq_refl) as (_ & H & _).
    destruct (H eq_refl) as [E|E]; [|exact E].
    exfalso. revert E. vm_compute. discriminate.
  - destruct (completed_booking_payment_is_final
                (sample.env (95 # 100)) (sample.env (1 # 2))
                sample.alice sample.bob 1 (Some "cash") (Some "card")
                (sample.db_with (sample.booking "confirmed")) more.paid_in_cash
                eq_refl eq_refl) as (H & _).
    exact (H eq_refl).
Defined.

(** X12. A cash payment through [ProcessPaymentView.post] always goes
    through for a customer whose confirmed or completed booking has no
    completed payment yet: the payment is stored 'completed' at the moment
    of the request with a CASH_ id made of the first twelve digits of its
    payment id in upper case, the booking (object and row) is marked 'paid',
    no sleep and no sample is involved, and the answer is the same for every
    value the random source could give. *)
Theorem cash_payment_settles_at_once
        (env : Env.t) (user : User.t) (booking_id : nat) (db : DB.t)
        (b : ServiceBooking.t) :
  permissions.IsCustomer user = true ->
  find (more.payable user booking_id) (DB.bookings db) = Some b ->
  more.already_paid b db = false ->
  exists r,
    views.ProcessPaymentView_post env user booking_id (Some "cash") db = rest.Ok r
    /\ Payment.status (models.payment r) = "completed"
    /\ Payment.completed_at (models.payment r) = Some (Env.now env)
    /\ Payment.transaction_id (models.payment r)
       = Some ("CASH_" ++ Py.upper (Py.take 12 (Env.uuid4_hex env 0)))%string
    /\ Payment.amount (models.payment r) = ServiceBooking.quoted_price b
    /\ ServiceBooking.payment_status (Payment.booking (models.payment r)) = "paid"
    /\ spec.booking_row (models.db_after r) b = Some (Payment.booking (models.payment r))
    /\ models.trace r = [Py.Uuid4]
    /\ forall q,
        views.ProcessPaymentView_post (Env.mk (Env.now env) (Env.uuid4_hex env) q)
          user booking_id (Some "cash") db = rest.Ok r.
Proof.
  intros Hperm Hfind Hpaid.
  assert (Hpost : exists r,
             views.ProcessPaymentView_post env user booking_id (Some "cash") db
             = rest.Ok r
             /\ Payment.completed_at (models.payment r) = Some (Env.now env)
             /\ Payment.amount (models.payment r) = ServiceBooking.quoted_price b
             /\ ServiceBooking.payment_status (Payment.booking (models.payment r)) = "paid"
             /\ spec.booking_row (models.db_after r) b
                = Some (Payment.booking (models.payment r))).
  { unfold views.ProcessPaymentView_post. rewrite Hperm. cbn [negb].
    change (find _ (DB.bookings db))
      with (find (more.payable user booking_id) (DB.bookings db)).
    rewrite Hfind.
    change (existsb _ (DB.payments db)) with (more.already_paid b db).
    rewrite Hpaid. cbn -[models.ServiceBooking_save Py.upper Py.take String.append].
    match goal with
    | |- context [models.ServiceBooking_save ?t ?x ?d] =>
        pose proof (ServiceBooking_save_frame t x d) as (F1 & _ & F3 & _);
        pose proof (ServiceBooking_save_persists t x d) as (Hrow & _);
        destruct (models.ServiceBooking_save t x d) as [b1 db1]
    end.
    cbn [fst snd] in *. cbn in F1, F3.
    eexists. split; [reflexivity|]. cbn. repeat split; auto.
    unfold spec.booking_row in *. cbn. rewrite <- F1. exact Hrow. }
  destruct Hpost as (r & Hpost & H1 & H2 & H3 & H4).
  exists r. split; [exact Hpost|].
  destruct (cash_through_process_payment env user booking_id db r Hpost)
    as (C1 & C2 & _ & C4).
  repeat split; auto.
Qed.

Lemma cash_payment_settles_at_once_witness :
  exists r,
    views.ProcessPaymentView_post (sample.env (95 # 100)) sample.alice 1 (Some "cash")
      (sample.db_with (sample.booking "confirmed")) = rest.Ok r
    /\ Payment.status (models.payment r) = "completed".
Proof.
  destruct (cash_payment_settles_at_once (sample.env (95 # 100)) sample.alice 1
              (sample.db_with (sample.booking "confirmed")) (sample.booking "confirmed")
              eq_refl eq_refl eq_refl) as (r & H1 & H2 & _).
  exists r. exact (conj H1 H2).
Defined.

(* ================================================================= *)
(** ** Further properties: search *)

Section StableSort.
Context {A : Type}.

Lemma ltb_true (x y : Q) : Py.ltb x y = true -> x < y.
Proof.
  unfold Py.ltb. intros H. apply negb_true_iff in H.
  apply Qnot_le_lt. intros C. apply Qle_bool_iff in C. congruence.
Qed.

Lemma ltb_false (x y : Q) : Py.ltb x y = false -> y <= x.
Proof.
  unfold Py.ltb. intros H. apply negb_false_iff in H. now apply Qle_bool_iff.
Qed.

Lemma insert_by_hd (a : Q * A) (k : Q) (x : A) (l : list (Q * A)) :
  HdRel more.by_key a l -> fst a <= k -> HdRel more.by_key a (views.insert_by k x l).
Proof.
  intros Hl Hk. destruct l as [|[k' y] rest]; cbn.
  - constructor. exact Hk.
  - destruct (Py.ltb k' k); constructor.
    + inversion Hl; subst. assumption.
    + exact Hk.
Qed.

Lemma insert_by_sorted (k : Q) (x : A) (l : list (Q * A)) :
  Sorted more.by_key l -> Sorted more.by_key (views.insert_by k x l).
Proof.
  induction l as [|[k' y] rest IH]; cbn; intros Hs.
  - repeat constructor.
  - inversion Hs as [|? ? Hrest Hhd]; subst.
    destruct (Py.ltb k' k) eqn:E.
    + constructor; [now apply IH|].
      apply insert_by_hd; [exact Hhd|]. cbn. apply Qlt_le_weak. now apply ltb_true.
    + constructor; [exact Hs|]. constructor. cbn. now apply ltb_false.
Qed.

Lemma sort_keyed_sorted (l : list (Q * A)) : Sorted more.by_key (views.sort_keyed l).
Proof.
  induction l as [|[k x] rest IH]; cbn; [constructor|].
  now apply insert_by_sorted.
Qed.

Lemma keyed_keys (key : A -> rest.outcome Q) (l : list A) (ks : list (Q * A)) :
  views.keyed key l = rest.Ok ks ->
  forall p, In p ks -> key (snd p) = rest.Ok (fst p).
Proof.
  revert ks. induction l as [|x rest IH]; cbn; intros ks H p Hin.
  - injection H as <-. contradiction.
  - destruct (key x) as [k| | | |] eqn:Hk; try discriminate. cbn in H.
    destruct (views.keyed key rest) as [ks'| | | |]; try discriminate. cbn in H.
    injection H as <-. destruct Hin as [<-|Hin]; [exact Hk|].
    now apply (IH ks').
Qed.

Lemma sorted_items (key : A -> rest.outcome Q) (ks : list (Q * A)) :
  (forall p, In p ks -> key (snd p) = rest.Ok (fst p)) ->
  Sorted more.by_key ks -> Sorted (more.key_le key) (map snd ks).
Proof.
  intros Hk Hs. induction Hs as [|p rest Hrest IH Hhd]; cbn; [constructor|].
  constructor.
  - apply IH. intros q Hq. apply Hk. now right.
  - destruct Hhd as [|q rest' Hpq]; cbn; constructor.
    intros kx ky Hx Hy.
    rewrite (Hk p (or_introl eq_refl)) in Hx.
    rewrite (Hk q (or_intror (or_introl eq_refl))) in Hy.
    injection Hx as <-. injection Hy as <-. exact Hpq.
Qed.

(** The sorted list is in key order. *)
Lemma list_sort_sorted (key : A -> rest.outcome Q) (l l' : list A) :
  views.list_sort key l = rest.Ok l' -> Sorted (more.key_le key) l'.
Proof.
  unfold views.list_sort.
  destruct (views.keyed key l) as [ks| | | |] eqn:Hk; try discriminate.
  cbn. intros H. injection H as <-.
  apply sorted_items; [|apply sort_keyed_sorted].
  intros p Hp. exact (keyed_keys key l ks Hk p (proj1 (in_sort_keyed ks p) Hp)).
Qed.

Lemma insert_by_filter (k0 k : Q) (x : A) (l : list (Q * A)) :
  filter (fun p => Qeq_bool (fst p) k0) (views.insert_by k x l)
  = filter (fun p => Qeq_bool (fst p) k0) ((k, x) :: l).
Proof.
  induction l as [|[k' y] rest IH]; [reflexivity|].
  cbn [views.insert_by]. destruct (Py.ltb k' k) eqn:E; [|reflexivity].
  cbn [filter fst] in *. rewrite IH.
  destruct (Qeq_bool k' k0) eqn:E1; destruct (Qeq_bool k k0) eqn:E2; try reflexivity.
  exfalso. apply Qeq_bool_iff in E1. apply Qeq_bool_iff in E2. apply ltb_true in E.
  rewrite E1, E2 in E. exact (Qlt_irrefl _ E).
Qed.

Lemma sort_keyed_filter (k0 : Q) (l : list (Q * A)) :
  filter (fun p => Qeq_bool (fst p) k0) (views.sort_keyed l)
  = filter (fun p => Qeq_bool (fst p) k0) l.
Proof.
  induction l as [|[k x] rest IH]; [reflexivity|].
  cbn [views.sort_keyed]. rewrite insert_by_filter. cbn [filter]. now rewrite IH.
Qed.

Lemma filter_items (key : A -> rest.outcome Q) (k0 : Q) (ks : list (Q * A)) :
  (forall p, In p ks -> key (snd p) = rest.Ok (fst p)) ->
  filter (more.has_key key k0) (map snd ks)
  = map snd (filter (fun p => Qeq_bool (fst p) k0) ks).
Proof.
  induction ks as [|p rest IH]; intros Hk; [reflexivity|].
  cbn [map filter]. unfold more.has_key at 1.
  rewrite (Hk p (or_introl eq_refl)).
  rewrite IH by (intros q Hq; apply Hk; now right).
  destruct (Qeq_bool (fst p) k0); reflexivity.
Qed.

(** X13. The sort of the search is stable and loses nothing: for every key
    value, the items carrying that key come out in the order they went in;
    and the result is in ascending key order. *)
Theorem list_sort_is_stable (key : A -> rest.outcome Q) (l l' : list A) :
  views.list_sort key l = rest.Ok l' ->
  (forall k, filter (more.has_key key k) l' = filter (more.has_key key k) l)
  /\ Sorted (more.key_le key) l'
  /\ List.length l' = List.length l.
Proof.
  intros H. split; [|split; [now apply (list_sort_sorted key l)|]].
  - intros k0. unfold views.list_sort in H.
    destruct (views.keyed key l) as [ks| | | |] eqn:Hk; try discriminate.
    cbn in H. injection H as <-.
    pose proof (keyed_keys key l ks Hk) as Hkeys.
    rewrite (filter_items key k0 (views.sort_keyed ks))
      by (intros p Hp; exact (Hkeys p (proj1 (in_sort_keyed ks p) Hp))).
    rewrite sort_keyed_filter. rewrite <- (filter_items key k0 ks Hkeys).
    now rewrite (keyed_items key l ks Hk).
  - unfold views.list_sort in H.
    destruct (views.keyed key l) as [ks| | | |] eqn:Hk; try discriminate.
    cbn in H. injection H as <-.
    rewrite <- (keyed_items key l ks Hk), !length_map.
    clear Hk. induction ks as [|[k x] rest IH]; [reflexivity|].
    cbn [views.sort_keyed]. cbn [List.length]. rewrite <- IH.
    generalize (views.sort_keyed rest). intros s.
    induction s as [|[k' y] s IHs]; [reflexivity|].
    cbn [views.insert_by]. destruct (Py.ltb k' k); cbn [List.length]; congruence.
Qed.
End StableSort.

Lemma list_sort_is_stable_witness :
  Sorted (more.key_le (views.ServiceSearchView_sort_key DB.empty "distance"))
         [views.Hit.mk sample.wiring 1 true; views.Hit.mk sample.plumbing 3 true].
Proof.
  exact (proj1 (proj2 (list_sort_is_stable
                         (views.ServiceSearchView_sort_key DB.empty "distance")
                         more.two_hits
                         [views.Hit.mk sample.wiring 1 true;
                          views.Hit.mk sample.plumbing 3 true]
                         eq_refl))).
Defined.

(** An answered search, taken apart. *)
Lemma search_post_parts
      (m : math.t) (db : DB.t) (user : User.t) (request : serializers.SearchData.raw)
      (resp : views.search_response) :
  views.ServiceSearchView_post m db user request = rest.Ok resp ->
  exists data near far,
    permissions.IsCustomer user = true
    /\ serializers.ServiceSearchSerializer_is_valid request = rest.Ok data
    /\ views.ServiceSearchView_buckets m (serializers.SearchData.latitude data)
         (serializers.SearchData.longitude data) (serializers.SearchData.radius data)
         (views.ServiceSearchView_queryset db data) = rest.Ok (near, far)
    /\ views.list_sort
         (views.ServiceSearchView_sort_key db (serializers.SearchData.sort_by data)) near
       = rest.Ok (views.nearby_services resp)
    /\ views.list_sort
         (views.ServiceSearchView_sort_key db (serializers.SearchData.sort_by data)) far
       = rest.Ok (views.distant_services resp)
    /\ views.echo_latitude resp = serializers.SearchData.latitude data
    /\ views.echo_longitude resp = serializers.SearchData.longitude data
    /\ views.echo_radius resp = serializers.SearchData.radius data
    /\ views.total_nearby resp = List.length (views.nearby_services resp)
    /\ views.total_distant resp = List.length (views.distant_services resp).
Proof.
  unfold views.ServiceSearchView_post.
  destruct (permissions.IsCustomer user); [|discriminate]. cbn [negb].
  destruct (serializers.ServiceSearchSerializer_is_valid request) as [data| | | |] eqn:Hv;
    try discriminate.
  cbn [rest.bind].
  destruct (views.ServiceSearchView_buckets m _ _ _ _) as [[near far]| | | |] eqn:Hb;
    try discriminate.
  cbn [rest.bind].
  destruct (views.list_sort _ near) as [near'| | | |] eqn:Hn; try discriminate.
  cbn [rest.bind].
  destruct (views.list_sort _ far) as [far'| | | |] eqn:Hf; try discriminate.
  cbn [rest.bind]. intros H. injection H as <-. cbn.
  exists data, near, far. repeat split; auto.
Qed.

Lemma Sorted_weaken {A : Type} (R R' : A -> A -> Prop) (l : list A) :
  (forall a b, R a b -> R' a b) -> Sorted R l -> Sorted R' l.
Proof.
  intros H Hs. induction Hs as [|a l Hl IH Hhd]; constructor; [exact IH|].
  destruct Hhd; constructor. now apply H.
Qed.

(** X14. Each bucket of a search response is ordered by the requested key:
    by ascending distance for 'distance', by ascending base price for
    'price', by descending average rating for 'rating' and by descending
    number of reviews for 'reviews'. *)
Theorem search_buckets_are_sorted
        (m : math.t) (db : DB.t) (user : User.t) (request : serializers.SearchData.raw)
        (resp : views.search_response) (bucket : list views.Hit.t) :
  views.ServiceSearchView_post m db user request = rest.Ok resp ->
  bucket = views.nearby_services resp \/ bucket = views.distant_services resp ->
  exists data,
    serializers.ServiceSearchSerializer_is_valid request = rest.Ok data
    /\ (serializers.SearchData.sort_by data = "distance" ->
        Sorted (fun a b => views.Hit.distance_km a <= views.Hit.distance_km b) bucket)
    /\ (serializers.SearchData.sort_by data = "price" ->
        Sorted (fun a b => ProviderService.base_price (views.Hit.service a)
                           <= ProviderService.base_price (views.Hit.service b)) bucket)
    /\ (serializers.SearchData.sort_by data = "rating" ->
        Sorted (fun a b =>
                  forall pa pb,
                    DB.provider_profile db (ProviderService.provider (views.Hit.service a))
                    = Some pa ->
                    DB.provider_profile db (ProviderService.provider (views.Hit.service b))
                    = Some pb ->
                    ServiceProviderProfile.average_rating pb
                    <= ServiceProviderProfile.average_rating pa) bucket)
    /\ (serializers.SearchData.sort_by data = "reviews" ->
        Sorted (fun a b =>
                  forall pa pb,
                    DB.provider_profile db (ProviderService.provider (views.Hit.service a))
                    = Some pa ->
                    DB.provider_profile db (ProviderService.provider (views.Hit.service b))
                    = Some pb ->
                    (ServiceProviderProfile.total_reviews pb
                     <= ServiceProviderProfile.total_reviews pa)%nat) bucket).
Proof.
  intros H Hbucket. apply search_post_parts in H.
  destruct H as (data & near & far & _ & Hv & _ & Hn & Hf & _).
  exists data. split; [exact Hv|].
  assert (Hs : Sorted (more.key_le (views.ServiceSearchView_sort_key db
                                      (serializers.SearchData.sort_by data))) bucket).
  { destruct Hbucket as [->| ->].
    - exact (list_sort_sorted _ _ _ Hn).
    - exact (list_sort_sorted _ _ _ Hf). }
  repeat split; intros Hkey; rewrite Hkey in Hs;
    revert Hs; apply Sorted_weaken; intros a b Hab; unfold more.key_le in Hab;
    unfold views.ServiceSearchView_sort_key in Hab; cbn in Hab.
  - exact (Hab _ _ eq_refl eq_refl).
  - exact (Hab _ _ eq_refl eq_refl).
  - intros pa pb Ha Hb. rewrite Ha, Hb in Hab.
    specialize (Hab _ _ eq_refl eq_refl).
    apply Qopp_le_compat in Hab. now rewrite !Qopp_involutive in Hab.
  - intros pa pb Ha Hb. rewrite Ha, Hb in Hab.
    specialize (Hab _ _ eq_refl eq_refl).
    apply Qopp_le_compat in Hab. rewrite !Qopp_involutive in Hab.
    rewrite <- Zle_Qle in Hab. lia.
Qed.

Lemma search_buckets_are_sorted_witness :
  Sorted (fun a b => views.Hit.distance_km a <= views.Hit.distance_km b)
         (views.nearby_services sample.search_result).
Proof.
  destruct (search_buckets_are_sorted sample.short_walk
              (sample.db_with (sample.booking "pending")) sample.alice
              sample.search_request sample.search_result
              (views.nearby_services sample.search_result) eq_refl (or_introl eq_refl))
    as (data & Hv & Hd & _).
  cbn in Hv. injection Hv as <-. exact (Hd eq_refl).
Defined.

(** The rows of the search queryset pass every filter that was applied. *)
Lemma search_queryset_filters
      (db : DB.t) (data : serializers.SearchData.t) (s : ProviderService.t) :
  In s (views.ServiceSearchView_queryset db data) ->
  ProviderService.is_active s = true
  /\ User.is_active (ProviderService.provider s) = true
  /\ (forall c, serializers.SearchData.category data = Some c -> c <> "" ->
                Py.icontains (ProviderService.category_name s) c = true)
  /\ (forall r, serializers.SearchData.min_rating data = Some r -> ~ r == 0 ->
                exists p,
                  DB.provider_profile db (ProviderService.provider s) = Some p
                  /\ r <= ServiceProviderProfile.average_rating p)
  /\ (forall p, serializers.SearchData.max_price data = Some p -> ~ p == 0 ->
                ProviderService.base_price s <= p).
Proof.
  unfold views.ServiceSearchView_queryset.
  set (base := filter _ (DB.services db)).
  assert (Hbase : In s base ->
                  ProviderService.is_active s = true
                  /\ User.is_active (ProviderService.provider s) = true).
  { unfold base. intros H. apply filter_In in H. destruct H as [_ Hf].
    apply andb_prop in Hf. destruct Hf as [Hf _].
    apply andb_prop in Hf. destruct Hf as [Hf _].
    apply andb_prop in Hf. exact Hf. }
  destruct (serializers.SearchData.category data) as [c|];
    [destruct (String.eqb_spec c "") as [Ec|Nc]; cbn [negb]|];
    (destruct (serializers.SearchData.min_rating data) as [r|];
     [destruct (Py.truthy (Some r)) eqn:Er|]);
    (destruct (serializers.SearchData.max_price data) as [p|];
     [destruct (Py.truthy (Some p)) eqn:Ep|]);
    intros H;
    repeat match type of H with
           | In _ (filter _ _) =>
               apply filter_In in H; let F := fresh "F" in destruct H as [H F]
           end;
    destruct (Hbase H) as [A1 A2];
    (split; [exact A1|]); (split; [exact A2|]);
    (split; [intros c' Hc' Hne; try discriminate Hc'; injection Hc' as <-;
             try contradiction; assumption|]);
    (split; [intros r' Hr' Hnz; try discriminate Hr'; injection Hr' as <-;
             try (rewrite (truthy_nonzero _ Hnz) in Er; discriminate Er);
             match goal with
             | F : match DB.provider_profile db ?u with _ => _ end = true |- _ =>
                 destruct (DB.provider_profile db u) as [pr|]; [|discriminate F];
                 exists pr; split; [reflexivity|now apply Qle_bool_iff]
             end|]);
    intros p' Hp' Hnz; try discriminate Hp'; injection Hp' as <-;
    try (rewrite (truthy_nonzero _ Hnz) in Ep; discriminate Ep);
    match goal with
    | F : Qle_bool (ProviderService.base_price s) _ = true |- _ =>
        now apply Qle_bool_iff
    end.
Qed.

(** X15. Every service a search returns, in either bucket, is a stored
    active service of an active provider and passes each filter the request
    set: its category name contains the requested text whatever the case,
    its provider's average rating reaches a non-zero min_rating, and its
    base price does not exceed a non-zero max_price. *)
Theorem search_results_pass_filters
        (m : math.t) (db : DB.t) (user : User.t) (request : serializers.SearchData.raw)
        (resp : views.search_response) (h : views.Hit.t) :
  views.ServiceSearchView_post m db user request = rest.Ok resp ->
  In h (more.hits resp) ->
  let s := views.Hit.service h in
  In s (DB.services db)
  /\ ProviderService.is_active s = true
  /\ User.is_active (ProviderService.provider s) = true
  /\ (forall c, serializers.SearchData.raw_category request = Some c -> c <> "" ->
                Py.icontains (ProviderService.category_name s) c = true)
  /\ (forall r, serializers.SearchData.raw_min_rating request = Some r -> ~ r == 0 ->
                exists p,
                  DB.provider_profile db (ProviderService.provider s) = Some p
                  /\ r <= ServiceProviderProfile.average_rating p)
  /\ (forall p, serializers.SearchData.raw_max_price request = Some p -> ~ p == 0 ->
                ProviderService.base_price s <= p).
Proof.
  intros H Hin. cbn zeta.
  pose proof (search_post_ok m db user request resp H)
    as (data & near & far & Hv & Hb & Hn & Hf).
  assert (Hq : In (views.Hit.service h) (views.ServiceSearchView_queryset db data)).
  { pose proof (buckets_members m _ _ _ _ near far Hb h) as [Mn Mf].
    unfold more.hits in Hin. apply in_app_or in Hin. destruct Hin as [Hin|Hin].
    - apply Hn, Mn in Hin. destruct Hin as (s & a & b & Hs & _ & -> & _). exact Hs.
    - apply Hf, Mf in Hin. destruct Hin as (s & a & b & Hs & _ & -> & _). exact Hs. }
  pose proof (search_queryset_has_coordinates db data _ Hq) as [Hstored _].
  pose proof (search_queryset_filters db data _ Hq) as (A1 & A2 & A3 & A4 & A5).
  assert (Hfields : serializers.SearchData.category data
                    = serializers.SearchData.raw_category request
                    /\ serializers.SearchData.min_rating data
                       = serializers.SearchData.raw_min_rating request
                    /\ serializers.SearchData.max_price data
                       = serializers.SearchData.raw_max_price request).
  { unfold serializers.ServiceSearchSerializer_is_valid in Hv.
    destruct (serializers.SearchData.raw_latitude request); [|discriminate].
    destruct (serializers.SearchData.raw_longitude request); [|discriminate].
    repeat match type of Hv with
           | (if ?c then _ else _) = _ => destruct c; try discriminate
           end.
    injection Hv as <-. cbn. auto. }
  destruct Hfields as (E1 & E2 & E3). rewrite E1 in A3. rewrite E2 in A4.
  rewrite E3 in A5. repeat split; assumption.
Qed.

Lemma search_results_pass_filters_witness :
  ProviderService.is_active sample.plumbing = true
  /\ User.is_active (ProviderService.provider sample.plumbing) = true.
Proof.
  destruct (search_results_pass_filters sample.short_walk
              (sample.db_with (sample.booking "pending")) sample.alice
              sample.search_request sample.search_result
              (views.Hit.mk sample.plumbing (2 # 5) true)
              eq_refl (or_introl eq_refl)) as (_ & H1 & H2 & _).
  exact (conj H1 H2).
Defined.

(** X16. A max_price of 0 and a min_rating of 0, both accepted by the
    serializer, filter nothing: the truthiness test skips them, so the
    candidates are those of the same search without that filter (a max_price
    of 0 does not restrict the search to free services). *)
Theorem zero_filters_are_skipped
        (db : DB.t) (data : serializers.SearchData.t) (z : Q) :
  z == 0 ->
  (serializers.SearchData.max_price data = Some z ->
   views.ServiceSearchView_queryset db data
   = views.ServiceSearchView_queryset db (more.without_max_price data))
  /\ (serializers.SearchData.min_rating data = Some z ->
      views.ServiceSearchView_queryset db data
      = views.ServiceSearchView_queryset db (more.without_min_rating data)).
Proof.
  intros Hz. split; intros E; unfold views.ServiceSearchView_queryset;
    cbn [serializers.SearchData.max_price serializers.SearchData.min_rating
         serializers.SearchData.category more.without_max_price
         more.without_min_rating];
    rewrite E, (truthy_zero z Hz); reflexivity.
Qed.

Lemma zero_filters_are_skipped_witness :
  views.ServiceSearchView_queryset (sample.db_with (sample.booking "pending"))
    (serializers.SearchData.mk 0 0 10 None None (Some 0) "distance")
  = views.ServiceSearchView_queryset (sample.db_with (sample.booking "pending"))
      (serializers.SearchData.mk 0 0 10 None None None "distance").
Proof.
  exact (proj1 (zero_filters_are_skipped (sample.db_with (sample.booking "pending"))
                  (serializers.SearchData.mk 0 0 10 None None (Some 0) "distance")
                  0 (Qeq_refl 0)) eq_refl).
Defined.

(** X17. A search is answered only for a user with the customer role whose
    request carries both coordinates and a radius within 1..50 (10 when
    omitted); the response echoes those values, its two totals are the
    lengths of the buckets, and the is_nearby flag of a hit is true exactly
    in the nearby bucket, where the distance is within the radius. *)
Theorem search_response_echo
        (m : math.t) (db : DB.t) (user : User.t) (request : serializers.SearchData.raw)
        (resp : views.search_response) :
  views.ServiceSearchView_post m db user request = rest.Ok resp ->
  User.role user = "customer"
  /\ serializers.SearchData.raw_latitude request = Some (views.echo_latitude resp)
  /\ serializers.SearchData.raw_longitude request = Some (views.echo_longitude resp)
  /\ views.echo_radius resp
     = spec.picked (serializers.SearchData.raw_radius request) 10%Z
  /\ (1 <= views.echo_radius resp <= 50)%Z
  /\ views.total_nearby resp = List.length (views.nearby_services resp)
  /\ views.total_distant resp = List.length (views.distant_services resp)
  /\ (forall h, In h (views.nearby_services resp) ->
                views.Hit.is_nearby h = true
                /\ views.Hit.distance_km h <= inject_Z (views.echo_radius resp))
  /\ (forall h, In h (views.distant_services resp) ->
                views.Hit.is_nearby h = false
                /\ inject_Z (views.echo_radius resp) < views.Hit.distance_km h
                /\ views.Hit.distance_km h <= 50).
Proof.
  intros H. apply search_post_parts in H.
  destruct H as (data & near & far & Hperm & Hv & Hb & Hn & Hf & E1 & E2 & E3 & E4 & E5).
  pose proof (ServiceSearchSerializer_radius request data Hv) as Hr.
  rewrite E1, E2, E3.
  assert (Hfields : serializers.SearchData.raw_latitude request
                    = Some (serializers.SearchData.latitude data)
                    /\ serializers.SearchData.raw_longitude request
                       = Some (serializers.SearchData.longitude data)
                    /\ serializers.SearchData.radius data
                       = spec.picked (serializers.SearchData.raw_radius request) 10%Z).
  { unfold serializers.ServiceSearchSerializer_is_valid in Hv.
    destruct (serializers.SearchData.raw_latitude request); [|discriminate].
    destruct (serializers.SearchData.raw_longitude request); [|discriminate].
    repeat match type of Hv with
           | (if ?c then _ else _) = _ => destruct c; try discriminate
           end.
    injection Hv as <-. cbn. auto. }
  destruct Hfields as (F1 & F2 & F3).
  split; [now apply String.eqb_eq|].
  repeat (split; [assumption|]).
  split.
  - intros h Hin. apply (in_list_sort _ _ _ h Hn) in Hin.
    apply (buckets_members m _ _ _ _ near far Hb h) in Hin.
    destruct Hin as (s & a & b & _ & _ & -> & Hle). cbn in *.
    split; [exact Hle|now apply Qle_bool_iff].
  - intros h Hin. apply (in_list_sort _ _ _ h Hf) in Hin.
    apply (buckets_members m _ _ _ _ near far Hb h) in Hin.
    destruct Hin as (s & a & b & _ & _ & -> & Hgt & Hle). cbn in *.
    split; [exact Hgt|]. split; [|now apply Qle_bool_iff].
    apply Qnot_le_lt. intros C. apply Qle_bool_iff in C. congruence.
Qed.

Lemma search_response_echo_witness :
  views.echo_radius sample.search_result = 10%Z
  /\ views.total_nearby sample.search_result = 1%nat.
Proof.
  destruct (search_response_echo sample.short_walk
              (sample.db_with (sample.booking "pending")) sample.alice
              sample.search_request sample.search_result eq_refl)
    as (_ & _ & _ & H4 & _ & H6 & _).
  exact (conj H4 H6).
Defined.

(* ================================================================= *)
(** ** Further properties: images, read state, statistics *)

Section UpsertFacts.
Context {A : Type} (pk : A -> nat).

Lemma in_upsert_inv (x y : A) (rows : list A) :
  In y (DB.upsert pk x rows) -> y = x \/ In y rows.
Proof.
  induction rows as [|r rest IH]; cbn.
  - intros [<-|[]]. now left.
  - destruct (Nat.eqb (pk r) (pk x)); cbn.
    + intros [<-|H]; auto.
    + intros [<-|H]; auto. destruct (IH H); auto.
Qed.

Lemma in_upsert_other (x y : A) (rows : list A) :
  In y rows -> pk y <> pk x -> In y (DB.upsert pk x rows).
Proof.
  induction rows as [|r rest IH]; cbn; [contradiction|].
  intros [<-|H] Hne.
  - destruct (Nat.eqb_spec (pk r) (pk x)); [contradiction|]. now left.
  - destruct (Nat.eqb (pk r) (pk x)); right; auto.
Qed.
End UpsertFacts.

(** X18. Saving a primary image leaves it the only primary image of its
    service; saving any image stores it, never touches the images of other
    services, and keeps a table in which no service has two primary images
    in that state. *)
Theorem ServiceImage_save_single_primary
        (self : ServiceImage.t) (images : list ServiceImage.t) :
  let stored := snd (more.ServiceImage_save self images) in
  In self stored
  /\ (ServiceImage.is_primary self = true ->
      forall i, In i stored -> more.same_service i self ->
                ServiceImage.is_primary i = true -> i = self)
  /\ (forall i, In i stored -> ~ more.same_service i self -> In i images)
  /\ (more.one_primary images -> more.one_primary stored).
Proof.
  cbn zeta. unfold more.ServiceImage_save. cbn [snd].
  set (demote := fun i : ServiceImage.t =>
                   if Nat.eqb (ProviderService.id (ServiceImage.service i))
                              (ProviderService.id (ServiceImage.service self))
                      && ServiceImage.is_primary i
                   then ServiceImage.set_is_primary false i else i).
  set (before := if ServiceImage.is_primary self then map demote images else images).
  assert (Hrow : forall i, In i before ->
                           (In i images
                            /\ (ServiceImage.is_primary self = true ->
                                more.same_service i self ->
                                ServiceImage.is_primary i = false))
                           \/ (more.same_service i self
                               /\ ServiceImage.is_primary i = false)).
  { unfold before. intros i Hi. destruct (ServiceImage.is_primary self) eqn:Ps.
    - apply in_map_iff in Hi. destruct Hi as (j & <- & Hj). unfold demote.
      destruct (Nat.eqb_spec (ProviderService.id (ServiceImage.service j))
                             (ProviderService.id (ServiceImage.service self))) as [E|N];
        cbn [andb].
      + destruct (ServiceImage.is_primary j) eqn:P.
        * right. split; [exact E|reflexivity].
        * left. split; [exact Hj|]. intros _ _. exact P.
      + left. split; [exact Hj|]. intros _ C. contradiction.
    - left. split; [exact Hi|]. intros C. discriminate. }
  assert (Hsecond : ServiceImage.is_primary self = true ->
                    forall i, In i (DB.upsert ServiceImage.id self before) ->
                              more.same_service i self ->
                              ServiceImage.is_primary i = true -> i = self).
  { intros Ps i Hi Hs Hp. apply in_upsert_inv in Hi. destruct Hi as [->|Hi]; [reflexivity|].
    destruct (Hrow i Hi) as [[_ Hnp]|[_ Hnp]]; [specialize (Hnp Ps Hs)|]; congruence. }
  split; [apply in_upsert|]. split; [exact Hsecond|]. split.
  - intros i Hi Hns. apply in_upsert_inv in Hi. destruct Hi as [->|Hi].
    + exfalso. apply Hns. reflexivity.
    + destruct (Hrow i Hi) as [[Hin _]|[Hs _]]; [exact Hin|contradiction].
  - intros Hone i j Hi Hj Hs Pi Pj.
    destruct (ServiceImage.is_primary self) eqn:Ps.
    + assert (Heither : forall k, In k (DB.upsert ServiceImage.id self before) ->
                                  ServiceImage.is_primary k = true ->
                                  k = self \/ (In k images /\ ~ more.same_service k self)).
      { intros k Hk Pk. apply in_upsert_inv in Hk. destruct Hk as [->|Hk]; [now left|].
        destruct (Hrow k Hk) as [[Hin Hnp]|[_ Hnp]]; [|congruence].
        right. split; [exact Hin|]. intros C. specialize (Hnp eq_refl C). congruence. }
      destruct (Heither i Hi Pi) as [->|[Ii Ni]];
        destruct (Heither j Hj Pj) as [->|[Ij Nj]]; auto; try contradiction.
      exfalso. apply Nj. unfold more.same_service in *. congruence.
    + apply in_upsert_inv in Hi. apply in_upsert_inv in Hj.
      destruct Hi as [->|Hi]; [congruence|]. destruct Hj as [->|Hj]; [congruence|].
      exact (Hone i j Hi Hj Hs Pi Pj).
Qed.

Lemma ServiceImage_save_single_primary_witness :
  In (more.photo 3 sample.plumbing true)
     (snd (more.ServiceImage_save (more.photo 3 sample.plumbing true) more.gallery))
  /\ In (more.photo 2 sample.wiring true)
        (snd (more.ServiceImage_save (more.photo 3 sample.plumbing true) more.gallery))
  /\ more.one_primary
       (snd (more.ServiceImage_save (more.photo 3 sample.plumbing true) more.gallery)).
Proof.
  destruct (ServiceImage_save_single_primary (more.photo 3 sample.plumbing true)
                                             more.gallery)
    as (Hself & _ & _ & Hone).
  split; [exact Hself|]. split; [vm_compute; auto|].
  apply Hone. intros i j Hi Hj Hs Pi Pj.
  destruct Hi as [<-|[<-|[]]]; destruct Hj as [<-|[<-|[]]];
    try reflexivity; discriminate Hs.
Defined.

Section LookupFacts.
Context {A : Type} (pk : A -> nat).

Lemma get_unique (x : A) (rows : list A) :
  NoDup (map pk rows) -> In x rows -> DB.get pk (pk x) rows = Some x.
Proof.
  unfold DB.get. induction rows as [|r rest IH]; intros Hn Hin; [contradiction|].
  cbn [map] in Hn. inversion Hn as [|? ? Hfresh Hrest]; subst.
  cbn [find]. destruct Hin as [->|Hin].
  - now rewrite Nat.eqb_refl.
  - destruct (Nat.eqb_spec (pk r) (pk x)) as [E|_]; [|now apply IH].
    exfalso. apply Hfresh. rewrite E. now apply in_map.
Qed.

Lemma find_upsert (pred : A -> bool) (x : A) (rows : list A) :
  pred x = true -> (forall r, pred r = true -> pk r = pk x) ->
  find pred (DB.upsert pk x rows) = Some x.
Proof.
  intros Hx Hkey. induction rows as [|r rest IH]; cbn [DB.upsert find].
  - now rewrite Hx.
  - destruct (Nat.eqb_spec (pk r) (pk x)) as [_|N]; cbn [find].
    + now rewrite Hx.
    + destruct (pred r) eqn:Hr; [|exact IH]. exfalso. apply N. now apply Hkey.
Qed.

Lemma map_pk_upsert (x : A) (rows : list A) :
  In (pk x) (map pk rows) -> map pk (DB.upsert pk x rows) = map pk rows.
Proof.
  induction rows as [|r rest IH]; intros Hin; [contradiction|].
  cbn [DB.upsert]. destruct (Nat.eqb_spec (pk r) (pk x)) as [E|N]; cbn [map].
  - now rewrite E.
  - f_equal. apply IH. destruct Hin as [E|Hin]; [contradiction|exact Hin].
Qed.
End LookupFacts.

(** X19. With unique notification ids, marking a notification as read
    answers only for a notification of the acting user: afterwards the lookup
    of that id gives the same notification, read, with the time of the
    request as its reading time unless it was read before; no row is added
    or removed and every other notification is as it was. When no
    notification of that id belongs to the user the answer is not-found. *)
Theorem mark_notification_read_effect
        (now : Z) (user : User.t) (k : nat) (inbox : list NotificationState.t) :
  NoDup (map NotificationState.id inbox) ->
  match more.MarkNotificationReadView_post now user k inbox with
  | rest.Ok inbox' =>
      exists n n',
        In n inbox /\ NotificationState.id n = k
        /\ User.eqb (NotificationState.user n) user = true
        /\ DB.get NotificationState.id k inbox' = Some n'
        /\ NotificationState.row n' = NotificationState.row n
        /\ NotificationState.is_read n' = true
        /\ NotificationState.is_sent n' = NotificationState.is_sent n
        /\ NotificationState.read_at n'
           = (if NotificationState.is_read n then NotificationState.read_at n
              else Some now)
        /\ (forall m, NotificationState.id m <> k -> In m inbox' <-> In m inbox)
        /\ map NotificationState.id inbox' = map NotificationState.id inbox
  | rest.NotFound _ =>
      forall n, In n inbox -> NotificationState.id n = k ->
                User.eqb (NotificationState.user n) user = false
  | _ => False
  end.
Proof.
  intros Hpk. unfold more.MarkNotificationReadView_post.
  destruct (find (more.addressed user k) inbox) as [n|] eqn:Hf.
  - apply find_some in Hf. destruct Hf as (Hin & Hp).
    unfold more.addressed in Hp. apply andb_prop in Hp. destruct Hp as (Hid & Hu).
    apply Nat.eqb_eq in Hid. unfold more.Notification_mark_as_read.
    destruct (NotificationState.is_read n) eqn:Hread; cbn [negb snd].
    + exists n, n. rewrite <- Hid, Hread. repeat split; auto.
      now apply get_unique.
    + set (n' := NotificationState.mk (NotificationState.row n) true
                   (NotificationState.is_sent n) (Some now)).
      assert (Hk : NotificationState.id n' = k) by exact Hid.
      exists n, n'. rewrite Hread. repeat split; auto.
      * rewrite <- Hk. apply get_upsert.
      * intros Hm. apply in_upsert_inv in Hm. destruct Hm as [->|Hm]; [|exact Hm].
        contradiction.
      * intros Hm. apply in_upsert_other; [exact Hm|]. now rewrite Hk.
      * apply map_pk_upsert. change (NotificationState.id n') with (NotificationState.id n).
        now apply in_map.
  - intros n Hin Hid. pose proof (find_none _ _ Hf n Hin) as Hp.
    unfold more.addressed in Hp. rewrite Hid, Nat.eqb_refl in Hp. exact Hp.
Qed.

Lemma mark_notification_read_effect_witness :
  exists n',
    DB.get NotificationState.id 1
      (snd (more.Notification_mark_as_read 900 (more.unread 1 sample.bob) more.inbox))
    = Some n'
    /\ NotificationState.is_read n' = true
    /\ NotificationState.read_at n' = Some 900%Z.
Proof.
  assert (Hpk : NoDup (map NotificationState.id more.inbox)).
  { repeat constructor; cbn; intuition discriminate. }
  destruct (mark_notification_read_effect 900 sample.bob 1 more.inbox Hpk)
    as (n & n' & Hin & _ & _ & Hget & _ & Hread & _ & Hat & _).
  destruct Hin as [<-|[<-|[]]]; exists n'; repeat split; assumption.
Defined.

(** X20. Marking a notification as read a second time changes nothing: the
    inbox, and with it the reading time of the first request, stays as the
    first request left it, whenever the second request comes. *)
Theorem mark_notification_read_twice
        (now later : Z) (user : User.t) (k : nat)
        (inbox inbox' : list NotificationState.t) :
  more.MarkNotificationReadView_post now user k inbox = rest.Ok inbox' ->
  more.MarkNotificationReadView_post later user k inbox' = rest.Ok inbox'.
Proof.
  unfold more.MarkNotificationReadView_post.
  destruct (find (more.addressed user k) inbox) as [n|] eqn:Hf; [|discriminate].
  pose proof (find_some _ _ Hf) as (_ & Hp).
  unfold more.Notification_mark_as_read at 1.
  destruct (NotificationState.is_read n) eqn:Hread; cbn [negb snd];
    intros H; injection H as <-.
  - rewrite Hf. unfold more.Notification_mark_as_read. now rewrite Hread.
  - set (n' := NotificationState.mk (NotificationState.row n) true
                 (NotificationState.is_sent n) (Some now)).
    rewrite (find_upsert NotificationState.id (more.addressed user k) n').
    + reflexivity.
    + exact Hp.
    + intros r Hr. unfold more.addressed in Hr, Hp.
      apply andb_prop in Hr. apply andb_prop in Hp.
      destruct Hr as (Hr & _). destruct Hp as (Hp & _).
      apply Nat.eqb_eq in Hr. apply Nat.eqb_eq in Hp.
      change (NotificationState.id n') with (NotificationState.id n). congruence.
Qed.

Lemma mark_notification_read_twice_witness :
  more.MarkNotificationReadView_post 950 sample.bob 1
    [NotificationState.mk (NotificationState.row (more.unread 1 sample.bob))
       true false (Some 900%Z);
     more.unread 2 sample.dave]
  = rest.Ok [NotificationState.mk (NotificationState.row (more.unread 1 sample.bob))
               true false (Some 900%Z);
             more.unread 2 sample.dave].
Proof.
  exact (mark_notification_read_twice 900 950 sample.bob 1 more.inbox _ eq_refl).
Defined.

(* ================================================================= *)
(** ** Further properties: ratings and statistics *)

Lemma list_sum_bounds (lo hi : nat) (l : list nat) :
  (forall x, In x l -> (lo <= x <= hi)%nat) ->
  (lo * List.length l <= list_sum l <= hi * List.length l)%nat.
Proof.
  induction l as [|x rest IH]; intros H.
  - cbn. lia.
  - pose proof (H x (or_introl eq_refl)).
    assert (lo * List.length rest <= list_sum rest <= hi * List.length rest)%nat
      by (apply IH; intros y Hy; apply H; now right).
    change (list_sum (x :: rest)) with (x + list_sum rest)%nat.
    cbn [List.length]. rewrite !Nat.mul_succ_r. lia.
Qed.

(** The mean of ratings between one and five lies between one and five. *)
Lemma Avg_bounds (rows : list Review.t) :
  rows <> [] -> (forall r, In r rows -> more.rated r) ->
  exists q, models.Avg rows = Some q /\ 1 <= q <= 5 /\ Py.or_ (Some q) 0 = q.
Proof.
  intros Hne Hr. destruct rows as [|r0 rest]; [congruence|].
  unfold models.Avg. eexists. split; [reflexivity|].
  set (rows := r0 :: rest) in *.
  assert (Hlen : (0 < List.length rows)%nat) by (cbn; lia).
  assert (Hsum : (1 * List.length rows <= list_sum (map Review.rating rows)
                  <= 5 * List.length rows)%nat).
  { rewrite <- (length_map Review.rating rows). apply list_sum_bounds.
    intros x Hx. apply in_map_iff in Hx. destruct Hx as (r & <- & Hin).
    exact (Hr r Hin). }
  assert (Hpos : 0 < inject_Z (Z.of_nat (List.length rows))).
  { unfold Qlt, inject_Z; cbn [Qnum Qden]. lia. }
  assert (Hq : 1 <= inject_Z (Z.of_nat (list_sum (map Review.rating rows)))
                    / inject_Z (Z.of_nat (List.length rows)) <= 5).
  { split.
    - apply Qle_shift_div_l; [exact Hpos|].
      unfold Qle, Qmult, inject_Z; cbn [Qnum Qden]. lia.
    - apply Qle_shift_div_r; [exact Hpos|].
      unfold Qle, Qmult, inject_Z; cbn [Qnum Qden]. lia. }
  split; [exact Hq|].
  unfold Py.or_.
  destruct (Qeq_bool _ 0) eqn:E; [|reflexivity].
  apply Qeq_bool_eq in E. rewrite E in Hq. destruct Hq as (Hq & _).
  exfalso. revert Hq. unfold Qle; cbn [Qnum Qden]. lia.
Qed.

(** X21. When every stored review has a rating from one to five,
    [update_rating] leaves the profile object either with no review and an
    average of zero, or with at least one review and an average between one
    and five; the count never exceeds the number of stored reviews, and the
    profile stays that of its user. *)
Theorem update_rating_within_bounds
        (self : ServiceProviderProfile.t) (db : DB.t) :
  (forall r, In r (DB.reviews db) -> more.rated r) ->
  let r := models.ServiceProviderProfile_update_rating self db in
  ((ServiceProviderProfile.total_reviews (fst r) = 0%nat
    /\ ServiceProviderProfile.average_rating (fst r) == 0)
   \/ ((0 < ServiceProviderProfile.total_reviews (fst r))%nat
       /\ 1 <= ServiceProviderProfile.average_rating (fst r) <= 5))
  /\ (ServiceProviderProfile.total_reviews (fst r) <= List.length (DB.reviews db))%nat
  /\ ServiceProviderProfile.user (fst r) = ServiceProviderProfile.user self.
Proof.
  intros Hr. cbn zeta.
  pose proof (ServiceProviderProfile_update_rating_effect self db) as (Hu & _ & Hn & _).
  cbn zeta in Hn, Hu. split; [|split; [|exact Hu]].
  - unfold models.ServiceProviderProfile_update_rating. cbn [fst].
    set (rows := filter _ (DB.reviews db)).
    assert (Hrows : forall x, In x rows -> more.rated x).
    { intros x Hx. apply filter_In in Hx. now apply Hr. }
    destruct rows as [|r0 rest] eqn:E.
    + left. cbn. split; reflexivity.
    + right. cbn [ServiceProviderProfile.total_reviews
                  ServiceProviderProfile.average_rating].
      split; [cbn; lia|].
      destruct (Avg_bounds (r0 :: rest)) as (q & Hq & Hb & Hor);
        [discriminate|exact Hrows|].
      rewrite Hq, Hor. exact Hb.
  - rewrite Hn. unfold spec.reviews_of_services_of. apply filter_length_le.
Qed.

Lemma update_rating_within_bounds_witness :
  (0 < ServiceProviderProfile.total_reviews
         (fst (models.ServiceProviderProfile_update_rating
                 (ServiceProviderProfile.mk sample.bob 0 0) (snd more.reviewed))))%nat
  /\ 1 <= ServiceProviderProfile.average_rating
            (fst (models.ServiceProviderProfile_update_rating
                    (ServiceProviderProfile.mk sample.bob 0 0) (snd more.reviewed)))
     <= 5.
Proof.
  destruct (update_rating_within_bounds
              (ServiceProviderProfile.mk sample.bob 0 0) (snd more.reviewed))
    as ([(H0 & _)|H] & _ & _);
    [intros r [<-|[]]; unfold more.rated; cbn; lia|discriminate H0|exact H].
Defined.

Lemma count_status_sum (l : list ServiceBooking.t) :
  List.length l
  = (more.count_status "pending" l + more.count_status "confirmed" l
     + more.count_status "completed" l + more.count_status "cancelled" l
     + List.length
         (filter (fun b => negb (Py.str_in (ServiceBooking.status b)
                                           more.counted_statuses)) l))%nat.
Proof.
  unfold more.count_status. induction l as [|b rest IH]; [reflexivity|].
  cbn [filter List.length]. rewrite IH at 1.
  destruct (String.eqb_spec (ServiceBooking.status b) "pending") as [->|N1];
    [cbn; lia|].
  destruct (String.eqb_spec (ServiceBooking.status b) "confirmed") as [->|N2];
    [cbn; lia|].
  destruct (String.eqb_spec (ServiceBooking.status b) "completed") as [->|N3];
    [cbn; lia|].
  destruct (String.eqb_spec (ServiceBooking.status b) "cancelled") as [->|N4];
    [cbn; lia|].
  assert (Hout : Py.str_in (ServiceBooking.status b) more.counted_statuses = false).
  { apply not_true_is_false. intros C. apply str_in_In in C.
    cbn in C. intuition congruence. }
  rewrite Hout. cbn [negb List.length]. lia.
Qed.

(** X22. The provider statistics are answered to providers only. Their
    total exceeds the sum of the pending, confirmed, completed and cancelled
    counts by exactly the number of the provider's bookings in another
    status (in progress, rejected). With ratings from one to five the
    average rating is zero when nobody reviewed the provider and lies
    between one and five otherwise. *)
Theorem booking_stats_counts (user : User.t) (db : DB.t) (s : more.BookingStats) :
  (forall r, In r (DB.reviews db) -> more.rated r) ->
  more.booking_stats user db = rest.Ok s ->
  permissions.IsProvider user = true
  /\ more.total_bookings s
     = (more.pending_bookings s + more.confirmed_bookings s
        + more.completed_bookings s + more.cancelled_bookings s
        + List.length (more.uncounted user db))%nat
  /\ (spec.reviews_for db user = [] -> more.average_rating s == 0)
  /\ (spec.reviews_for db user <> [] -> 1 <= more.average_rating s <= 5).
Proof.
  intros Hr. unfold more.booking_stats.
  destruct (permissions.IsProvider user) eqn:Hrole; cbn [negb]; [|discriminate].
  intros H. injection H as <-.
  cbn [more.total_bookings more.pending_bookings more.confirmed_bookings
       more.completed_bookings more.cancelled_bookings more.average_rating].
  split; [reflexivity|]. split; [apply count_status_sum|].
  fold (spec.reviews_for db user). split.
  - intros ->. reflexivity.
  - intros Hne. destruct (Avg_bounds (spec.reviews_for db user) Hne) as (q & Hq & Hb & Hor).
    + intros r Hin. apply filter_In in Hin. now apply Hr.
    + rewrite Hq, Hor. exact Hb.
Qed.

Lemma booking_stats_counts_witness :
  more.total_bookings more.bob_stats
  = (more.pending_bookings more.bob_stats + more.confirmed_bookings more.bob_stats
     + more.completed_bookings more.bob_stats + more.cancelled_bookings more.bob_stats
     + List.length (more.uncounted sample.bob (snd more.reviewed)))%nat
  /\ 1 <= more.average_rating more.bob_stats <= 5.
Proof.
  destruct (booking_stats_counts sample.bob (snd more.reviewed) more.bob_stats)
    as (_ & Hsum & _ & Havg);
    [intros r [<-|[]]; unfold more.rated; cbn; lia|reflexivity|].
  split; [exact Hsum|]. apply Havg. discriminate.
Defined.

(* ================================================================= *)
(** ** Further properties: the booking list *)

(** What an accepted booking request stores, and for whom. *)
Lemma booking_post_row
      (m : math.t) (now : Z) (user : User.t) (data : serializers.BookingData.t)
      (db : DB.t) (b : ServiceBooking.t) (db' : DB.t) :
  views.ServiceBookingListCreateView_post m now user data db = rest.Ok (b, db') ->
  ServiceBooking.customer b = user
  /\ User.is_customer user = true
  /\ User.is_provider (ServiceBooking.provider b) = true
  /\ In b (DB.bookings db').
Proof.
  unfold views.ServiceBookingListCreateView_post. intros H.
  apply rest_bind_ok in H. destruct H as (x & Hreq & H).
  apply ServiceBookingSerializer_required_data in Hreq. destruct Hreq as (-> & _).
  apply rest_bind_ok in H. destruct H as (vd & Hv & H).
  pose proof (ServiceBookingSerializer_is_valid_data now data vd Hv). subst vd.
  apply ServiceBookingSerializer_is_valid_facts in Hv.
  destruct Hv as (_ & _ & Hprov & _ & _).
  unfold views.ServiceBookingListCreateView_perform_create in H.
  destruct (User.is_customer user) eqn:Hrole; [|discriminate]. cbn [negb] in H.
  apply rest_bind_ok in H. destruct H as ([b1 db1] & Hc & H).
  injection H as <- <-.
  apply ServiceBookingSerializer_create_keeps in Hc.
  destruct Hc as (vd' & Hc & Ec & Ep & _ & _). cbn in Ec, Ep.
  pose proof (ServiceBooking_objects_create_effect now vd' db b1 db1 Hc)
    as (Fc & Fp & _).
  pose proof (ServiceBooking_objects_create_row now vd' db b1 db1 Hc) as (_ & Frow).
  rewrite Ec in Fc. injection Fc as Fc. rewrite Ep in Fp.
  repeat split; auto.
  unfold spec.booking_row, DB.get in Frow. apply find_some in Frow.
  exact (proj1 Frow).
Qed.

(** X23. A booking created through the list endpoint is in the booking list
    of the customer who created it and in the booking list of its provider;
    and whatever a booking list shows to a user is a stored booking of which
    that user is the customer (for a customer) or the provider (for a
    provider). *)
Theorem created_booking_is_listed
        (m : math.t) (now : Z) (user : User.t) (data : serializers.BookingData.t)
        (db : DB.t) (b : ServiceBooking.t) (db' : DB.t) :
  views.ServiceBookingListCreateView_post m now user data db = rest.Ok (b, db') ->
  In b (more.ServiceBookingListCreateView_get_queryset user db')
  /\ In b (more.ServiceBookingListCreateView_get_queryset (ServiceBooking.provider b) db')
  /\ forall u b2,
       In b2 (more.ServiceBookingListCreateView_get_queryset u db') ->
       In b2 (DB.bookings db')
       /\ ((User.is_customer u = true
            /\ User.id (ServiceBooking.customer b2) = User.id u)
           \/ (User.is_provider u = true
               /\ User.id (ServiceBooking.provider b2) = User.id u)).
Proof.
  intros H. apply booking_post_row in H. destruct H as (Hc & Hrole & Hprov & Hin).
  unfold more.ServiceBookingListCreateView_get_queryset. split; [|split].
  - rewrite Hrole. apply filter_In. split; [exact Hin|].
    rewrite Hc. apply Nat.eqb_refl.
  - assert (Hnc : User.is_customer (ServiceBooking.provider b) = false).
    { unfold User.is_customer, User.is_provider in *.
      apply String.eqb_eq in Hprov. rewrite Hprov. reflexivity. }
    rewrite Hnc, Hprov. apply filter_In. split; [exact Hin|]. apply Nat.eqb_refl.
  - intros u b2. destruct (User.is_customer u).
    + intros H2. apply filter_In in H2. destruct H2 as (H2 & E).
      apply Nat.eqb_eq in E. auto.
    + destruct (User.is_provider u); [|contradiction].
      intros H2. apply filter_In in H2. destruct H2 as (H2 & E).
      apply Nat.eqb_eq in E. auto.
Qed.

Lemma created_booking_is_listed_witness :
  In (fst more.created)
     (more.ServiceBookingListCreateView_get_queryset sample.alice (snd more.created))
  /\ In (fst more.created)
        (more.ServiceBookingListCreateView_get_queryset sample.bob (snd more.created)).
Proof.
  destruct (created_booking_is_listed sample.short_walk 2000 sample.alice
              (more.booking_request_of sample.alice)
              DB.empty (fst more.created) (snd more.created) eq_refl)
    as (Ha & Hb & _).
  exact (conj Ha Hb).
Defined.
